(** * AdSense-to-BigQuery loader: a shallow embedding of [main.py]

    The program fetches AdSense reports for the accounts of four
    credential sets, concatenates them into one pandas DataFrame and loads
    it into a BigQuery table after deleting the rows dated yesterday or
    later.  This file embeds the program in Rocq: Python values and
    exceptions, the pandas operations the program calls, a state-and-
    exception monad over the world the program acts on (clock, object
    store, credential files, warehouse table, logs of external calls), the
    three classes of [main.py], and the theorems about them. *)

From Stdlib Require Import ZArith NArith String Ascii List Bool Lia.
From Stdlib Require Import Floats.SpecFloat.
From stdpp Require Import base option list strings gmap.

Local Open Scope string_scope.
Local Open Scope list_scope.
Local Open Scope Z_scope.

(** ** Python values *)

(** The exception classes the program can meet.  All of them derive from
    [Exception], so an [except Exception] clause catches every one. *)
Inductive exn : Type :=
  | KeyError (key : string)
  | IndexError
  | ValueError
  | AttributeError
  | IntCastingNaNError
  | HttpError (status : nat)
  | TransportError
  | RefreshError
  | OSError
  | GoogleAPIError
  | GenericGBQException.

(** A fallible pure computation: the value, or the exception raised. *)
Inductive result (A : Type) : Type :=
  | Ok (a : A)
  | Raise (e : exn).
Arguments Ok {A} a.
Arguments Raise {A} e.

#[global] Instance result_ret : MRet result := fun A a => Ok a.

#[global] Instance result_bind : MBind result := fun A B k r =>
  match r with
  | Ok a => k a
  | Raise e => Raise e
  end.

Fixpoint rmap {A B} (f : A -> result B) (l : list A) : result (list B) :=
  match l with
  | [] => Ok []
  | a :: l' => b ← f a; bs ← rmap f l'; Ok (b :: bs)
  end.

(** A cell of a DataFrame: a Python [str], a binary64 [float] (NaN is the
    missing value) or an [int]. *)
Inductive cell : Type :=
  | CStr (s : string)
  | CFloat (f : spec_float)
  | CInt (z : Z).

Definition NaN : cell := CFloat S754_nan.

Definition isna (v : cell) : bool :=
  match v with
  | CFloat S754_nan => true
  | _ => false
  end.

(** The integer part of a finite float (rounding toward zero); [None] for
    NaN and the infinities. *)
Definition float_trunc (f : spec_float) : option Z :=
  match f with
  | S754_zero _ => Some 0
  | S754_finite s m e =>
      let a := Z.shiftl (Z.pos m) e in
      Some (if s then - a else a)
  | S754_infinity _ => None
  | S754_nan => None
  end.

Definition INT64_MIN : Z := - 2 ^ 63.
Definition INT64_MAX : Z := 2 ^ 63 - 1.

Definition in_int64 (z : Z) : bool := (INT64_MIN <=? z) && (z <=? INT64_MAX).

(** The float64-to-int64 cast of numpy on x86-64: out of range gives the
    "integer indefinite" value. *)
Definition cast_int64 (z : Z) : Z := if in_int64 z then z else INT64_MIN.

(** The builtins [float(s)] and [int(s)] on a [str]: the parsed number, or
    [None] where Python raises [ValueError]. *)
Class PyBuiltins : Type := {
  py_float : string -> option spec_float;
  py_int : string -> option Z
}.

(** A Python [dict] with [str] keys: insertion-ordered, and assigning to a
    key that is present keeps its position. *)
Abbreviation pydict V := (list (string * V)).

Fixpoint dict_get {V} (k : string) (d : pydict V) : option V :=
  match d with
  | [] => None
  | (k', v) :: d' => if String.eqb k k' then Some v else dict_get k d'
  end.

Fixpoint dict_set {V} (k : string) (v : V) (d : pydict V) : pydict V :=
  match d with
  | [] => [(k, v)]
  | (k', v') :: d' =>
      if String.eqb k k' then (k', v) :: d' else (k', v') :: dict_set k v d'
  end.

Definition dict_keys {V} (d : pydict V) : list string := map fst d.

(** [{**a, **b}]: the items of [b] assigned into [a] in order. *)
Definition dict_update {V} (a b : pydict V) : pydict V :=
  fold_left (fun d kv => dict_set (fst kv) (snd kv) d) b a.

(** ** pandas *)

Module Pandas.

(** A DataFrame with the default integer index: the column labels and the
    rows, every row holding one cell per label. *)
Record DataFrame : Type := mkDataFrame {
  columns : list string;
  data : list (list cell)
}.

Definition wf (df : DataFrame) : Prop :=
  NoDup (columns df) /\
  Forall (fun row => length row = length (columns df)) (data df).

(** [pd.DataFrame()] *)
Definition empty_frame : DataFrame := mkDataFrame [] [].

(** [df.empty]: some axis has length 0. *)
Definition empty (df : DataFrame) : bool :=
  match columns df, data df with
  | [], _ => true
  | _, [] => true
  | _, _ => false
  end.

(** [len(df)] *)
Definition len (df : DataFrame) : nat := length (data df).

(** Position of the first column carrying a label. *)
Fixpoint label_pos (c : string) (cols : list string) : option nat :=
  match cols with
  | [] => None
  | c' :: cols' => if String.eqb c c' then Some 0%nat else S <$> label_pos c cols'
  end.

(** The cell of a row under a label; NaN when the row has none. *)
Definition cell_at (cols : list string) (row : list cell) (c : string) : cell :=
  match label_pos c cols with
  | Some i => default NaN (row !! i)
  | None => NaN
  end.

(** Labels of [b] that [a] lacks, in the order of [b]. *)
Definition new_labels (a b : list string) : list string :=
  filter (fun c => label_pos c a = None) b.

(** Union of two label lists in order of first appearance. *)
Definition union_labels (a b : list string) : list string := a ++ new_labels a b.

Definition reindex (cols : list string) (row : list cell) (cols' : list string)
  : list cell :=
  map (cell_at cols row) cols'.

(** [pd.DataFrame(records)] for a list of dicts: one column per key, in
    order of first appearance; a key a record lacks gives NaN. *)
Definition record_labels (records : list (pydict cell)) : list string :=
  fold_left (fun acc r => union_labels acc (dict_keys r)) records [].

Definition record_row (cols : list string) (r : pydict cell) : list cell :=
  map (fun c => default NaN (dict_get c r)) cols.

Definition of_records (records : list (pydict cell)) : DataFrame :=
  let cols := record_labels records in
  mkDataFrame cols (map (record_row cols) records).

(** [pd.concat([a, b], ignore_index=True)]: outer join on the labels, the
    rows of [a] then the rows of [b]. *)
Definition concat (a b : DataFrame) : DataFrame :=
  let cols := union_labels (columns a) (columns b) in
  mkDataFrame cols
    (map (fun row => reindex (columns a) row cols) (data a) ++
     map (fun row => reindex (columns b) row cols) (data b)).

(** [df[labels]]: [KeyError] on the first label that is not a column. *)
Definition getitem (labels : list string) (df : DataFrame) : result DataFrame :=
  match filter (fun c => label_pos c (columns df) = None) labels with
  | c :: _ => Raise (KeyError c)
  | [] => Ok (mkDataFrame labels
                (map (fun row => reindex (columns df) row labels) (data df)))
  end.

(** [df.fillna(v)] *)
Definition fillna (v : cell) (df : DataFrame) : DataFrame :=
  mkDataFrame (columns df)
    (map (map (fun x => if isna x then v else x)) (data df)).

(** [astype(int)] on one cell: an [int] is kept, a finite [float] is
    truncated, NaN and the infinities raise, a [str] goes through [int()]. *)
Definition astype_int_cell `{PyBuiltins} (v : cell) : result cell :=
  match v with
  | CInt z => Ok (CInt z)
  | CFloat f =>
      match float_trunc f with
      | Some z => Ok (CInt (cast_int64 z))
      | None => Raise IntCastingNaNError
      end
  | CStr s =>
      match py_int s with
      | Some z => Ok (CInt z)
      | None => Raise ValueError
      end
  end.

(** [df.astype(int)] *)
Definition astype_int `{PyBuiltins} (df : DataFrame) : result DataFrame :=
  rows ← rmap (rmap astype_int_cell) (data df);
  Ok (mkDataFrame (columns df) rows).

(** The column of [df] under a label, one cell per row. *)
Definition column (c : string) (df : DataFrame) : list cell :=
  map (fun row => cell_at (columns df) row c) (data df).

Fixpoint set_cells (i : nat) (rows : list (list cell)) (col : list cell)
  : list (list cell) :=
  match rows with
  | [] => []
  | row :: rows' =>
      <[i := default NaN (head col)]> row :: set_cells i rows' (tail col)
  end.

Fixpoint add_cells (rows : list (list cell)) (col : list cell)
  : list (list cell) :=
  match rows with
  | [] => []
  | row :: rows' => (row ++ [default NaN (head col)]) :: add_cells rows' (tail col)
  end.

(** [df[c] = col]: replaces the column labelled [c], or adds it last. *)
Definition set_column (c : string) (col : list cell) (df : DataFrame) : DataFrame :=
  match label_pos c (columns df) with
  | Some i => mkDataFrame (columns df) (set_cells i (data df) col)
  | None => mkDataFrame (columns df ++ [c]) (add_cells (data df) col)
  end.

(** [df[labels] = value] for a DataFrame [value]: column by column,
    [df[k1] = value[k2]] over [zip(labels, value.columns)]. *)
Definition setitem (labels : list string) (value df : DataFrame) : DataFrame :=
  fold_left (fun d kk => set_column (fst kk) (column (snd kk) value) d)
    (zip labels (columns value)) df.

(** [df.rename(columns=mapping)]: a new frame; labels outside the mapping
    are kept. *)
Definition rename (mapping : pydict string) (df : DataFrame) : DataFrame :=
  mkDataFrame (map (fun c => default c (dict_get c mapping)) (columns df))
    (data df).

(** The rows as records, label by label: what a bulk insert sends. *)
Definition to_records (df : DataFrame) : list (pydict cell) :=
  map (fun row => zip (columns df) row) (data df).

End Pandas.

Module PandasExamples.
Import Pandas.

Definition f1 : spec_float := S754_finite false 1 0.

Definition r1 : pydict cell := [("a", CStr "x"); ("b", CFloat f1)].
Definition r2 : pydict cell := [("b", CInt 2); ("c", CInt 3)].

Example of_records_union :
  of_records [r1; r2] =
  mkDataFrame ["a"; "b"; "c"]
    [[CStr "x"; CFloat f1; NaN]; [NaN; CInt 2; CInt 3]].
Proof. reflexivity. Qed.

Example concat_outer :
  concat (of_records [r1]) (of_records [r2]) = of_records [r1; r2].
Proof. reflexivity. Qed.

Example concat_empty_left : concat empty_frame (of_records [r1]) = of_records [r1].
Proof. reflexivity. Qed.

Example setitem_replaces :
  setitem ["b"] (mkDataFrame ["b"] [[CInt 7]; [CInt 8]]) (of_records [r1; r2]) =
  mkDataFrame ["a"; "b"; "c"] [[CStr "x"; CInt 7; NaN]; [NaN; CInt 8; CInt 3]].
Proof. reflexivity. Qed.

Example float_trunc_3_7 :
  float_trunc (S754_finite false 4165829655317709 (-50)) = Some 3.
Proof. reflexivity. Qed.

Example float_trunc_neg : float_trunc (S754_finite true 7 (-1)) = Some (-3).
Proof. reflexivity. Qed.

End PandasExamples.

(** ** datetime *)

(** A [datetime] is kept as its date, counted in days from 1970-01-01: the
    program reads the year, month and day of a datetime and nothing else.
    [timedelta(days=n)] is the number [n]. *)
Definition datetime : Type := Z.

Definition timedelta_days (n : Z) : Z := n.

(** Year, month and day of a day count in the proleptic Gregorian
    calendar. *)
Definition civil (d : datetime) : Z * Z * Z :=
  let z := d + 719468 in
  let era := z / 146097 in
  let doe := z - era * 146097 in
  let yoe := (doe - doe / 1460 + doe / 36524 - doe / 146096) / 365 in
  let doy := doe - (365 * yoe + yoe / 4 - yoe / 100) in
  let mp := (5 * doy + 2) / 153 in
  let dd := doy - (153 * mp + 2) / 5 + 1 in
  let m := if mp <? 10 then mp + 3 else mp - 9 in
  let y := yoe + era * 400 + (if m <=? 2 then 1 else 0) in
  (y, m, dd).

Definition year (d : datetime) : Z := fst (fst (civil d)).
Definition month (d : datetime) : Z := snd (fst (civil d)).
Definition day (d : datetime) : Z := snd (civil d).

Definition digit (n : Z) : ascii := ascii_of_N (48 + Z.to_N (n mod 10)).

Definition pad2 (n : Z) : string :=
  String (digit (n / 10)) (String (digit n) EmptyString).

Definition pad4 (n : Z) : string :=
  String (digit (n / 1000)) (String (digit (n / 100)) (pad2 n)).

(** [d.strftime('%Y-%m-%d')], for the years 0000 to 9999 of a datetime. *)
Definition strftime_Ymd (d : datetime) : string :=
  (pad4 (year d) +:+ "-" +:+ pad2 (month d) +:+ "-" +:+ pad2 (day d))%string.

Example strftime_epoch : strftime_Ymd 0 = "1970-01-01".
Proof. reflexivity. Qed.

Example strftime_leap_day : strftime_Ymd 19782 = "2024-02-29".
Proof. reflexivity. Qed.

Example strftime_year_end : strftime_Ymd (19782 + 306) = "2024-12-31".
Proof. reflexivity. Qed.

(** ** The external services *)

(** Responses of the AdSense Management API, typed by the API's schema; a
    field the JSON omits is [None], and subscripting it raises [KeyError]. *)
Record api_cell : Type := { cell_value : option string }.
Record api_row : Type := { row_cells : option (list api_cell) }.
Record api_header : Type := { header_name : option string }.
Record api_report : Type := {
  report_headers : option (list api_header);
  report_rows : option (list api_row)
}.
Record api_account : Type := {
  account_name : option string;
  account_displayName : option string
}.
Record api_accounts : Type := { accounts_accounts : option (list api_account) }.

(** The arguments of [reports().generate(...)]. *)
Record report_request : Type := {
  req_account : string;
  req_dateRange : string;
  req_startDate : Z * Z * Z;
  req_endDate : Z * Z * Z;
  req_metrics : list string;
  req_dimensions : list string
}.

(** The [service] object of one credential: what its two requests answer. *)
Record service : Type := {
  accounts_list : result api_accounts;
  reports_generate : report_request -> result api_report
}.

(** An OAuth2 credential as the program reads it. *)
Record Credentials : Type := {
  token : option string;
  expired : bool;
  refresh_token : option string
}.

Definition valid (c : Credentials) : bool :=
  match token c with
  | Some _ => negb (expired c)
  | None => false
  end.

Definition truthy (s : option string) : bool :=
  match s with
  | Some s => negb (String.eqb s "")
  | None => false
  end.

Inductive file : Type :=
  | FileCredentials (c : Credentials)
  | FileOther.

(** A row of the warehouse table. *)
Abbreviation wrow := (pydict cell).

(** The requests sent to the AdSense API and to the warehouse, as logged
    when the program makes them. *)
Inductive api_event : Type :=
  | EvAccountsList
  | EvReportsGenerate (req : report_request).

Inductive bq_event : Type :=
  | EvQuery (cutoff : string)
  | EvQueryDone
  | EvAppend (rows : list wrow).

(** Lines printed on standard output. *)
Inductive msg : Type :=
  | Msg (text : string)
  | MsgStr (text arg : string)
  | MsgNum (text : string) (n : nat)
  | MsgExn (text : string) (e : exn)
  | MsgDates (account from to : string)
  | MsgTable (rows : list (string * string)).

(** What the program cannot control: the clock reading of each call of
    [datetime.now()], the answers of the OAuth endpoints and of the API
    discovery, and the failures of the file system and of the warehouse
    (the n-th warehouse request raises [bq_fault n] when it is [Some]). *)
Record env : Type := {
  clock : nat -> N;
  oauth_refresh : Credentials -> result Credentials;
  oauth_flow : string -> result Credentials;
  discovery_build : Credentials -> result service;
  write_fault : string -> option exn;
  bq_connect : option exn;
  bq_fault : nat -> option exn
}.

(** The state the program acts on. *)
Record world : Type := mkWorld {
  w_env : env;
  w_ticks : nat;
  w_heap : list Pandas.DataFrame;
  w_files : gmap string file;
  w_table : list wrow;
  w_bq_calls : nat;
  w_api_log : list api_event;
  w_bq_log : list bq_event;
  w_stdout : list msg
}.

Definition set_ticks (n : nat) (w : world) : world :=
  mkWorld (w_env w) n (w_heap w) (w_files w) (w_table w) (w_bq_calls w)
    (w_api_log w) (w_bq_log w) (w_stdout w).
Definition set_heap (h : list Pandas.DataFrame) (w : world) : world :=
  mkWorld (w_env w) (w_ticks w) h (w_files w) (w_table w) (w_bq_calls w)
    (w_api_log w) (w_bq_log w) (w_stdout w).
Definition set_files (fs : gmap string file) (w : world) : world :=
  mkWorld (w_env w) (w_ticks w) (w_heap w) fs (w_table w) (w_bq_calls w)
    (w_api_log w) (w_bq_log w) (w_stdout w).
Definition set_table (t : list wrow) (w : world) : world :=
  mkWorld (w_env w) (w_ticks w) (w_heap w) (w_files w) t (w_bq_calls w)
    (w_api_log w) (w_bq_log w) (w_stdout w).
Definition set_bq_calls (n : nat) (w : world) : world :=
  mkWorld (w_env w) (w_ticks w) (w_heap w) (w_files w) (w_table w) n
    (w_api_log w) (w_bq_log w) (w_stdout w).
Definition set_api_log (l : list api_event) (w : world) : world :=
  mkWorld (w_env w) (w_ticks w) (w_heap w) (w_files w) (w_table w)
    (w_bq_calls w) l (w_bq_log w) (w_stdout w).
Definition set_bq_log (l : list bq_event) (w : world) : world :=
  mkWorld (w_env w) (w_ticks w) (w_heap w) (w_files w) (w_table w)
    (w_bq_calls w) (w_api_log w) l (w_stdout w).
Definition set_stdout (l : list msg) (w : world) : world :=
  mkWorld (w_env w) (w_ticks w) (w_heap w) (w_files w) (w_table w)
    (w_bq_calls w) (w_api_log w) (w_bq_log w) l.

(** ** The monad of the program: state, and exceptions that keep the state *)

Definition M (A : Type) : Type := world -> result A * world.

#[global] Instance M_ret : MRet M := fun A a w => (Ok a, w).

#[global] Instance M_bind : MBind M := fun A B k m w =>
  match m w with
  | (Ok a, w') => k a w'
  | (Raise e, w') => (Raise e, w')
  end.

Definition raise {A} (e : exn) : M A := fun w => (Raise e, w).

Definition lift {A} (r : result A) : M A := fun w => (r, w).

(** [try: body  except Exception as e: handler(e)] *)
Definition try_except {A} (body : M A) (handler : exn -> M A) : M A := fun w =>
  match body w with
  | (Ok a, w') => (Ok a, w')
  | (Raise e, w') => handler e w'
  end.

(** [for x in l: s = body(x, s)] *)
Fixpoint for_each {A S} (l : list A) (body : A -> S -> M S) (s : S) : M S :=
  match l with
  | [] => mret s
  | x :: l' => s' ← body x s; for_each l' body s'
  end.

Definition print (m : msg) : M unit := fun w =>
  (Ok tt, set_stdout (w_stdout w ++ [m]) w).

(** [datetime.now()] *)
Definition now : M datetime := fun w =>
  (Ok (Z.of_N (clock (w_env w) (w_ticks w))), set_ticks (S (w_ticks w)) w).

(** ** DataFrame objects *)

(** A variable holds a reference to a DataFrame object of the store; two
    variables holding one reference see each other's in-place updates. *)
Definition ref : Type := nat.

Definition new_frame (df : Pandas.DataFrame) : M ref := fun w =>
  (Ok (length (w_heap w)), set_heap (w_heap w ++ [df]) w).

(** Reading through a reference that holds no DataFrame is an attribute
    lookup on an object that is not one. *)
Definition read_frame (r : ref) : M Pandas.DataFrame := fun w =>
  match w_heap w !! r with
  | Some df => (Ok df, w)
  | None => (Raise AttributeError, w)
  end.

Definition write_frame (r : ref) (df : Pandas.DataFrame) : M unit := fun w =>
  (Ok tt, set_heap (<[r := df]> (w_heap w)) w).

(** [pd.DataFrame()] *)
Definition pd_DataFrame_empty : M ref := new_frame Pandas.empty_frame.

(** [pd.DataFrame(records)] *)
Definition pd_DataFrame (records : list (pydict cell)) : M ref :=
  new_frame (Pandas.of_records records).

(** [pd.concat([a, b], ignore_index=True)] *)
Definition pd_concat (a b : ref) : M ref :=
  fa ← read_frame a;
  fb ← read_frame b;
  new_frame (Pandas.concat fa fb).

Definition df_empty (df : ref) : M bool :=
  f ← read_frame df; mret (Pandas.empty f).

Definition df_len (df : ref) : M nat :=
  f ← read_frame df; mret (Pandas.len f).

(** [df[labels]]: a new frame, used as a value. *)
Definition df_getitem (labels : list string) (df : ref) : M Pandas.DataFrame :=
  f ← read_frame df; lift (Pandas.getitem labels f).

(** [df[labels] = value]: updates the object [df] refers to. *)
Definition df_setitem (labels : list string) (value : Pandas.DataFrame) (df : ref)
  : M unit :=
  f ← read_frame df; write_frame df (Pandas.setitem labels value f).

(** [df.rename(columns=mapping)]: a new object. *)
Definition df_rename (mapping : pydict string) (df : ref) : M ref :=
  f ← read_frame df; new_frame (Pandas.rename mapping f).

(** ** Configuration constants *)

Definition CLIENT_SECRETS_FILE : string := "path/to/your/client_secret.json".
Definition CREDENTIALS_FILE : string := "path/to/your/adsense_credentials.json".
Definition CREDENTIALS_FILE_2 : string := "path/to/your/adsense_credentials_2.json".
Definition CREDENTIALS_FILE_3 : string := "path/to/your/adsense_credentials_3.json".
Definition CREDENTIALS_FILE_4 : string := "path/to/your/adsense_credentials_4.json".
Definition BIGQUERY_PROJECT_ID : string := "your_bigquery_project_id".
Definition BIGQUERY_DATASET_ID : string := "your_bigquery_dataset".
Definition BIGQUERY_TABLE_ID : string := "your_bigquery_table".
Definition BIGQUERY_SERVICE_ACCOUNT_KEY_FILE : string :=
  "path/to/your/bigquery_service_account_key.json".
Definition TABLE_FULL_NAME : string :=
  (BIGQUERY_PROJECT_ID +:+ "." +:+ BIGQUERY_DATASET_ID +:+ "." +:+
   BIGQUERY_TABLE_ID)%string.

(** ** class BigQueryClient *)

Record BigQueryClient : Type := {
  bq_credentials : string;
  bq_project : string
}.

(** The statement [DELETE FROM `table` WHERE date >= 'cutoff']. *)
Record delete_query : Type := {
  q_table : string;
  q_cutoff : string
}.

(** [date >= 'cutoff'] on a stored row: true for a date string not below
    the cutoff; a row without a date string is not matched. *)
Definition date_ge (cutoff : string) (r : wrow) : bool :=
  match dict_get "date" r with
  | Some (CStr s) => String.leb cutoff s
  | _ => false
  end.

Definition log_bq (e : bq_event) : M unit := fun w =>
  (Ok tt, set_bq_log (w_bq_log w ++ [e]) w).

(** One request to the warehouse: counted, and failing when the
    environment says so. *)
Definition bq_request : M unit := fun w =>
  let w' := set_bq_calls (S (w_bq_calls w)) w in
  match bq_fault (w_env w) (w_bq_calls w) with
  | Some e => (Raise e, w')
  | None => (Ok tt, w')
  end.

Definition modify_table (f : list wrow -> list wrow) : M unit := fun w =>
  (Ok tt, set_table (f (w_table w)) w).

(** [self.client.query(query)]: submits the job. *)
Definition client_query (q : delete_query) : M delete_query :=
  log_bq (EvQuery (q_cutoff q));;
  bq_request;;
  mret q.

(** [query_job.result()]: returns when the job has completed; the matched
    rows are gone from the table by then. *)
Definition query_job_result (job : delete_query) : M unit :=
  bq_request;;
  modify_table (List.filter (fun r => negb (date_ge (q_cutoff job) r)));;
  log_bq EvQueryDone.

(** [pandas_gbq.to_gbq(df, TABLE_FULL_NAME, if_exists='append')] *)
Definition to_gbq (df : ref) : M unit :=
  f ← read_frame df;
  log_bq (EvAppend (Pandas.to_records f));;
  bq_request;;
  modify_table (fun t => t ++ Pandas.to_records f).

(** [service_account.Credentials.from_service_account_file(...)] and
    [bigquery.Client(...)] *)
Definition connect_bigquery : M unit := fun w =>
  match bq_connect (w_env w) with
  | Some e => (Raise e, w)
  | None => (Ok tt, w)
  end.

Definition BigQueryClient_init : M BigQueryClient :=
  print (Msg "Initializing BigQuery client...");;
  connect_bigquery;;
  print (Msg "BigQuery client initialized.");;
  mret {| bq_credentials := BIGQUERY_SERVICE_ACCOUNT_KEY_FILE;
          bq_project := BIGQUERY_PROJECT_ID |}.

Definition delete_yesterday_data (self : BigQueryClient) : M unit :=
  current_date ← now;
  let previous_date := strftime_Ymd (current_date - timedelta_days 1) in
  let query := {| q_table := TABLE_FULL_NAME; q_cutoff := previous_date |} in
  print (MsgStr "Deleting yesterday's data from BigQuery..." previous_date);;
  query_job ← client_query query;
  query_job_result query_job;;
  print (Msg "Yesterday's data deleted successfully.").

Definition int_cols : list string :=
  ["CLICKS"; "PAGE_VIEWS"; "TOTAL_IMPRESSIONS"; "IMPRESSIONS";
   "INDIVIDUAL_AD_IMPRESSIONS"; "MATCHED_AD_REQUESTS"; "AD_REQUESTS"].

Definition rename_columns : pydict string :=
  [("AD_REQUESTS_CTR", "ctr"); ("COST_PER_CLICK", "cpc")].

Definition push_to_bigquery `{PyBuiltins} (self : BigQueryClient) (df : ref) : M unit :=
  is_empty ← df_empty df;
  if (is_empty : bool) then
    print (Msg "No data to insert into BigQuery.")
  else
    selected ← df_getitem int_cols df;
    coerced ← lift (Pandas.astype_int (Pandas.fillna (CInt 0) selected));
    df_setitem int_cols coerced df;;
    df ← df_rename rename_columns df;
    delete_yesterday_data self;;
    n ← df_len df;
    print (MsgNum "Pushing rows to BigQuery..." n);;
    to_gbq df;;
    print (Msg "Data successfully inserted into BigQuery.").

(** ** class AdSenseAPI *)

Record AdSenseAPI : Type := mkAdSenseAPI {
  api_service : option service;
  api_credentials : option Credentials;
  client_secrets_file : string;
  credentials_file : string
}.

Definition with_credentials (c : Credentials) (self : AdSenseAPI) : AdSenseAPI :=
  mkAdSenseAPI (api_service self) (Some c) (client_secrets_file self)
    (credentials_file self).

Definition with_service (s : service) (self : AdSenseAPI) : AdSenseAPI :=
  mkAdSenseAPI (Some s) (api_credentials self) (client_secrets_file self)
    (credentials_file self).

(** [os.path.exists(path)] *)
Definition path_exists (path : string) : M bool := fun w =>
  (Ok (bool_decide (is_Some (w_files w !! path))), w).

(** [Credentials.from_authorized_user_file(path, SCOPES)] *)
Definition from_authorized_user_file (path : string) : M Credentials := fun w =>
  match w_files w !! path with
  | Some (FileCredentials c) => (Ok c, w)
  | Some FileOther => (Raise ValueError, w)
  | None => (Raise OSError, w)
  end.

(** [os.makedirs(dirname(path), exist_ok=True)], then writing the
    credential as JSON to [path]. *)
Definition write_credentials (path : string) (c : Credentials) : M unit := fun w =>
  match write_fault (w_env w) path with
  | Some e => (Raise e, w)
  | None => (Ok tt, set_files (<[path := FileCredentials c]> (w_files w)) w)
  end.

Definition ask {A} (f : env -> A) : M A := fun w => (Ok (f (w_env w)), w).

Definition authenticate (self : AdSenseAPI) : M AdSenseAPI :=
  print (MsgStr "Authenticating with credentials file: " (credentials_file self));;
  found ← path_exists (credentials_file self);
  self ← (if (found : bool) then
            c ← from_authorized_user_file (credentials_file self);
            print (MsgStr "Using existing credentials from " (credentials_file self));;
            mret (with_credentials c self)
          else mret self);
  self ← (match api_credentials self with
          | Some c =>
              if expired c && truthy (refresh_token c) then
                print (Msg "Refreshing expired credentials...");;
                refreshed ← ask (fun e => oauth_refresh e c);
                c' ← lift refreshed;
                mret (with_credentials c' self)
              else mret self
          | None => mret self
          end);
  self ← (if match api_credentials self with
             | Some c => negb (valid c)
             | None => true
             end
          then
            print (Msg "No valid credentials found. Starting OAuth flow...");;
            flow ← ask (fun e => oauth_flow e (client_secrets_file self));
            c ← lift flow;
            write_credentials (credentials_file self) c;;
            print (Msg "OAuth flow completed, credentials saved.");;
            mret (with_credentials c self)
          else mret self);
  built ← ask (fun e => match api_credentials self with
                        | Some c => discovery_build e c
                        | None => Raise AttributeError
                        end);
  s ← lift built;
  print (Msg "AdSense service initialized.");;
  mret (with_service s self).

Definition AdSenseAPI_init (client_secrets_file credentials_file : string)
  : M AdSenseAPI :=
  authenticate (mkAdSenseAPI None None client_secrets_file credentials_file).

(** [d[key]] for a field of an API response. *)
Definition subscript {A} (key : string) (field : option A) : result A :=
  match field with
  | Some a => Ok a
  | None => Raise (KeyError key)
  end.

(** [l[i]] for a list. *)
Definition index {A} (l : list A) (i : nat) : result A :=
  match l !! i with
  | Some a => Ok a
  | None => Raise IndexError
  end.

Definition log_api (e : api_event) : M unit := fun w =>
  (Ok tt, set_api_log (w_api_log w ++ [e]) w).

(** [self.service.accounts().list().execute()] *)
Definition execute_accounts_list (self : AdSenseAPI) : M api_accounts :=
  match api_service self with
  | None => raise AttributeError
  | Some s => log_api EvAccountsList;; lift (accounts_list s)
  end.

(** [self.service.accounts().reports().generate(...).execute()] *)
Definition execute_reports_generate (self : AdSenseAPI) (req : report_request)
  : M api_report :=
  match api_service self with
  | None => raise AttributeError
  | Some s => log_api (EvReportsGenerate req);; lift (reports_generate s req)
  end.

Definition list_accounts (self : AdSenseAPI) : M (list string) :=
  try_except
    (print (Msg "Fetching AdSense accounts...");;
     accounts ← execute_accounts_list self;
     acc ← for_each (default [] (accounts_accounts accounts))
       (fun account (acc : list string * list (string * string)) =>
          account_id ← lift (subscript "name" (account_name account));
          display_name ← lift (subscript "displayName" (account_displayName account));
          mret (fst acc ++ [account_id], snd acc ++ [(account_id, display_name)]))
       ([], []);
     print (Msg "Available AdSense Accounts:");;
     print (MsgTable (snd acc));;
     mret (fst acc))
    (fun e =>
       print (MsgExn "Error listing AdSense accounts: " e);;
       mret []).

Definition report_metrics : list string :=
  ["ESTIMATED_EARNINGS"; "PAGE_VIEWS"; "PAGE_VIEWS_RPM"; "CLICKS";
   "AD_REQUESTS_CTR"; "COST_PER_CLICK"; "TOTAL_IMPRESSIONS";
   "AD_REQUESTS"; "MATCHED_AD_REQUESTS"; "IMPRESSIONS";
   "INDIVIDUAL_AD_IMPRESSIONS"].

Definition report_dimensions : list string := ["DATE"; "DOMAIN_NAME"; "COUNTRY_CODE"].

Definition report_request_for (account_id : string) (previous_date current_dt : datetime)
  : report_request :=
  {| req_account := account_id;
     req_dateRange := "CUSTOM";
     req_startDate := (year previous_date, month previous_date, day previous_date);
     req_endDate := (year current_dt, month current_dt, day current_dt);
     req_metrics := report_metrics;
     req_dimensions := report_dimensions |}.

(** [row['cells'][i]['value']] *)
Definition cell_value_at (row : api_row) (i : nat) : result string :=
  cells ← subscript "cells" (row_cells row);
  c ← index cells i;
  subscript "value" (cell_value c).

(** [float(s)] *)
Definition float_of_str `{PyBuiltins} (s : string) : result spec_float :=
  match py_float s with
  | Some f => Ok f
  | None => Raise ValueError
  end.

(** The dict comprehension over [zip(report['headers'][3:], row['cells'][3:])]. *)
Fixpoint metrics_of `{PyBuiltins} (pairs : list (api_header * api_cell))
    (metrics : pydict cell) : result (pydict cell) :=
  match pairs with
  | [] => Ok metrics
  | (header, c) :: pairs' =>
      name ← subscript "name" (header_name header);
      value ← subscript "value" (cell_value c);
      f ← float_of_str value;
      metrics_of pairs' (dict_set name (CFloat f) metrics)
  end.

(** One turn of the loop over [report['rows']]: the dict [row_data]. *)
Definition row_data_of `{PyBuiltins} (account_id : string) (report : api_report)
    (row : api_row) : result (pydict cell) :=
  report_date ← cell_value_at row 0;
  domain ← cell_value_at row 1;
  country ← cell_value_at row 2;
  headers ← subscript "headers" (report_headers report);
  cells ← subscript "cells" (row_cells row);
  metrics ← metrics_of (zip (drop 3 headers) (drop 3 cells)) [];
  Ok (dict_update
        [("account_id", CStr account_id); ("date", CStr report_date);
         ("domain", CStr domain); ("country", CStr country)]
        metrics).

Definition fetch_report `{PyBuiltins} (self : AdSenseAPI) (account_id : string) : M ref :=
  t ← now;
  let previous_date := t - timedelta_days 1 in
  current_dt ← now;
  print (MsgDates account_id (strftime_Ymd previous_date) (strftime_Ymd current_dt));;
  try_except
    (report ← execute_reports_generate self
                (report_request_for account_id previous_date current_dt);
     match report_rows report with
     | None =>
         print (Msg "No rows found in the report.");;
         pd_DataFrame_empty
     | Some report_rows =>
         rows ← lift (rmap (row_data_of account_id report) report_rows);
         pd_DataFrame rows
     end)
    (fun e =>
       print (MsgExn "Error fetching AdSense report: " e);;
       pd_DataFrame_empty).

(** ** class AdSenseReportProcessor *)

Record AdSenseReportProcessor : Type := {
  adsense_api_1 : AdSenseAPI;
  adsense_api_2 : AdSenseAPI;
  adsense_api_3 : AdSenseAPI;
  adsense_api_4 : AdSenseAPI;
  bigquery_client : BigQueryClient
}.

Definition AdSenseReportProcessor_init : M AdSenseReportProcessor :=
  api_1 ← AdSenseAPI_init CLIENT_SECRETS_FILE CREDENTIALS_FILE;
  api_2 ← AdSenseAPI_init CLIENT_SECRETS_FILE CREDENTIALS_FILE_2;
  api_3 ← AdSenseAPI_init CLIENT_SECRETS_FILE CREDENTIALS_FILE_3;
  api_4 ← AdSenseAPI_init CLIENT_SECRETS_FILE CREDENTIALS_FILE_4;
  bq ← BigQueryClient_init;
  mret {| adsense_api_1 := api_1; adsense_api_2 := api_2;
          adsense_api_3 := api_3; adsense_api_4 := api_4;
          bigquery_client := bq |}.

(** The two nested loops over one list of API objects: every account's
    report is concatenated onto [all_data]. *)
Definition process_source `{PyBuiltins} (apis : list AdSenseAPI) (all_data : ref) : M ref :=
  for_each apis
    (fun adsense_api (all_data : ref) =>
       accounts ← list_accounts adsense_api;
       for_each accounts
         (fun account_id (all_data : ref) =>
            df ← fetch_report adsense_api account_id;
            pd_concat all_data df)
         all_data)
    all_data.

Definition process_reports `{PyBuiltins} (self : AdSenseReportProcessor) : M unit :=
  all_data ← pd_DataFrame_empty;
  all_data ← process_source [adsense_api_1 self] all_data;
  all_data ← process_source [adsense_api_2 self] all_data;
  all_data ← process_source [adsense_api_3 self] all_data;
  all_data ← process_source [adsense_api_4 self] all_data;
  is_empty ← df_empty all_data;
  if negb is_empty then
    push_to_bigquery (bigquery_client self) all_data
  else
    print (Msg "No data fetched from AdSense accounts.").

(** The script body under [if __name__ == '__main__']. *)
Definition main `{PyBuiltins} : M unit :=
  print (Msg "Starting multi-account AdSense report processing...");;
  processor ← AdSenseReportProcessor_init;
  process_reports processor;;
  print (Msg "Multi-account AdSense report processing completed.").

(** * Facts about the pandas operations *)

Module PandasFacts.
Import Pandas.

Lemma label_pos_None c cols : label_pos c cols = None <-> c ∉ cols.
Proof.
  induction cols as [|c' cols IH]; simpl.
  - split; [intros _; apply not_elem_of_nil | done].
  - destruct (String.eqb_spec c c') as [->|Hne].
    + split; [done | intros Hn; exfalso; apply Hn; left].
    + rewrite not_elem_of_cons. destruct (label_pos c cols); simpl.
      * split; [done | intros [_ Hn]; apply IH in Hn; done].
      * split; [intros _; split; [done | by apply IH] | done].
Qed.

Lemma label_pos_Some c cols i : label_pos c cols = Some i -> cols !! i = Some c.
Proof.
  revert i. induction cols as [|c' cols IH]; simpl; intros i; [done|].
  destruct (String.eqb_spec c c') as [->|Hne].
  - intros [= <-]. done.
  - destruct (label_pos c cols) as [j|]; simpl; [|done].
    intros [= <-]. simpl. by apply IH.
Qed.

Lemma label_pos_elem_of c cols : c ∈ cols -> exists i, label_pos c cols = Some i.
Proof.
  intros Hin. destruct (label_pos c cols) as [i|] eqn:E; [eauto|].
  apply label_pos_None in E. done.
Qed.

Lemma label_pos_NoDup cols i c :
  NoDup cols -> cols !! i = Some c -> label_pos c cols = Some i.
Proof.
  intros Hnd Hi.
  destruct (label_pos_elem_of c cols) as [j Hj].
  { apply list_elem_of_lookup. eauto. }
  rewrite Hj. f_equal.
  apply label_pos_Some in Hj.
  eapply NoDup_lookup; eauto.
Qed.

Lemma cell_at_not_in cols row c : c ∉ cols -> cell_at cols row c = NaN.
Proof. intros Hn. unfold cell_at. apply label_pos_None in Hn. by rewrite Hn. Qed.

(** A row computed label by label reads back, under each of its labels,
    the value computed for that label. *)
Lemma cell_at_map (f : string -> cell) cols c :
  c ∈ cols -> cell_at cols (map f cols) c = f c.
Proof.
  intros Hin. unfold cell_at.
  destruct (label_pos_elem_of c cols Hin) as [i Hi]. rewrite Hi.
  apply label_pos_Some in Hi.
  rewrite list_lookup_fmap_Some_2 with (x := c); done.
Qed.

Lemma elem_of_union_labels a b c : c ∈ union_labels a b <-> c ∈ a \/ c ∈ b.
Proof.
  unfold union_labels, new_labels.
  rewrite elem_of_app, list_elem_of_filter, label_pos_None.
  destruct (decide (c ∈ a)); tauto.
Qed.

Lemma NoDup_union_labels a b : NoDup a -> NoDup b -> NoDup (union_labels a b).
Proof.
  intros Ha Hb. unfold union_labels, new_labels.
  apply NoDup_app. split; [done|]. split.
  - intros c Hc. rewrite list_elem_of_filter, label_pos_None. tauto.
  - by apply NoDup_filter.
Qed.

(** Reindexing keeps the cell under every label of the row, and reads NaN
    under any other label, whatever the target labels. *)
Lemma cell_at_reindex cols row cols' c :
  c ∈ cols' -> cell_at cols' (reindex cols row cols') c = cell_at cols row c.
Proof. intros Hin. unfold reindex. by rewrite cell_at_map. Qed.

Lemma cell_at_reindex_union_l a b row c :
  cell_at (union_labels a b) (reindex a row (union_labels a b)) c = cell_at a row c.
Proof.
  destruct (decide (c ∈ union_labels a b)) as [Hin|Hn].
  - by apply cell_at_reindex.
  - rewrite (cell_at_not_in _ _ _ Hn). symmetry. apply cell_at_not_in.
    rewrite elem_of_union_labels in Hn. tauto.
Qed.

Lemma cell_at_reindex_union_r a b row c :
  cell_at (union_labels a b) (reindex b row (union_labels a b)) c = cell_at b row c.
Proof.
  destruct (decide (c ∈ union_labels a b)) as [Hin|Hn].
  - by apply cell_at_reindex.
  - rewrite (cell_at_not_in _ _ _ Hn). symmetry. apply cell_at_not_in.
    rewrite elem_of_union_labels in Hn. tauto.
Qed.

(** Under every label, the column of a concatenation is the column of the
    first frame followed by the column of the second. *)
Lemma column_concat a b c : column c (concat a b) = column c a ++ column c b.
Proof.
  unfold column, concat; simpl.
  rewrite map_app, !map_map. f_equal; apply map_ext; intros row.
  - apply cell_at_reindex_union_l.
  - apply cell_at_reindex_union_r.
Qed.

Lemma len_concat a b : len (concat a b) = (len a + len b)%nat.
Proof. unfold len, concat; simpl. by rewrite length_app, !length_map. Qed.

Lemma column_empty_frame c : column c empty_frame = [].
Proof. reflexivity. Qed.

Lemma length_column c df : length (column c df) = len df.
Proof. unfold column, len. apply length_map. Qed.

(** Folding [concat] over a list of frames lays their columns end to end,
    in the order of the list. *)
Lemma column_fold_concat c frames acc :
  column c (fold_left concat frames acc) =
  column c acc ++ List.concat (map (column c) frames).
Proof.
  revert acc. induction frames as [|f frames IH]; intros acc; simpl.
  - by rewrite app_nil_r.
  - by rewrite IH, column_concat, <- app_assoc.
Qed.

Lemma len_fold_concat frames acc :
  len (fold_left concat frames acc) = (len acc + list_sum (map len frames))%nat.
Proof.
  revert acc. induction frames as [|f frames IH]; intros acc; simpl.
  - lia.
  - rewrite IH, len_concat. lia.
Qed.

Lemma rmap_Ok_map {A B} (f : A -> result B) (g : A -> B) (l : list A) :
  Forall (fun a => f a = Ok (g a)) l -> rmap f l = Ok (map g l).
Proof.
  induction 1 as [|a l Ha _ IH]; simpl; [done|].
  rewrite Ha; simpl. rewrite IH. done.
Qed.

Lemma fold_left_ext_Forall {A B} (f g : A -> B -> A) (l : list B) (a : A) :
  Forall (fun x => forall a, f a x = g a x) l -> fold_left f l a = fold_left g l a.
Proof.
  intros Hl. revert a. induction Hl as [|x l Hx _ IH]; intros a; simpl; [done|].
  by rewrite Hx, IH.
Qed.

Lemma set_cells_map {A} (T H : A -> _) i (l : list A) :
  set_cells i (map T l) (map H l) = map (fun x => <[i := H x]> (T x)) l.
Proof. induction l as [|x l IH]; simpl; [done|]. by rewrite IH. Qed.

Section Coercion.
Context `{PyBuiltins}.

(** [fillna(0)] then [astype(int)] on one cell. *)
Definition coerce_cell (v : cell) : result cell :=
  astype_int_cell (if isna v then CInt 0 else v).

Definition coerced (v : cell) : cell :=
  match coerce_cell v with
  | Ok v' => v'
  | Raise _ => v
  end.

(** The row with the cells under the given labels coerced. *)
Definition coerce_row (labels cols : list string) (row : list cell) : list cell :=
  zip_with (fun c v => if bool_decide (c ∈ labels) then coerced v else v) cols row.

Definition coerce_frame (labels : list string) (df : DataFrame) : DataFrame :=
  mkDataFrame (columns df) (map (coerce_row labels (columns df)) (data df)).

(** A cell a count column may hold: an [int], NaN, or a finite [float]. *)
Definition is_count (v : cell) : Prop :=
  match v with
  | CInt _ => True
  | CFloat f => f = S754_nan \/ is_Some (float_trunc f)
  | CStr _ => False
  end.

Lemma coerce_cell_count v : is_count v -> exists z, coerce_cell v = Ok (CInt z).
Proof.
  destruct v as [s|f|z]; simpl; [done| |eauto].
  intros [->|[z Hz]]; [by exists 0|].
  unfold coerce_cell. destruct f; simpl in *; try done; eauto.
Qed.

Lemma coerced_count v : is_count v -> coerce_cell v = Ok (coerced v).
Proof.
  intros Hc. destruct (coerce_cell_count v Hc) as [z Hz].
  unfold coerced. by rewrite Hz.
Qed.

Lemma coerced_int z : coerced (CInt z) = CInt z.
Proof. reflexivity. Qed.

Lemma coerced_is_int v : is_count v -> exists z, coerced v = CInt z.
Proof.
  intros Hc. destruct (coerce_cell_count v Hc) as [z Hz].
  exists z. unfold coerced. by rewrite Hz.
Qed.

Lemma coerced_idemp v : is_count v -> coerced (coerced v) = coerced v.
Proof. intros Hc. destruct (coerced_is_int v Hc) as [z ->]. done. Qed.

Lemma coerced_nan : coerced NaN = CInt 0.
Proof. reflexivity. Qed.

Lemma coerced_finite f z :
  float_trunc f = Some z -> coerced (CFloat f) = CInt (cast_int64 z).
Proof.
  intros Hz. unfold coerced, coerce_cell.
  destruct f; simpl in *; try done; by simplify_eq.
Qed.

(** The table the sink accepts: unique labels, rectangular, the count
    columns present and holding counts. *)
Record consolidated (labels : list string) (df : DataFrame) : Prop := {
  cons_wf : wf df;
  cons_labels : Forall (fun l => l ∈ columns df) labels;
  cons_counts :
    Forall (fun row => Forall (fun l => is_count (cell_at (columns df) row l)) labels)
      (data df)
}.

Lemma getitem_consolidated labels df :
  consolidated labels df ->
  getitem labels df =
  Ok (mkDataFrame labels (map (fun row => reindex (columns df) row labels) (data df))).
Proof.
  intros [_ Hl _]. unfold getitem.
  replace (filter _ labels) with (@nil string); [done|].
  symmetry. induction Hl as [|l ls Hin _ IH]; [done|].
  rewrite filter_cons. destruct (decide _) as [E|_]; [|done].
  apply label_pos_None in E. done.
Qed.

Definition selected (labels : list string) (df : DataFrame) : DataFrame :=
  mkDataFrame labels (map (fun row => reindex (columns df) row labels) (data df)).

Definition selected_coerced (labels : list string) (df : DataFrame) : DataFrame :=
  mkDataFrame labels
    (map (fun row => map (fun l => coerced (cell_at (columns df) row l)) labels)
       (data df)).

Lemma astype_row_counts cols row labels :
  Forall (fun l => is_count (cell_at cols row l)) labels ->
  rmap astype_int_cell
    (map (fun x => if isna x then CInt 0 else x) (reindex cols row labels)) =
  Ok (map (fun l => coerced (cell_at cols row l)) labels).
Proof.
  induction 1 as [|l ls Hl _ IH]; simpl; [done|].
  fold (coerce_cell (cell_at cols row l)).
  rewrite (coerced_count _ Hl); simpl.
  rewrite IH. done.
Qed.

Lemma astype_selected labels df :
  consolidated labels df ->
  astype_int (fillna (CInt 0) (selected labels df)) = Ok (selected_coerced labels df).
Proof.
  intros [_ _ Hc]. unfold astype_int, fillna, selected, selected_coerced; simpl.
  induction Hc as [|row rows Hrow _ IH]; simpl; [done|].
  rewrite (astype_row_counts _ _ _ Hrow); simpl.
  destruct (rmap _ _) as [rows'|e]; simpl in *; [|done].
  by simplify_eq.
Qed.

Lemma column_selected_coerced labels df l :
  l ∈ labels ->
  column l (selected_coerced labels df) =
  map (fun row => coerced (cell_at (columns df) row l)) (data df).
Proof.
  intros Hl. unfold column, selected_coerced; simpl.
  rewrite map_map. apply map_ext; intros row.
  by rewrite (cell_at_map (fun l => coerced (cell_at (columns df) row l))).
Qed.

(** Assigning the columns one after the other, when each value column is
    computed from the rows [rows0] the frame started from. *)
Lemma fold_set_column cols (h : string -> list cell -> cell) (rows0 : list (list cell))
    (ls : list string) (T : list cell -> list cell) :
  Forall (fun l => l ∈ cols) ls ->
  fold_left (fun d kk => set_column (fst kk) (map (h (snd kk)) rows0) d)
    (zip ls ls) (mkDataFrame cols (map T rows0)) =
  mkDataFrame cols
    (map (fun row0 =>
            fold_left (fun r l => <[default 0%nat (label_pos l cols) := h l row0]> r)
              ls (T row0)) rows0).
Proof.
  intros Hls. revert T. induction Hls as [|l ls Hl _ IH]; intros T; simpl.
  - done.
  - unfold set_column at 2; simpl.
    destruct (label_pos_elem_of l cols Hl) as [i Hi]. rewrite Hi.
    rewrite set_cells_map. rewrite (IH (fun x => <[i := h l x]> (T x))).
    done.
Qed.

Lemma lookup_fold_insert cols (g : string -> cell) (ls : list string)
    (r : list cell) (i : nat) (c : string) :
  NoDup cols -> cols !! i = Some c -> Forall (fun l => l ∈ cols) ls ->
  (i < length r)%nat ->
  fold_left (fun r l => <[default 0%nat (label_pos l cols) := g l]> r) ls r !! i =
  if bool_decide (c ∈ ls) then Some (g c) else r !! i.
Proof.
  intros Hnd Hc Hls. revert r.
  induction Hls as [|l ls Hl _ IH]; intros r Hi; simpl.
  - done.
  - rewrite IH by (by rewrite length_insert).
    destruct (decide (c ∈ ls)) as [Hin|Hn].
    + rewrite !bool_decide_eq_true_2; [done | by right | done].
    + rewrite (bool_decide_eq_false_2 _ Hn).
      destruct (label_pos_elem_of l cols Hl) as [j Hj]. rewrite Hj; simpl.
      destruct (decide (c = l)) as [->|Hne].
      * rewrite bool_decide_eq_true_2 by left.
        rewrite (label_pos_NoDup _ _ _ Hnd Hc) in Hj. simplify_eq.
        by rewrite list_lookup_insert_eq.
      * rewrite bool_decide_eq_false_2 by (rewrite elem_of_cons; tauto).
        apply list_lookup_insert_ne. intros ->.
        apply label_pos_Some in Hj. congruence.
Qed.

Lemma length_fold_insert cols (g : string -> cell) (ls : list string) (r : list cell) :
  length (fold_left (fun r l => <[default 0%nat (label_pos l cols) := g l]> r) ls r) =
  length r.
Proof.
  revert r. induction ls as [|l ls IH]; intros r; simpl; [done|].
  by rewrite IH, length_insert.
Qed.

Lemma fold_insert_coerce_row labels cols row :
  NoDup cols -> Forall (fun l => l ∈ cols) labels -> length row = length cols ->
  fold_left
    (fun r l => <[default 0%nat (label_pos l cols) := coerced (cell_at cols row l)]> r)
    labels row =
  coerce_row labels cols row.
Proof.
  intros Hnd Hls Hlen. apply list_eq; intros i.
  unfold coerce_row. rewrite lookup_zip_with.
  destruct (cols !! i) as [c|] eqn:Hc; simpl.
  - assert (i < length row)%nat as Hi.
    { rewrite Hlen. eapply lookup_lt_Some; eauto. }
    rewrite (lookup_fold_insert cols (fun l => coerced (cell_at cols row l))
               labels row i c Hnd Hc Hls Hi).
    destruct (lookup_lt_is_Some_2 row i Hi) as [v Hv]. rewrite Hv; simpl.
    unfold cell_at. rewrite (label_pos_NoDup _ _ _ Hnd Hc), Hv; simpl.
    by destruct (bool_decide _).
  - apply lookup_ge_None. rewrite length_fold_insert, Hlen.
    by apply lookup_ge_None.
Qed.

(** [df[labels] = df[labels].fillna(0).astype(int)] on a consolidated
    table: the frame with the cells of those columns coerced. *)
Lemma setitem_coerced labels df :
  consolidated labels df ->
  setitem labels (selected_coerced labels df) df = coerce_frame labels df.
Proof.
  intros [[Hnd Hrows] Hls Hc]. unfold setitem, coerce_frame.
  change (columns (selected_coerced labels df)) with labels.
  destruct df as [cols rows]; simpl in *.
  transitivity
    (fold_left
       (fun d kk =>
          set_column (fst kk)
            (map ((fun l row => coerced (cell_at cols row l)) (snd kk)) rows) d)
       (zip labels labels) (mkDataFrame cols (map id rows))).
  - rewrite map_id. apply fold_left_ext_Forall.
    apply Forall_forall. intros [a b] Hab d; simpl.
    apply elem_of_zip_r in Hab.
    by rewrite (column_selected_coerced labels (mkDataFrame cols rows) b Hab).
  - etransitivity;
      [exact (fold_set_column cols (fun l row => coerced (cell_at cols row l))
                rows labels id Hls)|].
    f_equal. apply Forall_fmap_ext_1.
    eapply Forall_impl; [exact Hrows|]. intros row Hlen; simpl.
    by apply fold_insert_coerce_row.
Qed.

Lemma counts_positional labels cols row :
  NoDup cols -> length row = length cols ->
  Forall (fun l => is_count (cell_at cols row l)) labels ->
  Forall2 (fun c v => c ∈ labels -> is_count v) cols row.
Proof.
  intros Hnd Hlen Hc. apply Forall2_same_length_lookup_2; [done|].
  intros i c v Hi Hv Hin.
  rewrite Forall_forall in Hc. specialize (Hc c Hin).
  unfold cell_at in Hc. by rewrite (label_pos_NoDup _ _ _ Hnd Hi), Hv in Hc.
Qed.

Lemma coerce_row_idemp labels cols row :
  Forall2 (fun c v => c ∈ labels -> is_count v) cols row ->
  coerce_row labels cols (coerce_row labels cols row) = coerce_row labels cols row.
Proof.
  unfold coerce_row. induction 1 as [|c v cols row Hcv _ IH]; simpl; [done|].
  rewrite IH. f_equal. case_bool_decide; [|done].
  by apply coerced_idemp, Hcv.
Qed.

Lemma length_coerce_row labels cols row :
  length row = length cols -> length (coerce_row labels cols row) = length cols.
Proof. intros Hlen. unfold coerce_row. rewrite length_zip_with. lia. Qed.

(** Under a label of the frame, the coerced row holds the coerced cell if
    the label is a count column, and the cell as it was otherwise. *)
Lemma cell_at_coerce_row labels cols row c :
  length row = length cols -> c ∈ cols ->
  cell_at cols (coerce_row labels cols row) c =
  if bool_decide (c ∈ labels) then coerced (cell_at cols row c)
  else cell_at cols row c.
Proof.
  intros Hlen Hin. unfold cell_at.
  destruct (label_pos_elem_of c cols Hin) as [i Hi]. rewrite Hi.
  apply label_pos_Some in Hi.
  destruct (lookup_lt_is_Some_2 row i) as [v Hv].
  { rewrite Hlen. eapply lookup_lt_Some; eauto. }
  unfold coerce_row. rewrite lookup_zip_with, Hi, Hv; simpl.
  by destruct (bool_decide _).
Qed.

Lemma consolidated_coerce_frame labels df :
  consolidated labels df -> consolidated labels (coerce_frame labels df).
Proof.
  intros [[Hnd Hrows] Hls Hc]. split; [split|..]; simpl; try done.
  - apply Forall_fmap. eapply Forall_impl; [exact Hrows|].
    intros row Hlen; simpl. by apply length_coerce_row.
  - apply Forall_fmap. rewrite Forall_forall in Hrows, Hc.
    apply Forall_forall. intros row Hrow; simpl.
    apply Forall_forall. intros l Hl.
    rewrite cell_at_coerce_row; [|by apply Hrows|].
    + rewrite bool_decide_eq_true_2 by done.
      specialize (Hc row Hrow). rewrite Forall_forall in Hc.
      destruct (coerced_is_int _ (Hc l Hl)) as [z ->]. done.
    + rewrite Forall_forall in Hls. by apply Hls.
Qed.

(** Coercing a table that is already coerced changes nothing. *)
Lemma coerce_frame_idemp labels df :
  consolidated labels df ->
  coerce_frame labels (coerce_frame labels df) = coerce_frame labels df.
Proof.
  intros [[Hnd Hrows] Hls Hc]. unfold coerce_frame; simpl. f_equal.
  rewrite map_map. apply Forall_fmap_ext_1.
  rewrite Forall_forall in Hrows, Hc. apply Forall_forall. intros row Hrow.
  apply coerce_row_idemp, counts_positional; auto.
Qed.

Lemma empty_coerce_frame labels df : empty (coerce_frame labels df) = empty df.
Proof. unfold empty; simpl. by destruct (columns df), (data df). Qed.

End Coercion.

(** The label a column carries after [rename(columns=mapping)] with the
    sink's mapping. *)
Definition rename_label (c : string) : string :=
  if String.eqb c "AD_REQUESTS_CTR" then "ctr"
  else if String.eqb c "COST_PER_CLICK" then "cpc"
  else c.

End PandasFacts.

(** * Running the program *)

Lemma run_bind {A B} (m : M A) (k : A -> M B) (w : world) :
  (m ≫= k) w =
  match m w with
  | (Ok a, w') => k a w'
  | (Raise e, w') => (Raise e, w')
  end.
Proof. reflexivity. Qed.

Lemma run_bind_ok {A B} (m : M A) (k : A -> M B) (w w' : world) (a : A) :
  m w = (Ok a, w') -> (m ≫= k) w = k a w'.
Proof. intros Hm. by rewrite run_bind, Hm. Qed.

Lemma run_bind_raise {A B} (m : M A) (k : A -> M B) (w w' : world) (e : exn) :
  m w = (Raise e, w') -> (m ≫= k) w = (Raise e, w').
Proof. intros Hm. by rewrite run_bind, Hm. Qed.

#[global] Arguments strftime_Ymd : simpl never.
#[global] Arguments timedelta_days : simpl never.
#[global] Arguments Z.sub : simpl never.
#[global] Arguments Z.of_N : simpl never.

(** Unfolds the monad's operations and runs the state updates. *)
Ltac run_step :=
  unfold mbind, M_bind, mret, M_ret, raise, lift, try_except, print, log_bq,
    log_api, modify_table, now, new_frame, write_frame, ask; simpl.

Lemma read_frame_ok (r : ref) (df : Pandas.DataFrame) (w : world) :
  w_heap w !! r = Some df -> read_frame r w = (Ok df, w).
Proof. intros Hr. unfold read_frame. by rewrite Hr. Qed.

(** The cutoff [delete_yesterday_data] computes in a world: the date of
    the day before the clock's next reading. *)
Definition cutoff_at (w : world) : string :=
  strftime_Ymd (Z.of_N (clock (w_env w) (w_ticks w)) - timedelta_days 1).

Definition keep_before (cutoff : string) (t : list wrow) : list wrow :=
  List.filter (fun r => negb (date_ge cutoff r)) t.

Section Sink.
Context `{PyBuiltins}.
Import Pandas PandasFacts.

(** What the sink appends for a table: the coerced frame, renamed, row by
    row. *)
Definition loaded_frame (df : DataFrame) : DataFrame :=
  rename rename_columns (coerce_frame int_cols df).

Definition loaded_rows (df : DataFrame) : list wrow := to_records (loaded_frame df).

Lemma delete_yesterday_data_ok self w :
  bq_fault (w_env w) (w_bq_calls w) = None ->
  bq_fault (w_env w) (S (w_bq_calls w)) = None ->
  exists w',
    delete_yesterday_data self w = (Ok tt, w') /\
    w_env w' = w_env w /\
    w_ticks w' = S (w_ticks w) /\
    w_heap w' = w_heap w /\
    w_files w' = w_files w /\
    w_table w' = keep_before (cutoff_at w) (w_table w) /\
    w_bq_calls w' = S (S (w_bq_calls w)) /\
    w_api_log w' = w_api_log w /\
    w_bq_log w' = w_bq_log w ++ [EvQuery (cutoff_at w); EvQueryDone].
Proof.
  intros H0 H1. eexists. split.
  - unfold delete_yesterday_data, client_query, query_job_result, bq_request.
    run_step. rewrite H0; simpl. rewrite H1; simpl. reflexivity.
  - simpl. rewrite <- app_assoc. done.
Qed.

(** The statements of [push_to_bigquery] from the call of
    [delete_yesterday_data] on, for the renamed frame [df]. *)
Definition delete_then_append (self : BigQueryClient) (df : ref) : M unit :=
  delete_yesterday_data self;;
  n ← df_len df;
  print (MsgNum "Pushing rows to BigQuery..." n);;
  to_gbq df;;
  print (Msg "Data successfully inserted into BigQuery.").

(** On a non-empty consolidated table the sink gets as far as the delete,
    with the caller's frame coerced in place and the renamed frame in a
    new object. *)
Lemma push_to_bigquery_coerces self r df w :
  w_heap w !! r = Some df ->
  empty df = false ->
  consolidated int_cols df ->
  push_to_bigquery self r w =
  delete_then_append self (length (w_heap w))
    (set_heap (<[r := coerce_frame int_cols df]> (w_heap w) ++ [loaded_frame df]) w).
Proof.
  intros Hr Hne Hc.
  assert (r < length (w_heap w))%nat as Hlt by (eapply lookup_lt_Some; eauto).
  unfold push_to_bigquery, df_empty, df_getitem, df_setitem, df_rename.
  rewrite (run_bind_ok _ _ w w false).
  2:{ rewrite (run_bind_ok _ _ w w df) by by apply read_frame_ok.
      run_step. by rewrite Hne. }
  rewrite (run_bind_ok _ _ w w (selected int_cols df)).
  2:{ rewrite (run_bind_ok _ _ w w df) by by apply read_frame_ok.
      run_step. by rewrite (getitem_consolidated _ _ Hc). }
  rewrite (run_bind_ok _ _ w w (selected_coerced int_cols df)).
  2:{ run_step. by rewrite (astype_selected _ _ Hc). }
  rewrite (run_bind_ok _ _ w (set_heap (<[r := coerce_frame int_cols df]> (w_heap w)) w) tt).
  2:{ rewrite (run_bind_ok _ _ w w df) by by apply read_frame_ok.
      run_step. by rewrite (setitem_coerced _ _ Hc). }
  set (w1 := set_heap (<[r := coerce_frame int_cols df]> (w_heap w)) w).
  rewrite (run_bind_ok _ _ w1
             (set_heap (<[r := coerce_frame int_cols df]> (w_heap w) ++ [loaded_frame df]) w)
             (length (w_heap w))).
  2:{ rewrite (run_bind_ok _ _ w1 w1 (coerce_frame int_cols df)).
      - run_step. by rewrite length_insert.
      - apply read_frame_ok; simpl. by apply list_lookup_insert_eq. }
  reflexivity.
Qed.

(** Whatever the warehouse answers, the sink logs one delete, with the
    cutoff of the day before, and an append only behind the completed
    delete. *)
Lemma delete_then_append_log self r lf w :
  w_heap w !! r = Some lf ->
  exists evs,
    w_bq_log (snd (delete_then_append self r w)) =
      w_bq_log w ++ EvQuery (cutoff_at w) :: evs /\
    (evs = [] \/ evs = [EvQueryDone; EvAppend (to_records lf)]).
Proof.
  intros Hr.
  unfold delete_then_append, delete_yesterday_data, client_query,
    query_job_result, to_gbq, df_len, read_frame, bq_request.
  run_step. unfold cutoff_at.
  destruct (bq_fault (w_env w) (w_bq_calls w)); simpl.
  { exists []. auto. }
  destruct (bq_fault (w_env w) (S (w_bq_calls w))); simpl.
  { exists []. auto. }
  rewrite Hr; simpl. rewrite Hr; simpl.
  exists [EvQueryDone; EvAppend (to_records lf)]. split; [|auto].
  destruct (bq_fault (w_env w) (S (S (w_bq_calls w)))); simpl;
    by rewrite <- !app_assoc.
Qed.

Lemma delete_then_append_ok self r lf w :
  w_heap w !! r = Some lf ->
  (forall n, bq_fault (w_env w) n = None) ->
  exists w',
    delete_then_append self r w = (Ok tt, w') /\
    w_env w' = w_env w /\
    w_ticks w' = S (w_ticks w) /\
    w_heap w' = w_heap w /\
    w_files w' = w_files w /\
    w_table w' = keep_before (cutoff_at w) (w_table w) ++ to_records lf /\
    w_bq_calls w' = S (S (S (w_bq_calls w))) /\
    w_api_log w' = w_api_log w /\
    w_bq_log w' =
      w_bq_log w ++ [EvQuery (cutoff_at w); EvQueryDone; EvAppend (to_records lf)].
Proof.
  intros Hr Hf. eexists. split.
  - unfold delete_then_append, delete_yesterday_data, client_query,
      query_job_result, to_gbq, df_len, read_frame, bq_request.
    run_step. rewrite !Hf; simpl. rewrite Hr; simpl. rewrite Hr; simpl.
    rewrite Hf. reflexivity.
  - simpl. rewrite <- !app_assoc. done.
Qed.

Lemma delete_then_append_heap self r w :
  w_heap (snd (delete_then_append self r w)) = w_heap w.
Proof.
  unfold delete_then_append, delete_yesterday_data, client_query,
    query_job_result, to_gbq, df_len, read_frame, bq_request.
  run_step.
  destruct (bq_fault (w_env w) (w_bq_calls w)); simpl; [done|].
  destruct (bq_fault (w_env w) (S (w_bq_calls w))); simpl; [done|].
  destruct (w_heap w !! r) eqn:Hr; simpl; [|done].
  rewrite Hr; simpl.
  destruct (bq_fault (w_env w) (S (S (w_bq_calls w)))); simpl; done.
Qed.

(** The sink on a non-empty consolidated table when the warehouse answers
    every request: the world it leaves. *)
Lemma push_to_bigquery_ok self r df w :
  w_heap w !! r = Some df ->
  empty df = false ->
  consolidated int_cols df ->
  (forall n, bq_fault (w_env w) n = None) ->
  exists w',
    push_to_bigquery self r w = (Ok tt, w') /\
    w_env w' = w_env w /\
    w_ticks w' = S (w_ticks w) /\
    w_heap w' = <[r := coerce_frame int_cols df]> (w_heap w) ++ [loaded_frame df] /\
    w_table w' = keep_before (cutoff_at w) (w_table w) ++ loaded_rows df /\
    w_bq_calls w' = S (S (S (w_bq_calls w))) /\
    w_api_log w' = w_api_log w /\
    w_bq_log w' =
      w_bq_log w ++ [EvQuery (cutoff_at w); EvQueryDone; EvAppend (loaded_rows df)].
Proof.
  intros Hr Hne Hc Hf.
  rewrite (push_to_bigquery_coerces self r df w Hr Hne Hc).
  set (w1 := set_heap _ w).
  destruct (delete_then_append_ok self (length (w_heap w)) (loaded_frame df) w1)
    as (w' & Hrun & He & Ht & Hh & _ & Htab & Hcalls & Hapi & Hlog).
  { subst w1; simpl. rewrite lookup_app_r by (rewrite length_insert; lia).
    rewrite length_insert, Nat.sub_diag. done. }
  { done. }
  exists w'. repeat split; done.
Qed.

Lemma push_to_bigquery_empty self r df w :
  w_heap w !! r = Some df ->
  empty df = true ->
  push_to_bigquery self r w =
  (Ok tt, set_stdout (w_stdout w ++ [Msg "No data to insert into BigQuery."]) w).
Proof.
  intros Hr He. unfold push_to_bigquery, df_empty.
  rewrite (run_bind_ok _ _ w w true).
  2:{ rewrite (run_bind_ok _ _ w w df) by by apply read_frame_ok.
      run_step. by rewrite He. }
  reflexivity.
Qed.

Lemma filter_keep_before cutoff t :
  List.filter (date_ge cutoff) (keep_before cutoff t) = [].
Proof.
  unfold keep_before. induction t as [|row t IH]; simpl; [done|].
  destruct (date_ge cutoff row) eqn:E; simpl; [done|]. by rewrite E.
Qed.

Lemma label_pos_rename c cols :
  rename_label c = c ->
  (forall c', rename_label c' = c -> c' = c) ->
  label_pos c (map rename_label cols) = label_pos c cols.
Proof.
  intros Hc Hinj. induction cols as [|c' cols IH]; simpl; [done|].
  rewrite IH.
  destruct (String.eqb_spec c (rename_label c')) as [E|E],
    (String.eqb_spec c c') as [E'|E']; try done.
  - symmetry in E. apply Hinj in E. congruence.
  - subst c'. congruence.
Qed.

Lemma rename_label_spec c :
  default c (dict_get c rename_columns) = rename_label c.
Proof.
  unfold rename_label, rename_columns; simpl.
  destruct (String.eqb c "AD_REQUESTS_CTR"); [done|].
  destruct (String.eqb c "COST_PER_CLICK"); done.
Qed.

Lemma columns_loaded_frame df :
  columns (loaded_frame df) = map rename_label (columns df).
Proof.
  unfold loaded_frame, rename; simpl.
  apply map_ext. intros c. apply rename_label_spec.
Qed.

Lemma dict_get_zip cols (row : list cell) c :
  length row = length cols ->
  dict_get c (zip cols row) =
  match label_pos c cols with
  | Some i => row !! i
  | None => None
  end.
Proof.
  revert row. induction cols as [|c' cols IH]; intros row Hlen; simpl; [done|].
  destruct row as [|v row]; simpl in *; [done|].
  destruct (String.eqb c c'); [done|].
  rewrite IH by lia. by destruct (label_pos c cols).
Qed.

Lemma int_cols_not_renamed c :
  c ∈ int_cols -> rename_label c = c /\ (forall c', rename_label c' = c -> c' = c).
Proof.
  intros Hc. unfold int_cols in Hc.
  repeat (apply elem_of_cons in Hc as [->|Hc]);
    try (split; [reflexivity|];
         intros c'; unfold rename_label;
         destruct (String.eqb c' "AD_REQUESTS_CTR"); [done|];
         destruct (String.eqb c' "COST_PER_CLICK"); done).
  by apply elem_of_nil in Hc.
Qed.

End Sink.

(** * The sink: [BigQueryClient.push_to_bigquery] *)

Section SinkTheorems.
Context `{PyBuiltins}.
Import Pandas PandasFacts.

Lemma lookup_loaded_rows df j row :
  data df !! j = Some row ->
  loaded_rows df !! j =
  Some (zip (map rename_label (columns df)) (coerce_row int_cols (columns df) row)).
Proof.
  intros Hj. unfold loaded_rows, to_records.
  rewrite columns_loaded_frame. unfold loaded_frame, rename, coerce_frame; simpl.
  rewrite !list_lookup_fmap, Hj. done.
Qed.

Lemma length_loaded_rows df : length (loaded_rows df) = len df.
Proof.
  unfold loaded_rows, to_records, loaded_frame, rename, coerce_frame, len; simpl.
  by rewrite !length_map.
Qed.

Lemma loaded_rows_coerce_frame df :
  consolidated int_cols df ->
  loaded_rows (coerce_frame int_cols df) = loaded_rows df.
Proof.
  intros Hc. unfold loaded_rows, loaded_frame.
  by rewrite coerce_frame_idemp.
Qed.

(** C1. Running the sink twice in succession on the same non-empty table,
    with the warehouse answering every request: both runs succeed, the
    second run's delete leaves no row dated at or after its cutoff (so
    none of those the first run appended), and after the second append the
    rows of the table dated at or after that cutoff are exactly the
    table's loaded rows of that window, once. *)
Theorem load_twice_one_copy self r df w :
  w_heap w !! r = Some df ->
  empty df = false ->
  consolidated int_cols df ->
  (forall n, bq_fault (w_env w) n = None) ->
  exists w1 w2,
    push_to_bigquery self r w = (Ok tt, w1) /\
    push_to_bigquery self r w1 = (Ok tt, w2) /\
    w_table w1 = keep_before (cutoff_at w) (w_table w) ++ loaded_rows df /\
    w_table w2 = keep_before (cutoff_at w1) (w_table w1) ++ loaded_rows df /\
    List.filter (date_ge (cutoff_at w1)) (keep_before (cutoff_at w1) (w_table w1)) = [] /\
    List.filter (date_ge (cutoff_at w1)) (w_table w2) =
      List.filter (date_ge (cutoff_at w1)) (loaded_rows df).
Proof.
  intros Hr Hne Hc Hf.
  destruct (push_to_bigquery_ok self r df w Hr Hne Hc Hf)
    as (w1 & Hrun1 & He1 & _ & Hh1 & Ht1 & _).
  assert (r < length (w_heap w))%nat as Hlt by (eapply lookup_lt_Some; eauto).
  destruct (push_to_bigquery_ok self r (coerce_frame int_cols df) w1)
    as (w2 & Hrun2 & _ & _ & _ & Ht2 & _).
  { rewrite Hh1, lookup_app_l by (rewrite length_insert; lia).
    by apply list_lookup_insert_eq. }
  { by rewrite empty_coerce_frame. }
  { by apply consolidated_coerce_frame. }
  { intros n. rewrite He1. apply Hf. }
  rewrite (loaded_rows_coerce_frame df Hc) in Ht2.
  exists w1, w2. repeat split; try done.
  - apply filter_keep_before.
  - by rewrite Ht2, List.filter_app, filter_keep_before.
Qed.

Lemma date_ge_inclusive cutoff (r : wrow) :
  dict_get "date" r = Some (CStr cutoff) -> date_ge cutoff r = true.
Proof.
  intros Hd. unfold date_ge. rewrite Hd.
  by destruct (String.leb_total cutoff cutoff).
Qed.

(** C2. On a non-empty consolidated table the sink issues exactly one
    delete, whose cutoff is the date of the day before the clock reading
    and which matches the rows dated that day too; the append, when there
    is one, comes after the completion of that delete; and when the
    warehouse answers every request the run is the delete, its
    completion, then the append, leaving the rows below the cutoff
    followed by the loaded rows. *)
Theorem sink_delete_then_append self r df w :
  w_heap w !! r = Some df ->
  empty df = false ->
  consolidated int_cols df ->
  let cutoff := strftime_Ymd (Z.of_N (clock (w_env w) (w_ticks w)) - 1) in
  exists evs,
    w_bq_log (snd (push_to_bigquery self r w)) =
      w_bq_log w ++ EvQuery cutoff :: evs /\
    (evs = [] \/ evs = [EvQueryDone; EvAppend (loaded_rows df)]) /\
    (forall row, dict_get "date" row = Some (CStr cutoff) -> date_ge cutoff row = true) /\
    ((forall n, bq_fault (w_env w) n = None) ->
     fst (push_to_bigquery self r w) = Ok tt /\
     evs = [EvQueryDone; EvAppend (loaded_rows df)] /\
     w_table (snd (push_to_bigquery self r w)) =
       List.filter (fun row => negb (date_ge cutoff row)) (w_table w) ++
       loaded_rows df).
Proof.
  intros Hr Hne Hc cutoff.
  assert (r < length (w_heap w))%nat as Hlt by (eapply lookup_lt_Some; eauto).
  rewrite (push_to_bigquery_coerces self r df w Hr Hne Hc).
  set (w1 := set_heap _ w).
  destruct (delete_then_append_log self (length (w_heap w)) (loaded_frame df) w1)
    as (evs & Hlog & Hevs).
  { subst w1; simpl. rewrite lookup_app_r by (rewrite length_insert; lia).
    rewrite length_insert, Nat.sub_diag. done. }
  exists evs. split; [exact Hlog|]. split; [exact Hevs|].
  split; [intros row; apply date_ge_inclusive|].
  intros Hf.
  destruct (delete_then_append_ok self (length (w_heap w)) (loaded_frame df) w1)
    as (w' & Hrun & _ & _ & _ & _ & Htab & _ & _ & Hlog').
  { subst w1; simpl. rewrite lookup_app_r by (rewrite length_insert; lia).
    rewrite length_insert, Nat.sub_diag. done. }
  { done. }
  rewrite Hrun in *; simpl in *. split; [done|]. split.
  - rewrite Hlog' in Hlog. apply app_inv_head in Hlog. by simplify_eq.
  - exact Htab.
Qed.

(** C3. On a non-empty consolidated table, with the warehouse answering
    every request, the sink succeeds and appends one record per row, in
    which each of the seven count columns holds an integer: 0 where the
    table had the missing value, the truncated value where it had a finite
    float. *)
Theorem sink_coerces_counts self r df w :
  w_heap w !! r = Some df ->
  empty df = false ->
  consolidated int_cols df ->
  (forall n, bq_fault (w_env w) n = None) ->
  exists w',
    push_to_bigquery self r w = (Ok tt, w') /\
    w_table w' = keep_before (cutoff_at w) (w_table w) ++ loaded_rows df /\
    length (loaded_rows df) = len df /\
    forall j row c,
      data df !! j = Some row ->
      c ∈ int_cols ->
      exists record z,
        loaded_rows df !! j = Some record /\
        dict_get c record = Some (CInt z) /\
        (cell_at (columns df) row c = NaN -> z = 0) /\
        (forall f t,
           cell_at (columns df) row c = CFloat f -> float_trunc f = Some t ->
           z = cast_int64 t).
Proof.
  intros Hr Hne Hc Hf.
  destruct (push_to_bigquery_ok self r df w Hr Hne Hc Hf)
    as (w' & Hrun & _ & _ & _ & Ht & _).
  exists w'. split; [done|]. split; [done|]. split; [apply length_loaded_rows|].
  intros j row c Hj Hin.
  destruct Hc as [[Hnd Hrows] Hls Hcounts].
  rewrite Forall_forall in Hrows. rewrite Forall_forall in Hls.
  rewrite Forall_forall in Hcounts.
  assert (row ∈ data df) as Hrow by (apply list_elem_of_lookup; eauto).
  specialize (Hcounts row Hrow). rewrite Forall_forall in Hcounts.
  pose proof (Hcounts c Hin) as Hcount.
  destruct (coerced_is_int _ Hcount) as [z Hz].
  eexists _, z. split; [by apply lookup_loaded_rows|].
  destruct (int_cols_not_renamed c Hin) as [Hren Hinj].
  assert (dict_get c
            (zip (map rename_label (columns df))
               (coerce_row int_cols (columns df) row)) =
          Some (coerced (cell_at (columns df) row c))) as Hget.
  { rewrite dict_get_zip
      by (rewrite length_map; apply length_coerce_row; by apply Hrows).
    rewrite (label_pos_rename c (columns df) Hren Hinj).
    pose proof (cell_at_coerce_row int_cols (columns df) row c
                  (Hrows row Hrow) (Hls c Hin)) as Hcell.
    rewrite bool_decide_eq_true_2 in Hcell by done.
    unfold cell_at at 1 in Hcell.
    destruct (label_pos_elem_of c (columns df) (Hls c Hin)) as [i Hi].
    rewrite Hi in *.
    destruct (lookup_lt_is_Some_2 (coerce_row int_cols (columns df) row) i)
      as [v Hv].
    { rewrite length_coerce_row by (by apply Hrows).
      apply label_pos_Some in Hi. eapply lookup_lt_Some; eauto. }
    rewrite Hv in *. simpl in Hcell. by rewrite Hcell. }
  rewrite Hget, Hz. split; [done|]. split.
  - intros Hnan. rewrite Hnan, coerced_nan in Hz. by simplify_eq.
  - intros f t Hfl Ht'. rewrite Hfl, (coerced_finite f t Ht') in Hz.
    by simplify_eq.
Qed.

Lemma rename_label_not_source c :
  rename_label c <> "AD_REQUESTS_CTR" /\ rename_label c <> "COST_PER_CLICK".
Proof.
  unfold rename_label.
  destruct (String.eqb_spec c "AD_REQUESTS_CTR") as [|E1]; [done|].
  destruct (String.eqb_spec c "COST_PER_CLICK") as [|E2]; done.
Qed.

(** C4. The records the sink appends carry, position by position, the
    labels of the table with [AD_REQUESTS_CTR] renamed [ctr] and
    [COST_PER_CLICK] renamed [cpc]; no label [AD_REQUESTS_CTR] or
    [COST_PER_CLICK] is left; every label outside the count columns,
    these two among them, keeps its value, and the count columns carry
    their coerced value. *)
Theorem sink_renames_rates self r df w :
  w_heap w !! r = Some df ->
  empty df = false ->
  consolidated int_cols df ->
  (forall n, bq_fault (w_env w) n = None) ->
  exists w',
    push_to_bigquery self r w = (Ok tt, w') /\
    w_table w' = keep_before (cutoff_at w) (w_table w) ++ loaded_rows df /\
    rename_label "AD_REQUESTS_CTR" = "ctr" /\
    rename_label "COST_PER_CLICK" = "cpc" /\
    (forall c, c <> "AD_REQUESTS_CTR" -> c <> "COST_PER_CLICK" -> rename_label c = c) /\
    forall j row,
      data df !! j = Some row ->
      exists record,
        loaded_rows df !! j = Some record /\
        dict_keys record = map rename_label (columns df) /\
        ("AD_REQUESTS_CTR" ∉ dict_keys record) /\
        ("COST_PER_CLICK" ∉ dict_keys record) /\
        forall i c v,
          columns df !! i = Some c -> row !! i = Some v ->
          record !! i =
          Some (rename_label c, if bool_decide (c ∈ int_cols) then coerced v else v).
Proof.
  intros Hr Hne Hc Hf.
  destruct (push_to_bigquery_ok self r df w Hr Hne Hc Hf)
    as (w' & Hrun & _ & _ & _ & Ht & _).
  exists w'. split; [done|]. split; [done|].
  split; [reflexivity|]. split; [reflexivity|]. split.
  { intros c H1 H2. unfold rename_label.
    destruct (String.eqb_spec c "AD_REQUESTS_CTR"); [done|].
    destruct (String.eqb_spec c "COST_PER_CLICK"); done. }
  intros j row Hj.
  destruct Hc as [[Hnd Hrows] Hls Hcounts].
  rewrite Forall_forall in Hrows.
  assert (length row = length (columns df)) as Hlen.
  { apply Hrows, list_elem_of_lookup; eauto. }
  eexists. split; [by apply lookup_loaded_rows|].
  assert (dict_keys
            (zip (map rename_label (columns df))
               (coerce_row int_cols (columns df) row)) =
          map rename_label (columns df)) as Hkeys.
  { unfold dict_keys. apply fst_zip.
    rewrite length_map, length_coerce_row by done. done. }
  rewrite Hkeys. split; [done|].
  split; [|split].
  - intros Hin. apply list_elem_of_fmap in Hin as (c & Hc & _).
    symmetry in Hc. by apply rename_label_not_source in Hc.
  - intros Hin. apply list_elem_of_fmap in Hin as (c & Hc & _).
    symmetry in Hc. by apply rename_label_not_source in Hc.
  - intros i c v Hi Hv. unfold coerce_row.
    rewrite lookup_zip_with, list_lookup_fmap, Hi; simpl.
    rewrite lookup_zip_with, Hi, Hv; simpl. done.
Qed.

(** C10. The sink updates its caller's table in place: whatever the
    warehouse answers, when [push_to_bigquery] is over the caller's
    reference holds the table with the count columns coerced and with
    the labels it had; the renamed frame is another, new object. *)
Theorem sink_mutates_caller_table self r df w :
  w_heap w !! r = Some df ->
  empty df = false ->
  consolidated int_cols df ->
  exists df',
    w_heap (snd (push_to_bigquery self r w)) !! r = Some df' /\
    columns df' = columns df /\
    len df' = len df /\
    (forall j row c,
       data df !! j = Some row -> c ∈ columns df ->
       exists row',
         data df' !! j = Some row' /\
         cell_at (columns df') row' c =
         if bool_decide (c ∈ int_cols) then coerced (cell_at (columns df) row c)
         else cell_at (columns df) row c) /\
    w_heap w !! length (w_heap w) = None /\
    r <> length (w_heap w) /\
    w_heap (snd (push_to_bigquery self r w)) !! length (w_heap w) =
      Some (rename rename_columns df') /\
    columns (rename rename_columns df') = map rename_label (columns df).
Proof.
  intros Hr Hne Hc.
  assert (r < length (w_heap w))%nat as Hlt by (eapply lookup_lt_Some; eauto).
  rewrite (push_to_bigquery_coerces self r df w Hr Hne Hc).
  rewrite delete_then_append_heap; simpl.
  exists (coerce_frame int_cols df).
  split; [|split; [|split; [|split; [|split; [|split; [|split]]]]]].
  - rewrite lookup_app_l by (rewrite length_insert; lia).
    by apply list_lookup_insert_eq.
  - done.
  - unfold len, coerce_frame; simpl. by rewrite length_map.
  - intros j row c Hj Hin. eexists. split.
    + unfold coerce_frame; simpl. rewrite list_lookup_fmap, Hj. done.
    + simpl. apply cell_at_coerce_row; [|done].
      destruct Hc as [[_ Hrows] _ _]. rewrite Forall_forall in Hrows.
      apply Hrows, list_elem_of_lookup; eauto.
  - by apply lookup_ge_None.
  - lia.
  - rewrite lookup_app_r by (rewrite length_insert; lia).
    rewrite length_insert, Nat.sub_diag. done.
  - apply (columns_loaded_frame df).
Qed.

End SinkTheorems.

(** * The sources: [AdSenseAPI.list_accounts] and [AdSenseAPI.fetch_report] *)

Section Sources.
Context `{PyBuiltins}.
Import Pandas PandasFacts.

(** What [fetch_report] makes of the answer to its request. *)
Definition report_frame (account_id : string) (response : result api_report)
  : DataFrame :=
  match response with
  | Raise _ => empty_frame
  | Ok report =>
      match report_rows report with
      | None => empty_frame
      | Some rows =>
          match rmap (row_data_of account_id report) rows with
          | Ok records => of_records records
          | Raise _ => empty_frame
          end
      end
  end.

(** The answer of the API object to a report request. *)
Definition response_of (self : AdSenseAPI) (req : report_request) : result api_report :=
  match api_service self with
  | None => Raise AttributeError
  | Some s => reports_generate s req
  end.

(** The request [fetch_report] sends when the clock has been read [t]
    times. *)
Definition request_at (account_id : string) (e : env) (t : nat) : report_request :=
  report_request_for account_id
    (Z.of_N (clock e t) - timedelta_days 1) (Z.of_N (clock e (S t))).

Definition fetched_frame (self : AdSenseAPI) (account_id : string) (e : env) (t : nat)
  : DataFrame :=
  report_frame account_id (response_of self (request_at account_id e t)).

Definition fetch_events (self : AdSenseAPI) (account_id : string) (e : env) (t : nat)
  : list api_event :=
  match api_service self with
  | None => []
  | Some _ => [EvReportsGenerate (request_at account_id e t)]
  end.

(** A run that only allocates frames, reads the clock, calls the AdSense
    API and prints: what it leaves of the world [w]. *)
Record fetch_step (w w' : world) (ticks : nat) (frames : list DataFrame)
    (events : list api_event) : Prop := {
  fs_env : w_env w' = w_env w;
  fs_ticks : w_ticks w' = (w_ticks w + ticks)%nat;
  fs_heap : w_heap w' = w_heap w ++ frames;
  fs_files : w_files w' = w_files w;
  fs_table : w_table w' = w_table w;
  fs_bq_calls : w_bq_calls w' = w_bq_calls w;
  fs_api_log : w_api_log w' = w_api_log w ++ events;
  fs_bq_log : w_bq_log w' = w_bq_log w
}.

Lemma fetch_step_refl w : fetch_step w w 0 [] [].
Proof. split; rewrite ?app_nil_r; auto. Qed.

Lemma fetch_step_trans w1 w2 w3 n1 n2 f1 f2 e1 e2 :
  fetch_step w1 w2 n1 f1 e1 -> fetch_step w2 w3 n2 f2 e2 ->
  fetch_step w1 w3 (n1 + n2) (f1 ++ f2) (e1 ++ e2).
Proof.
  intros [] []. split; try congruence.
  - lia.
  - rewrite app_assoc. congruence.
  - rewrite app_assoc. congruence.
Qed.

(** [fetch_report] always returns: a new frame, built from the answer. *)
Lemma fetch_report_run self account_id w :
  exists w',
    fetch_report self account_id w = (Ok (length (w_heap w)), w') /\
    fetch_step w w' 2
      [fetched_frame self account_id (w_env w) (w_ticks w)]
      (fetch_events self account_id (w_env w) (w_ticks w)).
Proof.
  unfold fetch_report, fetched_frame, fetch_events, response_of, report_frame,
    execute_reports_generate, pd_DataFrame_empty, pd_DataFrame, request_at.
  run_step.
  destruct (api_service self) as [s|]; simpl.
  - destruct (reports_generate s _) as [report|e] eqn:E; simpl.
    + destruct (report_rows report) as [rows|]; simpl.
      * destruct (rmap _ rows) as [records|e]; simpl;
          (eexists; split; [reflexivity|]);
          split; simpl; rewrite ?app_nil_r; auto; lia.
      * eexists; split; [reflexivity|].
        split; simpl; rewrite ?app_nil_r; auto; lia.
    + eexists; split; [reflexivity|].
      split; simpl; rewrite ?app_nil_r; auto; lia.
  - eexists; split; [reflexivity|].
    split; simpl; rewrite ?app_nil_r; auto; lia.
Qed.

(** C6. [fetch_report] never raises: for every API object, account and
    world it returns a frame; that frame is the empty one when the request
    fails, when the answer has no [rows] key, when the answer has no row,
    and when the answer cannot be read. *)
Theorem fetch_report_never_raises self account_id w :
  exists r w' df,
    fetch_report self account_id w = (Ok r, w') /\
    w_heap w' !! r = Some df /\
    let response :=
      response_of self (request_at account_id (w_env w) (w_ticks w)) in
    (forall e, response = Raise e -> df = empty_frame) /\
    (forall report,
       response = Ok report -> report_rows report = None -> df = empty_frame) /\
    (forall report,
       response = Ok report -> report_rows report = Some [] -> df = empty_frame) /\
    (forall report rows e,
       response = Ok report -> report_rows report = Some rows ->
       rmap (row_data_of account_id report) rows = Raise e -> df = empty_frame) /\
    empty empty_frame = true /\ len empty_frame = 0%nat.
Proof.
  destruct (fetch_report_run self account_id w) as (w' & Hrun & Hstep).
  exists (length (w_heap w)), w',
    (fetched_frame self account_id (w_env w) (w_ticks w)).
  split; [done|]. split.
  { rewrite (fs_heap _ _ _ _ _ Hstep).
    rewrite lookup_app_r by lia. by rewrite Nat.sub_diag. }
  unfold fetched_frame, report_frame; simpl.
  repeat split.
  - intros e ->. done.
  - intros report -> ->. done.
  - intros report -> ->. done.
  - intros report rows e -> -> ->. done.
Qed.

(** One turn of the loop of [list_accounts]: the id and the display name
    of an account. *)
Definition account_entry (account : api_account) : result (string * string) :=
  account_id ← subscript "name" (account_name account);
  display_name ← subscript "displayName" (account_displayName account);
  Ok (account_id, display_name).

(** The account ids [list_accounts] returns for an API object. *)
Definition listed_accounts (self : AdSenseAPI) : list string :=
  match api_service self with
  | None => []
  | Some s =>
      match accounts_list s with
      | Raise _ => []
      | Ok accounts =>
          match rmap account_entry (default [] (accounts_accounts accounts)) with
          | Ok entries => map fst entries
          | Raise _ => []
          end
      end
  end.

Definition list_events (self : AdSenseAPI) : list api_event :=
  match api_service self with
  | None => []
  | Some _ => [EvAccountsList]
  end.

Lemma accounts_loop_run (accounts : list api_account)
    (acc : list string * list (string * string)) (w : world) :
  for_each accounts
    (fun account (acc : list string * list (string * string)) =>
       account_id ← lift (subscript "name" (account_name account));
       display_name ← lift (subscript "displayName" (account_displayName account));
       mret (fst acc ++ [account_id], snd acc ++ [(account_id, display_name)]))
    acc w =
  match rmap account_entry accounts with
  | Ok entries => (Ok (fst acc ++ map fst entries, snd acc ++ entries), w)
  | Raise e => (Raise e, w)
  end.
Proof.
  revert acc. induction accounts as [|a accounts IH]; intros [ids tbl]; simpl.
  - by rewrite !app_nil_r.
  - unfold account_entry. run_step.
    destruct (account_name a) as [n|]; simpl; [|done].
    destruct (account_displayName a) as [d|]; simpl; [|done].
    specialize (IH (ids ++ [n], tbl ++ [(n, d)])).
    unfold mbind, M_bind, mret, M_ret, lift in IH. rewrite IH.
    unfold account_entry.
    destruct (rmap _ accounts) as [entries|e]; simpl; [|done].
    by rewrite <- !app_assoc.
Qed.

(** [list_accounts] always returns; it changes nothing but the logs. *)
Lemma list_accounts_run self w :
  exists w',
    list_accounts self w = (Ok (listed_accounts self), w') /\
    fetch_step w w' 0 [] (list_events self).
Proof.
  unfold list_accounts, listed_accounts, list_events, execute_accounts_list.
  unfold try_except. rewrite !run_bind.
  unfold print at 1. unfold raise, lift, log_api. simpl.
  destruct (api_service self) as [s|]; simpl.
  - rewrite run_bind; simpl.
    destruct (accounts_list s) as [accounts|e]; simpl.
    + rewrite run_bind, accounts_loop_run.
      destruct (rmap _ _) as [entries|e]; simpl;
        (eexists; split; [reflexivity|]);
        split; simpl; rewrite ?app_nil_r; auto.
    + eexists; split; [reflexivity|].
      split; simpl; rewrite ?app_nil_r; auto.
  - eexists; split; [reflexivity|].
    split; simpl; rewrite ?app_nil_r; auto.
Qed.

End Sources.

(** * The orchestrator: [AdSenseReportProcessor.process_reports] *)

Section Orchestrator.
Context `{PyBuiltins}.
Import Pandas PandasFacts.

(** The frames fetched for the accounts of one API object, in the order
    of the accounts, the first fetch starting when the clock has been
    read [t] times. *)
Fixpoint source_frames (self : AdSenseAPI) (accounts : list string) (e : env) (t : nat)
  : list DataFrame :=
  match accounts with
  | [] => []
  | a :: accounts' =>
      fetched_frame self a e t :: source_frames self accounts' e (S (S t))
  end.

Fixpoint source_events (self : AdSenseAPI) (accounts : list string) (e : env) (t : nat)
  : list api_event :=
  match accounts with
  | [] => []
  | a :: accounts' =>
      fetch_events self a e t ++ source_events self accounts' e (S (S t))
  end.

Lemma pd_concat_run a b fa fb w :
  w_heap w !! a = Some fa -> w_heap w !! b = Some fb ->
  pd_concat a b w =
  (Ok (length (w_heap w)), set_heap (w_heap w ++ [concat fa fb]) w).
Proof.
  intros Ha Hb. unfold pd_concat.
  rewrite (run_bind_ok _ _ w w fa) by by apply read_frame_ok.
  rewrite (run_bind_ok _ _ w w fb) by by apply read_frame_ok.
  reflexivity.
Qed.

Lemma fetch_loop_run self accounts r F w :
  w_heap w !! r = Some F ->
  exists r' w' frames,
    for_each accounts
      (fun account_id (all_data : ref) =>
         df ← fetch_report self account_id;
         pd_concat all_data df)
      r w = (Ok r', w') /\
    w_heap w' !! r' =
      Some (fold_left concat (source_frames self accounts (w_env w) (w_ticks w)) F) /\
    fetch_step w w' (2 * length accounts) frames
      (source_events self accounts (w_env w) (w_ticks w)).
Proof.
  revert r F w. induction accounts as [|a accounts IH]; intros r F w Hr.
  - exists r, w, []. split; [done|]. split; [done|]. apply fetch_step_refl.
  - assert (r < length (w_heap w))%nat as Hlt by (eapply lookup_lt_Some; eauto).
    destruct (fetch_report_run self a w) as (w1 & Hfetch & Hs1).
    set (f := fetched_frame self a (w_env w) (w_ticks w)) in *.
    pose proof (fs_heap _ _ _ _ _ Hs1) as Hh1.
    set (w2 := set_heap (w_heap w1 ++ [concat F f]) w1).
    assert (pd_concat r (length (w_heap w)) w1 = (Ok (length (w_heap w1)), w2))
      as Hconcat.
    { apply pd_concat_run.
      - rewrite Hh1, lookup_app_l by done. done.
      - rewrite Hh1, lookup_app_r by lia. by rewrite Nat.sub_diag. }
    destruct (IH (length (w_heap w1)) (concat F f) w2) as (r' & w' & frames & Hloop & Hr' & Hs3).
    { subst w2; simpl. rewrite lookup_app_r by lia. by rewrite Nat.sub_diag. }
    assert (fetch_step w1 w2 0 [concat F f] []) as Hs2.
    { subst w2. split; simpl; rewrite ?app_nil_r; auto. }
    exists r', w', ([f] ++ [concat F f] ++ frames). split; [|split].
    + simpl. rewrite (run_bind_ok _ _ w w2 (length (w_heap w1))); [done|].
      by rewrite (run_bind_ok _ _ w w1 (length (w_heap w))).
    + rewrite Hr'. simpl. do 3 f_equal.
      * subst w2; simpl. apply (fs_env _ _ _ _ _ Hs1).
      * subst w2; simpl. rewrite (fs_ticks _ _ _ _ _ Hs1). lia.
    + pose proof (fetch_step_trans _ _ _ _ _ _ _ _ _ Hs1
                    (fetch_step_trans _ _ _ _ _ _ _ _ _ Hs2 Hs3)) as Hs.
      replace (2 * length (a :: accounts))%nat
        with (2 + (0 + 2 * length accounts))%nat by (simpl; lia).
      replace (source_events self (a :: accounts) (w_env w) (w_ticks w))
        with (fetch_events self a (w_env w) (w_ticks w) ++
              [] ++ source_events self accounts (w_env w2) (w_ticks w2)); [done|].
      simpl. do 2 f_equal.
      * subst w2; simpl. apply (fs_env _ _ _ _ _ Hs1).
      * subst w2; simpl. rewrite (fs_ticks _ _ _ _ _ Hs1). lia.
Qed.

(** One block of [process_reports]: the accounts of one API object are
    listed and their reports concatenated onto [all_data] in order. *)
Lemma process_source_run self r F w :
  w_heap w !! r = Some F ->
  exists r' w' frames,
    process_source [self] r w = (Ok r', w') /\
    w_heap w' !! r' =
      Some (fold_left concat
              (source_frames self (listed_accounts self) (w_env w) (w_ticks w)) F) /\
    fetch_step w w' (2 * length (listed_accounts self)) frames
      (list_events self ++
       source_events self (listed_accounts self) (w_env w) (w_ticks w)).
Proof.
  intros Hr.
  destruct (list_accounts_run self w) as (w1 & Hlist & Hs1).
  destruct (fetch_loop_run self (listed_accounts self) r F w1)
    as (r' & w' & frames & Hloop & Hr' & Hs2).
  { rewrite (fs_heap _ _ _ _ _ Hs1), app_nil_r. done. }
  exists r', w', frames. split; [|split].
  - unfold process_source; simpl.
    rewrite (run_bind_ok _ _ w w' r'); [done|].
    by rewrite (run_bind_ok _ _ w w1 (listed_accounts self)).
  - rewrite Hr'. rewrite (fs_env _ _ _ _ _ Hs1), (fs_ticks _ _ _ _ _ Hs1).
    by rewrite Nat.add_0_r.
  - pose proof (fetch_step_trans _ _ _ _ _ _ _ _ _ Hs1 Hs2) as Hs.
    rewrite (fs_env _ _ _ _ _ Hs1), (fs_ticks _ _ _ _ _ Hs1), Nat.add_0_r in Hs.
    exact Hs.
Qed.

(** The frames [process_reports] concatenates: those of the first API
    object, account by account, then those of the second, and so on. *)
Fixpoint sources_frames (apis : list AdSenseAPI) (e : env) (t : nat) : list DataFrame :=
  match apis with
  | [] => []
  | api :: apis' =>
      source_frames api (listed_accounts api) e t ++
      sources_frames apis' e (t + 2 * length (listed_accounts api))
  end.

Fixpoint sources_events (apis : list AdSenseAPI) (e : env) (t : nat) : list api_event :=
  match apis with
  | [] => []
  | api :: apis' =>
      (list_events api ++ source_events api (listed_accounts api) e t) ++
      sources_events apis' e (t + 2 * length (listed_accounts api))
  end.

Definition apis_of (self : AdSenseReportProcessor) : list AdSenseAPI :=
  [adsense_api_1 self; adsense_api_2 self; adsense_api_3 self; adsense_api_4 self].

Definition consolidated_frames (self : AdSenseReportProcessor) (e : env) (t : nat)
  : list DataFrame :=
  sources_frames (apis_of self) e t.

(** The consolidated table: the frames concatenated in that order. *)
Definition consolidated_table (self : AdSenseReportProcessor) (e : env) (t : nat)
  : DataFrame :=
  fold_left concat (consolidated_frames self e t) empty_frame.

Definition consolidated_events (self : AdSenseReportProcessor) (e : env) (t : nat)
  : list api_event :=
  sources_events (apis_of self) e t.

(** [process_reports] fetches, which touches neither the warehouse nor
    the files, then hands the consolidated table to the sink if it is not
    empty. *)
Lemma process_reports_run self w :
  exists r w1 n frames,
    fetch_step w w1 n frames (consolidated_events self (w_env w) (w_ticks w)) /\
    w_heap w1 !! r = Some (consolidated_table self (w_env w) (w_ticks w)) /\
    process_reports self w =
    (if empty (consolidated_table self (w_env w) (w_ticks w))
     then print (Msg "No data fetched from AdSense accounts.")
     else push_to_bigquery (bigquery_client self) r) w1.
Proof.
  set (w0 := set_heap (w_heap w ++ [empty_frame]) w).
  assert (fetch_step w w0 0 [empty_frame] []) as Hs0.
  { subst w0. split; simpl; rewrite ?app_nil_r; auto. }
  destruct (process_source_run (adsense_api_1 self) (length (w_heap w)) empty_frame w0)
    as (r1 & w1 & fs1 & Hrun1 & Hr1 & Hs1).
  { subst w0; simpl. rewrite lookup_app_r by lia. by rewrite Nat.sub_diag. }
  destruct (process_source_run (adsense_api_2 self) r1 _ w1 Hr1)
    as (r2 & w2 & fs2 & Hrun2 & Hr2 & Hs2).
  destruct (process_source_run (adsense_api_3 self) r2 _ w2 Hr2)
    as (r3 & w3 & fs3 & Hrun3 & Hr3 & Hs3).
  destruct (process_source_run (adsense_api_4 self) r3 _ w3 Hr3)
    as (r4 & w4 & fs4 & Hrun4 & Hr4 & Hs4).
  pose proof (fetch_step_trans _ _ _ _ _ _ _ _ _ Hs0
               (fetch_step_trans _ _ _ _ _ _ _ _ _ Hs1
                 (fetch_step_trans _ _ _ _ _ _ _ _ _ Hs2
                   (fetch_step_trans _ _ _ _ _ _ _ _ _ Hs3 Hs4)))) as Hs.
  assert (w_env w1 = w_env w /\ w_ticks w1 = (w_ticks w + 2 * length (listed_accounts (adsense_api_1 self)))%nat) as [He1 Ht1].
  { rewrite (fs_env _ _ _ _ _ Hs1), (fs_ticks _ _ _ _ _ Hs1). done. }
  assert (w_env w2 = w_env w /\ w_ticks w2 = (w_ticks w1 + 2 * length (listed_accounts (adsense_api_2 self)))%nat) as [He2 Ht2].
  { rewrite (fs_env _ _ _ _ _ Hs2), (fs_ticks _ _ _ _ _ Hs2). done. }
  assert (w_env w3 = w_env w /\ w_ticks w3 = (w_ticks w2 + 2 * length (listed_accounts (adsense_api_3 self)))%nat) as [He3 Ht3].
  { rewrite (fs_env _ _ _ _ _ Hs3), (fs_ticks _ _ _ _ _ Hs3). done. }
  change (w_env w0) with (w_env w) in *. change (w_ticks w0) with (w_ticks w) in *.
  rewrite He1, Ht1 in *. rewrite He2, Ht2 in *. rewrite He3, Ht3 in *.
  assert (w_heap w4 !! r4 = Some (consolidated_table self (w_env w) (w_ticks w))) as Hr.
  { rewrite Hr4. f_equal. unfold consolidated_table, consolidated_frames, apis_of.
    cbn [sources_frames]. rewrite app_nil_r, !fold_left_app. done. }
  exists r4, w4. eexists _, _. split; [|split; [exact Hr|]].
  - unfold consolidated_events, apis_of. cbn [sources_events].
    rewrite app_nil_r. exact Hs.
  - unfold process_reports, pd_DataFrame_empty.
    rewrite (run_bind_ok _ _ w w0 (length (w_heap w))) by done.
    rewrite (run_bind_ok _ _ w0 w1 r1) by done.
    rewrite (run_bind_ok _ _ w1 w2 r2) by done.
    rewrite (run_bind_ok _ _ w2 w3 r3) by done.
    rewrite (run_bind_ok _ _ w3 w4 r4) by done.
    rewrite (run_bind_ok _ _ w4 w4 (empty (consolidated_table self (w_env w) (w_ticks w)))).
    2:{ unfold df_empty. by rewrite (run_bind_ok _ _ w4 w4 _ (read_frame_ok _ _ _ Hr)). }
    by destruct (empty _).
Qed.

(** A frame holds a row: some row of the frame reads, under every label,
    what the given row reads under its own labels. *)
Definition has_row (df : DataFrame) (cols : list string) (row : list cell) : Prop :=
  exists k row',
    data df !! k = Some row' /\
    forall c, cell_at (columns df) row' c = cell_at cols row c.

Lemma concat_row_l a b j row :
  data a !! j = Some row ->
  exists row',
    data (concat a b) !! j = Some row' /\
    forall c, cell_at (columns (concat a b)) row' c = cell_at (columns a) row c.
Proof.
  intros Hj. eexists. split.
  - unfold concat; simpl. rewrite lookup_app_l.
    + rewrite list_lookup_fmap, Hj. done.
    + rewrite length_map. eapply lookup_lt_Some; eauto.
  - intros c. apply cell_at_reindex_union_l.
Qed.

Lemma concat_row_r a b j row :
  data b !! j = Some row ->
  exists row',
    data (concat a b) !! (len a + j)%nat = Some row' /\
    forall c, cell_at (columns (concat a b)) row' c = cell_at (columns b) row c.
Proof.
  intros Hj. eexists. split.
  - unfold concat, len; simpl. rewrite lookup_app_r by (rewrite length_map; lia).
    rewrite length_map. replace (length (data a) + j - length (data a))%nat with j by lia.
    rewrite list_lookup_fmap, Hj. done.
  - intros c. apply cell_at_reindex_union_r.
Qed.

Lemma has_row_concat_l a b cols row : has_row a cols row -> has_row (concat a b) cols row.
Proof.
  intros (k & row' & Hk & Hv).
  destruct (concat_row_l a b k row' Hk) as (row'' & Hk' & Hv').
  exists k, row''. split; [done|]. intros c. by rewrite Hv', Hv.
Qed.

Lemma has_row_fold frames acc cols row :
  has_row acc cols row -> has_row (fold_left concat frames acc) cols row.
Proof.
  revert acc. induction frames as [|f frames IH]; intros acc Hacc; simpl; [done|].
  by apply IH, has_row_concat_l.
Qed.

(** Every row of every frame of the list is in the fold. *)
Lemma has_row_fold_elem frames acc i f j row :
  frames !! i = Some f -> data f !! j = Some row ->
  has_row (fold_left concat frames acc) (columns f) row.
Proof.
  revert acc i. induction frames as [|f' frames IH]; intros acc i Hi Hj; [done|].
  destruct i as [|i]; simpl in *.
  - simplify_eq. apply has_row_fold.
    destruct (concat_row_r acc f j row Hj) as (row' & Hk & Hv).
    by exists (len acc + j)%nat, row'.
  - by eapply IH.
Qed.

Lemma lookup_source_frames self accounts e t i a :
  accounts !! i = Some a ->
  source_frames self accounts e t !! i = Some (fetched_frame self a e (t + 2 * i)).
Proof.
  revert t i. induction accounts as [|a' accounts IH]; intros t i Hi; [done|].
  destruct i as [|i]; simpl in *.
  - simplify_eq. by rewrite Nat.add_0_r.
  - rewrite (IH (S (S t)) i Hi). do 2 f_equal. lia.
Qed.

(** C9. Consolidation keeps every row, in order, without merging any:
    [pd.concat([R1, R2])] has the rows of R1, then those of R2, each
    reading under every label what it read before; and the consolidated
    table [process_reports] hands to the sink is the fold of that
    concatenation over the frames fetched, source after source and,
    within a source, account after account, so that each of its columns
    is those frames' columns laid end to end in that order. *)
Theorem consolidation_preserves_order self w :
  (forall a b : DataFrame,
     len (concat a b) = (len a + len b)%nat /\
     (forall c, column c (concat a b) = column c a ++ column c b) /\
     (forall j row,
        data a !! j = Some row ->
        exists row',
          data (concat a b) !! j = Some row' /\
          forall c, cell_at (columns (concat a b)) row' c = cell_at (columns a) row c) /\
     (forall j row,
        data b !! j = Some row ->
        exists row',
          data (concat a b) !! (len a + j)%nat = Some row' /\
          forall c, cell_at (columns (concat a b)) row' c = cell_at (columns b) row c)) /\
  let e := w_env w in
  let t := w_ticks w in
  let table := consolidated_table self e t in
  let t2 := (t + 2 * length (listed_accounts (adsense_api_1 self)))%nat in
  let t3 := (t2 + 2 * length (listed_accounts (adsense_api_2 self)))%nat in
  let t4 := (t3 + 2 * length (listed_accounts (adsense_api_3 self)))%nat in
  let frames :=
    source_frames (adsense_api_1 self) (listed_accounts (adsense_api_1 self)) e t ++
    source_frames (adsense_api_2 self) (listed_accounts (adsense_api_2 self)) e t2 ++
    source_frames (adsense_api_3 self) (listed_accounts (adsense_api_3 self)) e t3 ++
    source_frames (adsense_api_4 self) (listed_accounts (adsense_api_4 self)) e t4 in
  (forall api accounts t0 i a,
     accounts !! i = Some a ->
     source_frames api accounts e t0 !! i =
     Some (fetched_frame api a e (t0 + 2 * i))) /\
  table = fold_left concat frames empty_frame /\
  len table = list_sum (map len frames) /\
  (forall c, column c table = List.concat (map (column c) frames)) /\
  exists r w1 n allocated,
    fetch_step w w1 n allocated (consolidated_events self e t) /\
    w_heap w1 !! r = Some table /\
    process_reports self w =
    (if empty table
     then print (Msg "No data fetched from AdSense accounts.")
     else push_to_bigquery (bigquery_client self) r) w1.
Proof.
  split.
  { intros a b. split; [apply len_concat|]. split; [intros c; apply column_concat|].
    split; [apply concat_row_l | apply concat_row_r]. }
  cbv zeta.
  assert (consolidated_table self (w_env w) (w_ticks w) =
          fold_left concat
            (source_frames (adsense_api_1 self) (listed_accounts (adsense_api_1 self))
               (w_env w) (w_ticks w) ++
             source_frames (adsense_api_2 self) (listed_accounts (adsense_api_2 self))
               (w_env w)
               (w_ticks w + 2 * length (listed_accounts (adsense_api_1 self))) ++
             source_frames (adsense_api_3 self) (listed_accounts (adsense_api_3 self))
               (w_env w)
               (w_ticks w + 2 * length (listed_accounts (adsense_api_1 self)) +
                2 * length (listed_accounts (adsense_api_2 self))) ++
             source_frames (adsense_api_4 self) (listed_accounts (adsense_api_4 self))
               (w_env w)
               (w_ticks w + 2 * length (listed_accounts (adsense_api_1 self)) +
                2 * length (listed_accounts (adsense_api_2 self)) +
                2 * length (listed_accounts (adsense_api_3 self))))
            empty_frame) as Htable.
  { unfold consolidated_table, consolidated_frames, apis_of.
    cbn [sources_frames]. by rewrite app_nil_r. }
  split; [intros; by apply lookup_source_frames|].
  split; [exact Htable|].
  split; [rewrite Htable; apply len_fold_concat|].
  split; [intros c; rewrite Htable; apply column_fold_concat|].
  apply process_reports_run.
Qed.

Lemma wf_empty_frame : wf empty_frame.
Proof. split; simpl; constructor. Qed.

Lemma wf_concat a b : wf a -> wf b -> wf (concat a b).
Proof.
  intros [Ha _] [Hb _]. split; simpl.
  - by apply NoDup_union_labels.
  - apply Forall_app. split; apply Forall_fmap, Forall_forall; intros row _;
      simpl; unfold reindex; by rewrite length_map.
Qed.

Lemma dict_keys_set {V} k (v : V) d :
  dict_keys (dict_set k v d) =
  if bool_decide (k ∈ dict_keys d) then dict_keys d else dict_keys d ++ [k].
Proof.
  induction d as [|[k' v'] d IH]; simpl; [done|].
  destruct (String.eqb_spec k k') as [->|Hne]; simpl.
  - by rewrite bool_decide_eq_true_2 by left.
  - rewrite IH. destruct (decide (k ∈ dict_keys d)) as [Hin|Hn].
    + by rewrite !bool_decide_eq_true_2 by (try right; done).
    + rewrite !bool_decide_eq_false_2; [done| |done].
      rewrite elem_of_cons. tauto.
Qed.

Lemma NoDup_dict_set {V} k (v : V) d :
  NoDup (dict_keys d) -> NoDup (dict_keys (dict_set k v d)).
Proof.
  intros Hd. rewrite dict_keys_set. case_bool_decide; [done|].
  apply NoDup_app. split; [done|]. split; [|apply NoDup_singleton].
  intros x Hx Hx'. apply list_elem_of_singleton in Hx'. by subst.
Qed.

Lemma NoDup_dict_update {V} (a b : pydict V) :
  NoDup (dict_keys a) -> NoDup (dict_keys (dict_update a b)).
Proof.
  unfold dict_update. revert a. induction b as [|[k v] b IH]; intros a Ha; simpl.
  - done.
  - by apply IH, NoDup_dict_set.
Qed.

Lemma NoDup_row_data account_id report row record :
  row_data_of account_id report row = Ok record -> NoDup (dict_keys record).
Proof.
  unfold row_data_of. intros Hrow.
  repeat match type of Hrow with
         | (?m ≫= _) = Ok _ => destruct m; simpl in Hrow; [|done]
         end.
  simplify_eq. apply NoDup_dict_update.
  apply (bool_decide_unpack _). by vm_compute.
Qed.

Lemma rmap_Forall {A B} (f : A -> result B) (P : B -> Prop) l l' :
  (forall a b, f a = Ok b -> P b) -> rmap f l = Ok l' -> Forall P l'.
Proof.
  intros Hf. revert l'. induction l as [|a l IH]; intros l' Hl; simpl in Hl.
  - by simplify_eq.
  - destruct (f a) as [b|] eqn:Hb; simpl in Hl; [|done].
    destruct (rmap f l) as [bs|]; simpl in Hl; [|done].
    simplify_eq. constructor; eauto.
Qed.

Lemma wf_of_records records :
  Forall (fun r => NoDup (dict_keys r)) records -> wf (of_records records).
Proof.
  intros Hr. split; simpl.
  - unfold record_labels.
    assert (NoDup (@nil string)) as Hnil by constructor.
    revert Hnil. generalize (@nil string).
    induction Hr as [|r records Hk _ IH]; intros acc Hacc; simpl; [done|].
    by apply IH, NoDup_union_labels.
  - apply Forall_fmap, Forall_forall. intros r _; simpl.
    unfold record_row. by rewrite length_map.
Qed.

(** The frames the orchestrator builds have unique labels and are
    rectangular, and so has the consolidated table. *)
Lemma wf_fetched_frame self account_id e t : wf (fetched_frame self account_id e t).
Proof.
  unfold fetched_frame, report_frame.
  destruct (response_of _ _) as [report|]; [|apply wf_empty_frame].
  destruct (report_rows report) as [rows|]; [|apply wf_empty_frame].
  destruct (rmap _ rows) as [records|] eqn:E; [|apply wf_empty_frame].
  apply wf_of_records. eapply rmap_Forall; [|exact E].
  intros row record. apply NoDup_row_data.
Qed.

Lemma wf_fold_concat frames acc :
  wf acc -> Forall wf frames -> wf (fold_left concat frames acc).
Proof.
  intros Hacc Hf. revert acc Hacc.
  induction Hf as [|f frames Hwf _ IH]; intros acc Hacc; simpl; [done|].
  by apply IH, wf_concat.
Qed.

Lemma wf_source_frames self accounts e t : Forall wf (source_frames self accounts e t).
Proof.
  revert t. induction accounts as [|a accounts IH]; intros t; simpl; constructor.
  - apply wf_fetched_frame.
  - apply IH.
Qed.

Lemma wf_consolidated_table self e t : wf (consolidated_table self e t).
Proof.
  unfold consolidated_table, consolidated_frames.
  apply wf_fold_concat; [apply wf_empty_frame|].
  generalize (apis_of self). intros apis. revert t.
  induction apis as [|api apis IH]; intros t; simpl; [constructor|].
  apply Forall_app. split; [apply wf_source_frames | apply IH].
Qed.

(** C7. Failures stay with the source and the account they happen to:
    [list_accounts] always returns, with no account when its request
    fails; a report whose request fails is the empty frame; and whatever
    fails elsewhere, every row of every frame fetched is in the
    consolidated table, which goes to the sink when it is not empty and,
    when the warehouse answers, is appended whole. *)
Theorem failures_are_isolated self w :
  (forall api w0,
     exists w0',
       list_accounts api w0 = (Ok (listed_accounts api), w0') /\
       forall s e,
         api_service api = Some s -> accounts_list s = Raise e ->
         listed_accounts api = []) /\
  (forall api account_id e t err,
     response_of api (request_at account_id e t) = Raise err ->
     fetched_frame api account_id e t = empty_frame) /\
  let table := consolidated_table self (w_env w) (w_ticks w) in
  exists r w1 n allocated,
    fetch_step w w1 n allocated (consolidated_events self (w_env w) (w_ticks w)) /\
    w_heap w1 !! r = Some table /\
    process_reports self w =
    (if empty table
     then print (Msg "No data fetched from AdSense accounts.")
     else push_to_bigquery (bigquery_client self) r) w1 /\
    (forall i f j row,
       consolidated_frames self (w_env w) (w_ticks w) !! i = Some f ->
       data f !! j = Some row ->
       has_row table (columns f) row) /\
    (empty table = false ->
     consolidated int_cols table ->
     (forall k, bq_fault (w_env w) k = None) ->
     exists w',
       process_reports self w = (Ok tt, w') /\
       w_table w' = keep_before (cutoff_at w1) (w_table w) ++ loaded_rows table /\
       length (loaded_rows table) = len table).
Proof.
  split; [|split].
  - intros api w0. destruct (list_accounts_run api w0) as (w0' & Hrun & _).
    exists w0'. split; [done|].
    intros s e Hs He. unfold listed_accounts. by rewrite Hs, He.
  - intros api account_id e t err Herr. unfold fetched_frame. by rewrite Herr.
  - cbv zeta.
    destruct (process_reports_run self w) as (r & w1 & n & allocated & Hs & Hr & Hrun).
    exists r, w1, n, allocated. split; [done|]. split; [done|]. split; [done|].
    split.
    + intros i f j row Hi Hj. unfold consolidated_table.
      by eapply has_row_fold_elem.
    + intros Hne Hc Hf. rewrite Hrun, Hne.
      destruct (push_to_bigquery_ok (bigquery_client self) r _ w1 Hr Hne Hc)
        as (w' & Hpush & _ & _ & _ & Ht & _).
      { intros k. rewrite (fs_env _ _ _ _ _ Hs). apply Hf. }
      exists w'. split; [done|]. split.
      * by rewrite Ht, (fs_table _ _ _ _ _ Hs).
      * apply length_loaded_rows.
Qed.

Lemma sources_frames_no_accounts apis e t :
  Forall (fun api => listed_accounts api = []) apis -> sources_frames apis e t = [].
Proof.
  intros Hall. revert t. induction Hall as [|api apis Hapi _ IH]; intros t; simpl.
  - done.
  - rewrite Hapi; simpl. apply IH.
Qed.

(** C5. When the consolidated table is empty, [process_reports] ends
    normally without a request to the warehouse: no delete, no append,
    the table as it was.  That is the case when no source lists an
    account; and the sink itself, given an empty table, returns without
    a request either. *)
Theorem empty_table_is_a_noop self w :
  empty (consolidated_table self (w_env w) (w_ticks w)) = true ->
  (exists w',
     process_reports self w = (Ok tt, w') /\
     w_bq_log w' = w_bq_log w /\
     w_bq_calls w' = w_bq_calls w /\
     w_table w' = w_table w) /\
  (Forall (fun api => listed_accounts api = []) (apis_of self) ->
   consolidated_table self (w_env w) (w_ticks w) = empty_frame) /\
  (forall bq r df w0,
     w_heap w0 !! r = Some df -> empty df = true ->
     exists w0',
       push_to_bigquery bq r w0 = (Ok tt, w0') /\
       w_bq_log w0' = w_bq_log w0 /\
       w_bq_calls w0' = w_bq_calls w0 /\
       w_table w0' = w_table w0).
Proof.
  intros Hempty. split; [|split].
  - destruct (process_reports_run self w) as (r & w1 & n & allocated & Hs & Hr & Hrun).
    rewrite Hempty in Hrun. eexists. split; [exact Hrun|]. simpl.
    by rewrite (fs_bq_log _ _ _ _ _ Hs), (fs_bq_calls _ _ _ _ _ Hs),
      (fs_table _ _ _ _ _ Hs).
  - intros Hall. unfold consolidated_table, consolidated_frames.
    by rewrite sources_frames_no_accounts.
  - intros bq r df w0 Hr He. eexists. split.
    + by apply (push_to_bigquery_empty bq r df).
    + done.
Qed.

End Orchestrator.

(** * Authentication and the run *)

(** A run that may print and write credential files, and nothing else. *)
Record auth_step (w w' : world) : Prop := {
  as_env : w_env w' = w_env w;
  as_ticks : w_ticks w' = w_ticks w;
  as_heap : w_heap w' = w_heap w;
  as_table : w_table w' = w_table w;
  as_bq_calls : w_bq_calls w' = w_bq_calls w;
  as_api_log : w_api_log w' = w_api_log w;
  as_bq_log : w_bq_log w' = w_bq_log w
}.

Lemma auth_step_refl w : auth_step w w.
Proof. by split. Qed.

Lemma auth_step_trans w1 w2 w3 : auth_step w1 w2 -> auth_step w2 w3 -> auth_step w1 w3.
Proof. intros [] []. split; congruence. Qed.

(** A computation that, from every world, makes an [auth_step]. *)
Definition keeps {A} (m : M A) : Prop := forall w, auth_step w (snd (m w)).

Lemma keeps_bind {A B} (m : M A) (k : A -> M B) :
  keeps m -> (forall a, keeps (k a)) -> keeps (m ≫= k).
Proof.
  intros Hm Hk w. rewrite run_bind. specialize (Hm w).
  destruct (m w) as [[a|e] w']; simpl in *; [|done].
  eapply auth_step_trans; [exact Hm | apply Hk].
Qed.

Lemma keeps_ret {A} (a : A) : keeps (mret a).
Proof. intros w. apply auth_step_refl. Qed.

Lemma keeps_lift {A} (r : result A) : keeps (lift r).
Proof. intros w. apply auth_step_refl. Qed.

Lemma keeps_ask {A} (f : env -> A) : keeps (ask f).
Proof. intros w. apply auth_step_refl. Qed.

Lemma keeps_print m : keeps (print m).
Proof. intros w. by split. Qed.

Lemma keeps_path_exists path : keeps (path_exists path).
Proof. intros w. apply auth_step_refl. Qed.

Lemma keeps_from_authorized_user_file path : keeps (from_authorized_user_file path).
Proof.
  intros w. unfold from_authorized_user_file.
  destruct (w_files w !! path) as [[c|]|]; apply auth_step_refl.
Qed.

Lemma keeps_write_credentials path c : keeps (write_credentials path c).
Proof.
  intros w. unfold write_credentials.
  destruct (write_fault (w_env w) path); by split.
Qed.

Lemma keeps_connect_bigquery : keeps connect_bigquery.
Proof.
  intros w. unfold connect_bigquery.
  destruct (bq_connect (w_env w)); apply auth_step_refl.
Qed.

Create HintDb keeps.
#[local] Hint Resolve keeps_ret keeps_lift keeps_ask keeps_print keeps_path_exists
  keeps_from_authorized_user_file keeps_write_credentials keeps_connect_bigquery
  : keeps.

Ltac keeps_tac :=
  repeat first
    [ apply keeps_bind; [|intros]
    | solve [auto with keeps]
    | match goal with
      | |- keeps (if ?b then _ else _) => destruct b
      | |- keeps (match ?x with _ => _ end) => destruct x
      end ].

Lemma authenticate_keeps self : keeps (authenticate self).
Proof. unfold authenticate. keeps_tac. Qed.

Lemma AdSenseAPI_init_keeps secrets path : keeps (AdSenseAPI_init secrets path).
Proof. apply authenticate_keeps. Qed.

Lemma BigQueryClient_init_keeps : keeps BigQueryClient_init.
Proof. unfold BigQueryClient_init. keeps_tac. Qed.

Lemma AdSenseReportProcessor_init_keeps : keeps AdSenseReportProcessor_init.
Proof.
  unfold AdSenseReportProcessor_init.
  repeat (apply keeps_bind; [first [apply AdSenseAPI_init_keeps
                                   | apply BigQueryClient_init_keeps]|intros]).
  apply keeps_ret.
Qed.

Section Run.
Context `{PyBuiltins}.

(** C8, as the code has it.  A failure to authenticate any source is a
    failure of the whole run: the exception leaves the constructor of
    [AdSenseReportProcessor] and [main], and the run has then listed no
    account, fetched no report and sent nothing to the warehouse.  The
    constructor fails as soon as the authentication of one source does. *)
Theorem auth_failure_aborts_run w e w1 :
  AdSenseReportProcessor_init
    (set_stdout
       (w_stdout w ++ [Msg "Starting multi-account AdSense report processing..."]) w) =
    (Raise e, w1) ->
  main w = (Raise e, w1) /\
  w_api_log w1 = w_api_log w /\
  w_bq_log w1 = w_bq_log w /\
  w_bq_calls w1 = w_bq_calls w /\
  w_table w1 = w_table w /\
  w_heap w1 = w_heap w /\
  (forall w0 e0 w0',
     AdSenseAPI_init CLIENT_SECRETS_FILE CREDENTIALS_FILE w0 = (Raise e0, w0') ->
     AdSenseReportProcessor_init w0 = (Raise e0, w0')) /\
  (forall w0 a1 w01 e0 w0',
     AdSenseAPI_init CLIENT_SECRETS_FILE CREDENTIALS_FILE w0 = (Ok a1, w01) ->
     AdSenseAPI_init CLIENT_SECRETS_FILE CREDENTIALS_FILE_2 w01 = (Raise e0, w0') ->
     AdSenseReportProcessor_init w0 = (Raise e0, w0')) /\
  (forall w0 a1 w01 a2 w02 e0 w0',
     AdSenseAPI_init CLIENT_SECRETS_FILE CREDENTIALS_FILE w0 = (Ok a1, w01) ->
     AdSenseAPI_init CLIENT_SECRETS_FILE CREDENTIALS_FILE_2 w01 = (Ok a2, w02) ->
     AdSenseAPI_init CLIENT_SECRETS_FILE CREDENTIALS_FILE_3 w02 = (Raise e0, w0') ->
     AdSenseReportProcessor_init w0 = (Raise e0, w0')) /\
  (forall w0 a1 w01 a2 w02 a3 w03 e0 w0',
     AdSenseAPI_init CLIENT_SECRETS_FILE CREDENTIALS_FILE w0 = (Ok a1, w01) ->
     AdSenseAPI_init CLIENT_SECRETS_FILE CREDENTIALS_FILE_2 w01 = (Ok a2, w02) ->
     AdSenseAPI_init CLIENT_SECRETS_FILE CREDENTIALS_FILE_3 w02 = (Ok a3, w03) ->
     AdSenseAPI_init CLIENT_SECRETS_FILE CREDENTIALS_FILE_4 w03 = (Raise e0, w0') ->
     AdSenseReportProcessor_init w0 = (Raise e0, w0')).
Proof.
  intros Hinit.
  pose proof (AdSenseReportProcessor_init_keeps
                (set_stdout
                   (w_stdout w ++
                    [Msg "Starting multi-account AdSense report processing..."]) w))
    as Hkeep.
  rewrite Hinit in Hkeep. destruct Hkeep; simpl in *.
  split.
  { unfold main. rewrite run_bind. unfold print at 1.
    by rewrite (run_bind_raise _ _ _ w1 e Hinit). }
  repeat (split; [done|]).
  unfold AdSenseReportProcessor_init.
  split; [|split; [|split]].
  - intros w0 e0 w0' H1. by rewrite (run_bind_raise _ _ _ _ _ H1).
  - intros w0 a1 w01 e0 w0' H1 H2.
    rewrite (run_bind_ok _ _ _ _ _ H1). by rewrite (run_bind_raise _ _ _ _ _ H2).
  - intros w0 a1 w01 a2 w02 e0 w0' H1 H2 H3.
    rewrite (run_bind_ok _ _ _ _ _ H1), (run_bind_ok _ _ _ _ _ H2).
    by rewrite (run_bind_raise _ _ _ _ _ H3).
  - intros w0 a1 w01 a2 w02 a3 w03 e0 w0' H1 H2 H3 H4.
    rewrite (run_bind_ok _ _ _ _ _ H1), (run_bind_ok _ _ _ _ _ H2),
      (run_bind_ok _ _ _ _ _ H3).
    by rewrite (run_bind_raise _ _ _ _ _ H4).
Qed.

End Run.

(** * A worked scenario *)

Module Scenario.
Import Pandas PandasFacts.

(** The binary64 values of 3.0, 0.12 and 0.5. *)
Definition three : spec_float := S754_finite false 6755399441055744 (-51).
Definition rate_012 : spec_float := S754_finite false 8646911284551352 (-56).
Definition half : spec_float := S754_finite false 4503599627370496 (-53).

(** [float()] and [int()] on the strings of the scenario. *)
#[local] Instance builtins : PyBuiltins := {|
  py_float s := dict_get s [("3.0", three); ("0.12", rate_012); ("0.5", half);
                            ("nan", S754_nan); ("inf", S754_infinity false)];
  py_int s := dict_get s [("0", 0); ("3", 3)]
|}.

Example three_truncates : float_trunc three = Some 3.
Proof. reflexivity. Qed.

Example three_coerces : coerced (CFloat three) = CInt 3.
Proof. reflexivity. Qed.

Example missing_coerces : coerced NaN = CInt 0.
Proof. reflexivity. Qed.

Definition header (name : string) : api_header := {| header_name := Some name |}.
Definition value (v : string) : api_cell := {| cell_value := Some v |}.

Definition headers : list api_header :=
  map header (report_dimensions ++ report_metrics).

(** One row for 2024-10-03: clicks missing, 3.0 for the other counts. *)
Definition row_yesterday : api_row :=
  {| row_cells := Some (map value
       ["2024-10-03"; "example.com"; "US";
        "0.5"; "3.0"; "0.5"; "nan"; "0.12"; "0.5"; "3.0"; "3.0"; "3.0"; "3.0"; "3.0"]) |}.

Definition report : api_report :=
  {| report_headers := Some headers; report_rows := Some [row_yesterday] |}.

Definition one_account : api_accounts :=
  {| accounts_accounts :=
       Some [{| account_name := Some "accounts/pub-1";
                account_displayName := Some "Publisher" |}] |}.

(** A service with one account and one row; one whose account list is
    empty; one whose requests fail. *)
Definition service_one : service :=
  {| accounts_list := Ok one_account; reports_generate := fun _ => Ok report |}.
Definition service_none : service :=
  {| accounts_list := Ok {| accounts_accounts := None |};
     reports_generate := fun _ => Ok report |}.
Definition service_down : service :=
  {| accounts_list := Raise (HttpError 500);
     reports_generate := fun _ => Raise (HttpError 500) |}.

Definition fresh : Credentials :=
  {| token := Some "token"; expired := false; refresh_token := Some "refresh" |}.
Definition stale : Credentials :=
  {| token := Some "token"; expired := true; refresh_token := Some "refresh" |}.

(** The clock stands at 2024-10-04; every request is answered. *)
Definition env0 (s : service) : env :=
  {| clock := fun _ => 20000%N;
     oauth_refresh := fun _ => Raise RefreshError;
     oauth_flow := fun _ => Raise OSError;
     discovery_build := fun _ => Ok s;
     write_fault := fun _ => None;
     bq_connect := None;
     bq_fault := fun _ => None |}.

Definition api (s : service) (path : string) : AdSenseAPI :=
  mkAdSenseAPI (Some s) (Some fresh) CLIENT_SECRETS_FILE path.

Definition bq : BigQueryClient :=
  {| bq_credentials := BIGQUERY_SERVICE_ACCOUNT_KEY_FILE;
     bq_project := BIGQUERY_PROJECT_ID |}.

Definition processor (s : service) : AdSenseReportProcessor :=
  {| adsense_api_1 := api s CREDENTIALS_FILE;
     adsense_api_2 := api s CREDENTIALS_FILE_2;
     adsense_api_3 := api s CREDENTIALS_FILE_3;
     adsense_api_4 := api s CREDENTIALS_FILE_4;
     bigquery_client := bq |}.

(** The table of one fetched report. *)
Definition df0 : DataFrame :=
  fetched_frame (api service_one CREDENTIALS_FILE) "accounts/pub-1" (env0 service_one) 0.

(** The warehouse holds a row of two days ago and a row of yesterday. *)
Definition old_rows : list wrow :=
  [[("account_id", CStr "accounts/pub-1"); ("date", CStr "2024-10-02")];
   [("account_id", CStr "accounts/pub-1"); ("date", CStr "2024-10-03")]].

Definition all_files (c2 : Credentials) : gmap string file :=
  <[CREDENTIALS_FILE := FileCredentials fresh]>
  (<[CREDENTIALS_FILE_2 := FileCredentials c2]>
  (<[CREDENTIALS_FILE_3 := FileCredentials fresh]>
  (<[CREDENTIALS_FILE_4 := FileCredentials fresh]> ∅))).

Definition world0 (s : service) (c2 : Credentials) : world :=
  mkWorld (env0 s) 0 [df0] (all_files c2) old_rows 0 [] [] [].

Definition w_sink : world := world0 service_one fresh.

Lemma df0_consolidated : consolidated int_cols df0.
Proof.
  split.
  - split.
    + apply (bool_decide_unpack _). by vm_compute.
    + repeat constructor.
  - apply (bool_decide_unpack _). by vm_compute.
  - repeat (cbv beta;
            match goal with
            | |- Forall _ _ => constructor
            | |- is_count _ =>
                vm_compute; first [exact I | by left | right; eexists; reflexivity]
            end).
Qed.

Example loaded_rows_df0 :
  loaded_rows df0 =
  [[("account_id", CStr "accounts/pub-1"); ("date", CStr "2024-10-03");
    ("domain", CStr "example.com"); ("country", CStr "US");
    ("ESTIMATED_EARNINGS", CFloat half); ("PAGE_VIEWS", CInt 3);
    ("PAGE_VIEWS_RPM", CFloat half); ("CLICKS", CInt 0);
    ("ctr", CFloat rate_012); ("cpc", CFloat half);
    ("TOTAL_IMPRESSIONS", CInt 3); ("AD_REQUESTS", CInt 3);
    ("MATCHED_AD_REQUESTS", CInt 3); ("IMPRESSIONS", CInt 3);
    ("INDIVIDUAL_AD_IMPRESSIONS", CInt 3)]].
Proof. reflexivity. Qed.

(** Two loads in a row: the row of two days ago stays, the old row of
    yesterday goes, and the loaded row is there once. *)
Example two_loads_dates :
  map (dict_get "date")
    (w_table (snd (push_to_bigquery bq 0%nat (snd (push_to_bigquery bq 0%nat w_sink))))) =
  [Some (CStr "2024-10-02"); Some (CStr "2024-10-03")].
Proof. vm_compute. reflexivity. Qed.

Lemma load_twice_one_copy_witness :
  exists w1 w2,
    push_to_bigquery bq 0%nat w_sink = (Ok tt, w1) /\
    push_to_bigquery bq 0%nat w1 = (Ok tt, w2) /\
    w_table w1 = keep_before (cutoff_at w_sink) (w_table w_sink) ++ loaded_rows df0 /\
    w_table w2 = keep_before (cutoff_at w1) (w_table w1) ++ loaded_rows df0 /\
    List.filter (date_ge (cutoff_at w1)) (keep_before (cutoff_at w1) (w_table w1)) = [] /\
    List.filter (date_ge (cutoff_at w1)) (w_table w2) =
      List.filter (date_ge (cutoff_at w1)) (loaded_rows df0).
Proof.
  exact (load_twice_one_copy bq 0%nat df0 w_sink eq_refl eq_refl df0_consolidated
           (fun n => eq_refl)).
Defined.

Lemma sink_delete_then_append_witness :
  let cutoff := strftime_Ymd (Z.of_N (clock (w_env w_sink) (w_ticks w_sink)) - 1) in
  exists evs,
    w_bq_log (snd (push_to_bigquery bq 0%nat w_sink)) =
      w_bq_log w_sink ++ EvQuery cutoff :: evs /\
    (evs = [] \/ evs = [EvQueryDone; EvAppend (loaded_rows df0)]) /\
    (forall row, dict_get "date" row = Some (CStr cutoff) -> date_ge cutoff row = true) /\
    ((forall n, bq_fault (w_env w_sink) n = None) ->
     fst (push_to_bigquery bq 0%nat w_sink) = Ok tt /\
     evs = [EvQueryDone; EvAppend (loaded_rows df0)] /\
     w_table (snd (push_to_bigquery bq 0%nat w_sink)) =
       List.filter (fun row => negb (date_ge cutoff row)) (w_table w_sink) ++
       loaded_rows df0).
Proof.
  exact (sink_delete_then_append bq 0%nat df0 w_sink eq_refl eq_refl df0_consolidated).
Defined.

Example sink_log :
  w_bq_log (snd (push_to_bigquery bq 0%nat w_sink)) =
  [EvQuery "2024-10-03"; EvQueryDone; EvAppend (loaded_rows df0)].
Proof. vm_compute. reflexivity. Qed.

Lemma sink_coerces_counts_witness :
  exists w',
    push_to_bigquery bq 0%nat w_sink = (Ok tt, w') /\
    w_table w' = keep_before (cutoff_at w_sink) (w_table w_sink) ++ loaded_rows df0 /\
    length (loaded_rows df0) = len df0 /\
    forall j row c,
      data df0 !! j = Some row ->
      c ∈ int_cols ->
      exists record z,
        loaded_rows df0 !! j = Some record /\
        dict_get c record = Some (CInt z) /\
        (cell_at (columns df0) row c = NaN -> z = 0) /\
        (forall f t,
           cell_at (columns df0) row c = CFloat f -> float_trunc f = Some t ->
           z = cast_int64 t).
Proof.
  exact (sink_coerces_counts bq 0%nat df0 w_sink eq_refl eq_refl df0_consolidated
           (fun n => eq_refl)).
Defined.

Lemma sink_renames_rates_witness :
  exists w',
    push_to_bigquery bq 0%nat w_sink = (Ok tt, w') /\
    w_table w' = keep_before (cutoff_at w_sink) (w_table w_sink) ++ loaded_rows df0 /\
    rename_label "AD_REQUESTS_CTR" = "ctr" /\
    rename_label "COST_PER_CLICK" = "cpc" /\
    (forall c, c <> "AD_REQUESTS_CTR" -> c <> "COST_PER_CLICK" -> rename_label c = c) /\
    forall j row,
      data df0 !! j = Some row ->
      exists record,
        loaded_rows df0 !! j = Some record /\
        dict_keys record = map rename_label (columns df0) /\
        ("AD_REQUESTS_CTR" ∉ dict_keys record) /\
        ("COST_PER_CLICK" ∉ dict_keys record) /\
        forall i c v,
          columns df0 !! i = Some c -> row !! i = Some v ->
          record !! i =
          Some (rename_label c, if bool_decide (c ∈ int_cols) then coerced v else v).
Proof.
  exact (sink_renames_rates bq 0%nat df0 w_sink eq_refl eq_refl df0_consolidated
           (fun n => eq_refl)).
Defined.

Lemma sink_mutates_caller_table_witness :
  exists df',
    w_heap (snd (push_to_bigquery bq 0%nat w_sink)) !! 0%nat = Some df' /\
    columns df' = columns df0 /\
    len df' = len df0 /\
    (forall j row c,
       data df0 !! j = Some row -> c ∈ columns df0 ->
       exists row',
         data df' !! j = Some row' /\
         cell_at (columns df') row' c =
         if bool_decide (c ∈ int_cols) then coerced (cell_at (columns df0) row c)
         else cell_at (columns df0) row c) /\
    w_heap w_sink !! length (w_heap w_sink) = None /\
    0%nat <> length (w_heap w_sink) /\
    w_heap (snd (push_to_bigquery bq 0%nat w_sink)) !! length (w_heap w_sink) =
      Some (rename rename_columns df') /\
    columns (rename rename_columns df') = map rename_label (columns df0).
Proof.
  exact (sink_mutates_caller_table bq 0%nat df0 w_sink eq_refl eq_refl df0_consolidated).
Defined.

(** After the sink the caller's frame has integer counts under the labels
    it had; the frame with [ctr] and [cpc] is the second object. *)
Example caller_sees_coerced :
  let heap := w_heap (snd (push_to_bigquery bq 0%nat w_sink)) in
  (column "CLICKS" <$> heap !! 0%nat) = Some [CInt 0] /\
  (column "PAGE_VIEWS" <$> heap !! 0%nat) = Some [CInt 3] /\
  (columns <$> heap !! 0%nat) = Some (columns df0) /\
  (column "ctr" <$> heap !! 1%nat) = Some [CFloat rate_012] /\
  (column "ctr" <$> heap !! 0%nat) = Some [NaN].
Proof. vm_compute. repeat split. Qed.

(** No source lists an account: nothing reaches the warehouse. *)
Definition w_idle : world := world0 service_none fresh.

Lemma empty_table_is_a_noop_witness :
  exists w',
    process_reports (processor service_none) w_idle = (Ok tt, w') /\
    w_bq_log w' = w_bq_log w_idle /\
    w_bq_calls w' = w_bq_calls w_idle /\
    w_table w' = w_table w_idle.
Proof.
  exact (proj1 (empty_table_is_a_noop (processor service_none) w_idle eq_refl)).
Defined.

Example idle_run : fst (main w_idle) = Ok tt /\ w_bq_log (snd (main w_idle)) = [].
Proof. vm_compute. split; reflexivity. Qed.

(** The credential of the second source has expired and cannot be
    refreshed; the three other sources are in order. *)
Definition w_stale : world := world0 service_one stale.

Definition w_started (w : world) : world :=
  set_stdout
    (w_stdout w ++ [Msg "Starting multi-account AdSense report processing..."]) w.

Lemma auth_failure_aborts_run_witness :
  main w_stale = (Raise RefreshError, snd (AdSenseReportProcessor_init (w_started w_stale))) /\
  w_api_log (snd (AdSenseReportProcessor_init (w_started w_stale))) = w_api_log w_stale.
Proof.
  destruct (auth_failure_aborts_run w_stale RefreshError
              (snd (AdSenseReportProcessor_init (w_started w_stale))))
    as (Hmain & Hapi & _).
  - vm_compute. reflexivity.
  - split; [exact Hmain | exact Hapi].
Defined.

(** C8 fails on the code: with the second source unable to authenticate
    the run raises, although the first, third and fourth sources
    authenticate, list an account and have a row to fetch; no report is
    requested and the warehouse is left as it was. *)
Lemma auth_failure_blocks_other_sources :
  fst (main w_stale) = Raise RefreshError /\
  w_api_log (snd (main w_stale)) = [] /\
  w_bq_log (snd (main w_stale)) = [] /\
  w_table (snd (main w_stale)) = old_rows /\
  fst (AdSenseAPI_init CLIENT_SECRETS_FILE CREDENTIALS_FILE w_stale) =
    Ok (api service_one CREDENTIALS_FILE) /\
  fst (AdSenseAPI_init CLIENT_SECRETS_FILE CREDENTIALS_FILE_2 w_stale) =
    Raise RefreshError /\
  fst (AdSenseAPI_init CLIENT_SECRETS_FILE CREDENTIALS_FILE_3 w_stale) =
    Ok (api service_one CREDENTIALS_FILE_3) /\
  fst (AdSenseAPI_init CLIENT_SECRETS_FILE CREDENTIALS_FILE_4 w_stale) =
    Ok (api service_one CREDENTIALS_FILE_4) /\
  listed_accounts (api service_one CREDENTIALS_FILE) = ["accounts/pub-1"] /\
  len (fetched_frame (api service_one CREDENTIALS_FILE) "accounts/pub-1"
         (env0 service_one) 0) = 1%nat /\
  length (w_table (snd (main w_sink))) = 5%nat.
Proof. vm_compute. repeat split. Qed.

(** Two accounts, the report of the second of which cannot be had. *)
Definition service_partial : service :=
  {| accounts_list :=
       Ok {| accounts_accounts :=
               Some [{| account_name := Some "accounts/pub-7";
                        account_displayName := Some "Seven" |};
                     {| account_name := Some "accounts/pub-8";
                        account_displayName := Some "Eight" |}] |};
     reports_generate := fun req =>
       if String.eqb (req_account req) "accounts/pub-8" then Raise (HttpError 500)
       else Ok report |}.

(** The second source cannot list its accounts, the third cannot fetch
    one of its two reports. *)
Definition mixed : AdSenseReportProcessor :=
  {| adsense_api_1 := api service_one CREDENTIALS_FILE;
     adsense_api_2 := api service_down CREDENTIALS_FILE_2;
     adsense_api_3 := api service_partial CREDENTIALS_FILE_3;
     adsense_api_4 := api service_one CREDENTIALS_FILE_4;
     bigquery_client := bq |}.

(** The rows of the first source, of the first account of the third and
    of the fourth are loaded, in that order, behind the row the delete
    kept. *)
Example mixed_run :
  fst (process_reports mixed w_sink) = Ok tt /\
  map (dict_get "account_id") (w_table (snd (process_reports mixed w_sink))) =
    [Some (CStr "accounts/pub-1"); Some (CStr "accounts/pub-1");
     Some (CStr "accounts/pub-7"); Some (CStr "accounts/pub-1")] /\
  map (dict_get "date") (w_table (snd (process_reports mixed w_sink))) =
    [Some (CStr "2024-10-02"); Some (CStr "2024-10-03");
     Some (CStr "2024-10-03"); Some (CStr "2024-10-03")] /\
  map len (consolidated_frames mixed (env0 service_one) 0) = [1; 1; 0; 1]%nat.
Proof. vm_compute. repeat split. Qed.

End Scenario.

(** * Further properties of the sink *)

Section SinkEdges.
Context `{PyBuiltins}.
Import Pandas PandasFacts.

Lemma getitem_present labels df :
  Forall (fun l => l ∈ columns df) labels ->
  getitem labels df = Ok (selected labels df).
Proof.
  intros Hl. unfold getitem, selected.
  replace (filter _ labels) with (@nil string); [done|].
  symmetry. induction Hl as [|l ls Hin _ IH]; [done|].
  rewrite filter_cons. destruct (decide _) as [E|_]; [|done].
  apply label_pos_None in E. done.
Qed.

Lemma getitem_missing labels df c :
  c ∈ labels -> c ∉ columns df ->
  exists c',
    c' ∈ labels /\ (c' ∉ columns df) /\ getitem labels df = Raise (KeyError c').
Proof.
  intros Hin Hn. unfold getitem.
  destruct (filter _ labels) as [|c' rest] eqn:E.
  - exfalso. apply (filter_nil_not_elem_of _ _ c E); [|done].
    by apply label_pos_None.
  - exists c'. assert (c' ∈ filter (fun c => label_pos c (columns df) = None) labels)
      as Hc' by (rewrite E; left).
    apply list_elem_of_filter in Hc' as [Hpos Hc'].
    apply label_pos_None in Hpos. done.
Qed.

Lemma rmap_raises {A B} (f : A -> result B) (l : list A) a e :
  a ∈ l -> f a = Raise e -> exists e', rmap f l = Raise e'.
Proof.
  intros Hin Ha. induction l as [|b l IH]; [by apply elem_of_nil in Hin|].
  simpl. destruct (f b) as [b'|e'] eqn:Hb; simpl; [|eauto].
  apply elem_of_cons in Hin as [->|Hin]; [congruence|].
  destruct (IH Hin) as [e'' ->]. simpl. eauto.
Qed.

(** X1. A table that lacks one of the seven count columns makes the sink
    raise [KeyError] for a count column it lacks, before any request to
    the warehouse and without any change to the world: no delete, no
    append, the caller's table as it was. *)
Theorem push_missing_count_column self r df w c :
  w_heap w !! r = Some df ->
  empty df = false ->
  c ∈ int_cols ->
  c ∉ columns df ->
  exists c',
    c' ∈ int_cols /\ (c' ∉ columns df) /\
    push_to_bigquery self r w = (Raise (KeyError c'), w).
Proof.
  intros Hr Hne Hc Hn.
  destruct (getitem_missing int_cols df c Hc Hn) as (c' & Hc' & Hn' & Hget).
  exists c'. split; [done|]. split; [done|].
  unfold push_to_bigquery, df_empty, df_getitem.
  rewrite (run_bind_ok _ _ w w false).
  2:{ rewrite (run_bind_ok _ _ w w df) by by apply read_frame_ok.
      run_step. by rewrite Hne. }
  rewrite (run_bind_raise _ _ w w (KeyError c')); [done|].
  rewrite (run_bind_ok _ _ w w df) by by apply read_frame_ok.
  run_step. by rewrite Hget.
Qed.

(** X2. A count column holding an infinity (or anything [astype(int)]
    rejects) makes the sink raise before any request to the warehouse and
    before the assignment to the caller's table: the world is unchanged. *)
Theorem push_uncoercible_count self r df w row c s :
  w_heap w !! r = Some df ->
  empty df = false ->
  Forall (fun l => l ∈ columns df) int_cols ->
  row ∈ data df ->
  c ∈ int_cols ->
  cell_at (columns df) row c = CFloat (S754_infinity s) ->
  exists e, push_to_bigquery self r w = (Raise e, w).
Proof.
  intros Hr Hne Hl Hrow Hc Hinf.
  assert (exists e, astype_int (fillna (CInt 0) (selected int_cols df)) = Raise e)
    as [e He].
  { unfold astype_int, fillna, selected; cbn [data columns].
    assert (exists e,
              rmap astype_int_cell
                (map (fun x => if isna x then CInt 0 else x)
                   (reindex (columns df) row int_cols)) = Raise e) as [e1 He1].
    { eapply (rmap_raises _ _ (CFloat (S754_infinity s))); [|reflexivity].
      apply list_elem_of_fmap. exists (CFloat (S754_infinity s)). split; [done|].
      unfold reindex. apply list_elem_of_fmap. exists c. by split. }
    destruct (rmap_raises (rmap astype_int_cell)
                (map (map (fun x => if isna x then CInt 0 else x))
                   (map (fun row => reindex (columns df) row int_cols) (data df)))
                (map (fun x => if isna x then CInt 0 else x)
                   (reindex (columns df) row int_cols)) e1) as [e He];
      [| exact He1 |].
    { apply list_elem_of_fmap. eexists. split; [reflexivity|].
      apply list_elem_of_fmap. eexists. split; [reflexivity|]. exact Hrow. }
    exists e. by rewrite He. }
  exists e.
  unfold push_to_bigquery, df_empty, df_getitem.
  rewrite (run_bind_ok _ _ w w false).
  2:{ rewrite (run_bind_ok _ _ w w df) by by apply read_frame_ok.
      run_step. by rewrite Hne. }
  rewrite (run_bind_ok _ _ w w (selected int_cols df)).
  2:{ rewrite (run_bind_ok _ _ w w df) by by apply read_frame_ok.
      run_step. by rewrite (getitem_present _ _ Hl). }
  rewrite (run_bind_raise _ _ w w e); [done|].
  run_step. by rewrite He.
Qed.

End SinkEdges.

Section SinkFailures.
Context `{PyBuiltins}.
Import Pandas PandasFacts.

Lemma delete_fails_run self r w e :
  bq_fault (w_env w) (w_bq_calls w) = Some e \/
  (bq_fault (w_env w) (w_bq_calls w) = None /\
   bq_fault (w_env w) (S (w_bq_calls w)) = Some e) ->
  exists w',
    delete_then_append self r w = (Raise e, w') /\
    w_table w' = w_table w /\
    w_heap w' = w_heap w /\
    w_bq_log w' = w_bq_log w ++ [EvQuery (cutoff_at w)].
Proof.
  intros Hf.
  unfold delete_then_append, delete_yesterday_data, client_query,
    query_job_result, to_gbq, df_len, read_frame, bq_request.
  run_step. unfold cutoff_at.
  destruct Hf as [H0|[H0 H1]]; rewrite H0; simpl.
  - eexists. split; [reflexivity|]. done.
  - rewrite H1; simpl. eexists. split; [reflexivity|]. done.
Qed.

Lemma append_fails_run self r lf w e :
  w_heap w !! r = Some lf ->
  bq_fault (w_env w) (w_bq_calls w) = None ->
  bq_fault (w_env w) (S (w_bq_calls w)) = None ->
  bq_fault (w_env w) (S (S (w_bq_calls w))) = Some e ->
  exists w',
    delete_then_append self r w = (Raise e, w') /\
    w_table w' = keep_before (cutoff_at w) (w_table w) /\
    w_heap w' = w_heap w /\
    w_bq_log w' =
      w_bq_log w ++ [EvQuery (cutoff_at w); EvQueryDone; EvAppend (to_records lf)].
Proof.
  intros Hr H0 H1 H2.
  unfold delete_then_append, delete_yesterday_data, client_query,
    query_job_result, to_gbq, df_len, read_frame, bq_request.
  run_step. unfold cutoff_at.
  rewrite H0; simpl. rewrite H1; simpl. rewrite Hr; simpl. rewrite Hr; simpl.
  rewrite H2. eexists. split; [reflexivity|]. simpl.
  rewrite <- !app_assoc. done.
Qed.

Lemma lookup_loaded_frame r (heap : list DataFrame) df lf :
  (r < length heap)%nat ->
  (<[r := df]> heap ++ [lf]) !! length heap = Some lf.
Proof.
  intros Hlt. rewrite lookup_app_r by (rewrite length_insert; lia).
  by rewrite length_insert, Nat.sub_diag.
Qed.

(** X3. When the delete fails, at submission or as a job, the sink raises
    that failure, appends nothing and leaves the warehouse table as it
    was; the caller's table has been coerced in place all the same. *)
Theorem delete_failure_keeps_table self r df w e :
  w_heap w !! r = Some df ->
  empty df = false ->
  consolidated int_cols df ->
  bq_fault (w_env w) (w_bq_calls w) = Some e \/
  (bq_fault (w_env w) (w_bq_calls w) = None /\
   bq_fault (w_env w) (S (w_bq_calls w)) = Some e) ->
  exists w',
    push_to_bigquery self r w = (Raise e, w') /\
    w_table w' = w_table w /\
    w_bq_log w' =
      w_bq_log w ++
      [EvQuery (strftime_Ymd (Z.of_N (clock (w_env w) (w_ticks w)) - 1))] /\
    w_heap w' !! r = Some (coerce_frame int_cols df).
Proof.
  intros Hr Hne Hc Hf.
  assert (r < length (w_heap w))%nat as Hlt by (eapply lookup_lt_Some; eauto).
  rewrite (push_to_bigquery_coerces self r df w Hr Hne Hc).
  set (w1 := set_heap _ w).
  destruct (delete_fails_run self (length (w_heap w)) w1 e Hf)
    as (w' & Hrun & Ht & Hh & Hlog).
  exists w'. split; [done|]. split; [done|]. split; [done|].
  rewrite Hh. subst w1; simpl. rewrite lookup_app_l by (rewrite length_insert; lia).
  by apply list_lookup_insert_eq.
Qed.

(** X4. When the delete completes and the append fails, the sink raises
    that failure and the warehouse table is left without the rows dated
    at or after the cutoff and without the new rows. *)
Theorem append_failure_leaves_window_deleted self r df w e :
  w_heap w !! r = Some df ->
  empty df = false ->
  consolidated int_cols df ->
  bq_fault (w_env w) (w_bq_calls w) = None ->
  bq_fault (w_env w) (S (w_bq_calls w)) = None ->
  bq_fault (w_env w) (S (S (w_bq_calls w))) = Some e ->
  exists w',
    push_to_bigquery self r w = (Raise e, w') /\
    w_table w' = keep_before (cutoff_at w) (w_table w) /\
    List.filter (date_ge (cutoff_at w)) (w_table w') = [] /\
    w_bq_log w' =
      w_bq_log w ++ [EvQuery (cutoff_at w); EvQueryDone; EvAppend (loaded_rows df)].
Proof.
  intros Hr Hne Hc H0 H1 H2.
  assert (r < length (w_heap w))%nat as Hlt by (eapply lookup_lt_Some; eauto).
  rewrite (push_to_bigquery_coerces self r df w Hr Hne Hc).
  set (w1 := set_heap _ w).
  destruct (append_fails_run self (length (w_heap w)) (loaded_frame df) w1 e)
    as (w' & Hrun & Ht & Hh & Hlog); try done.
  { subst w1; simpl. by apply lookup_loaded_frame. }
  exists w'. split; [done|]. split; [done|]. split; [|done].
  rewrite Ht. apply filter_keep_before.
Qed.

Lemma keep_before_app cutoff a b :
  keep_before cutoff (a ++ b) = keep_before cutoff a ++ keep_before cutoff b.
Proof. unfold keep_before. apply List.filter_app. Qed.

Lemma keep_before_idemp cutoff t :
  keep_before cutoff (keep_before cutoff t) = keep_before cutoff t.
Proof.
  unfold keep_before. induction t as [|row t IH]; simpl; [done|].
  destruct (date_ge cutoff row) eqn:E; simpl; [done|]. by rewrite E, IH.
Qed.

(** X5. The delete of a second run does not reach the rows the first run
    appended with a date below the second cutoff (or with no date): after
    two runs on the same table, those rows of the table are in the
    warehouse twice, the rows at or after the cutoff once. *)
Theorem rerun_duplicates_rows_below_cutoff self r df w :
  w_heap w !! r = Some df ->
  empty df = false ->
  consolidated int_cols df ->
  (forall n, bq_fault (w_env w) n = None) ->
  exists w1 w2,
    push_to_bigquery self r w = (Ok tt, w1) /\
    push_to_bigquery self r w1 = (Ok tt, w2) /\
    w_table w2 =
      keep_before (cutoff_at w1) (keep_before (cutoff_at w) (w_table w)) ++
      keep_before (cutoff_at w1) (loaded_rows df) ++
      loaded_rows df /\
    keep_before (cutoff_at w1) (w_table w2) =
      keep_before (cutoff_at w1) (keep_before (cutoff_at w) (w_table w)) ++
      keep_before (cutoff_at w1) (loaded_rows df) ++
      keep_before (cutoff_at w1) (loaded_rows df).
Proof.
  intros Hr Hne Hc Hf.
  destruct (push_to_bigquery_ok self r df w Hr Hne Hc Hf)
    as (w1 & Hrun1 & He1 & _ & Hh1 & Ht1 & _).
  assert (r < length (w_heap w))%nat as Hlt by (eapply lookup_lt_Some; eauto).
  destruct (push_to_bigquery_ok self r (coerce_frame int_cols df) w1)
    as (w2 & Hrun2 & _ & _ & _ & Ht2 & _).
  { rewrite Hh1, lookup_app_l by (rewrite length_insert; lia).
    by apply list_lookup_insert_eq. }
  { by rewrite empty_coerce_frame. }
  { by apply consolidated_coerce_frame. }
  { intros n. rewrite He1. apply Hf. }
  rewrite (loaded_rows_coerce_frame df Hc) in Ht2.
  exists w1, w2. split; [done|]. split; [done|].
  assert (w_table w2 =
          keep_before (cutoff_at w1) (keep_before (cutoff_at w) (w_table w)) ++
          keep_before (cutoff_at w1) (loaded_rows df) ++ loaded_rows df) as Ht.
  { by rewrite Ht2, Ht1, keep_before_app, <- app_assoc. }
  split; [exact Ht|].
  rewrite Ht, !keep_before_app, !keep_before_idemp. done.
Qed.

End SinkFailures.

(** * Further properties of the sources *)

Section SourceEdges.
Context `{PyBuiltins}.
Import Pandas PandasFacts.

Lemma rmap_Ok_Forall {A B} (f : A -> result B) (g : A -> B) (l : list A) :
  Forall (fun a => f a = Ok (g a)) l -> rmap f l = Ok (map g l).
Proof.
  induction 1 as [|a l Ha _ IH]; simpl; [done|].
  rewrite Ha; simpl. by rewrite IH.
Qed.

Lemma cell_value_at_short row cells i :
  row_cells row = Some cells -> (length cells <= i)%nat ->
  cell_value_at row i = Raise IndexError.
Proof.
  intros Hc Hlen. unfold cell_value_at, index. rewrite Hc; simpl.
  by rewrite (lookup_ge_None_2 cells i Hlen).
Qed.

Lemma row_data_short account_id report row cells :
  row_cells row = Some cells -> (length cells < 3)%nat ->
  exists e, row_data_of account_id report row = Raise e.
Proof.
  intros Hc Hlen. unfold row_data_of.
  destruct (cell_value_at row 0) as [v0|e0] eqn:E0; simpl; [|eauto].
  destruct (cell_value_at row 1) as [v1|e1] eqn:E1; simpl; [|eauto].
  rewrite (cell_value_at_short row cells 2 Hc) by lia. simpl. eauto.
Qed.

Lemma metrics_of_bad_value pairs acc header c v :
  (header, c) ∈ pairs -> cell_value c = Some v -> py_float v = None ->
  exists e, metrics_of pairs acc = Raise e.
Proof.
  intros Hin Hv Hf. revert acc.
  induction pairs as [|[h' c'] pairs IH]; intros acc; [by apply elem_of_nil in Hin|].
  simpl.
  destruct (subscript "name" (header_name h')) as [n|e] eqn:En; simpl; [|eauto].
  destruct (subscript "value" (cell_value c')) as [v'|e] eqn:Ev; simpl; [|eauto].
  destruct (float_of_str v') as [f|e] eqn:Ef; simpl; [|eauto].
  apply elem_of_cons in Hin as [Heq|Hin]; [|by apply IH].
  simplify_eq. rewrite Hv in Ev. simpl in Ev. simplify_eq.
  unfold float_of_str in Ef. by rewrite Hf in Ef.
Qed.

Lemma row_data_bad_metric account_id report row headers cells i header c v :
  report_headers report = Some headers ->
  row_cells row = Some cells ->
  (3 <= i)%nat ->
  headers !! i = Some header ->
  cells !! i = Some c ->
  cell_value c = Some v ->
  py_float v = None ->
  exists e, row_data_of account_id report row = Raise e.
Proof.
  intros Hh Hc Hi Hhi Hci Hv Hf. unfold row_data_of.
  destruct (cell_value_at row 0) as [v0|e0]; simpl; [|eauto].
  destruct (cell_value_at row 1) as [v1|e1]; simpl; [|eauto].
  destruct (cell_value_at row 2) as [v2|e2]; simpl; [|eauto].
  rewrite Hh, Hc; simpl.
  destruct (metrics_of_bad_value (zip (drop 3 headers) (drop 3 cells)) []
              header c v) as [e He]; [|done|done|].
  - apply list_elem_of_lookup. exists (i - 3)%nat.
    rewrite lookup_zip_with, !lookup_drop.
    replace (3 + (i - 3))%nat with i by lia.
    by rewrite Hhi, Hci.
  - rewrite He. simpl. eauto.
Qed.

(** X6. One unreadable row costs the whole report: when some row of the
    answer has fewer than three cells, or carries a metric value that
    [float()] rejects, [fetch_report] returns the empty frame, whatever
    the other rows hold. *)
Theorem one_bad_row_drops_report self account_id w s report rows row cells :
  api_service self = Some s ->
  reports_generate s (request_at account_id (w_env w) (w_ticks w)) = Ok report ->
  report_rows report = Some rows ->
  row ∈ rows ->
  row_cells row = Some cells ->
  (length cells < 3)%nat \/
  (exists headers i header c v,
     report_headers report = Some headers /\ (3 <= i)%nat /\
     headers !! i = Some header /\ cells !! i = Some c /\
     cell_value c = Some v /\ py_float v = None) ->
  exists w',
    fetch_report self account_id w = (Ok (length (w_heap w)), w') /\
    w_heap w' = w_heap w ++ [empty_frame].
Proof.
  intros Hs Hgen Hrows Hrow Hcells Hbad.
  destruct (fetch_report_run self account_id w) as (w' & Hrun & Hstep).
  exists w'. split; [done|].
  rewrite (fs_heap _ _ _ _ _ Hstep). do 2 f_equal.
  unfold fetched_frame, response_of, report_frame. rewrite Hs, Hgen, Hrows.
  assert (exists e, row_data_of account_id report row = Raise e) as [e He].
  { destruct Hbad as [Hshort|(headers & i & header & c & v & Hh & Hi & Hhi & Hci & Hv & Hf)].
    - by eapply row_data_short.
    - by eapply row_data_bad_metric. }
  destruct (rmap_raises _ rows row e Hrow He) as [e' ->]. done.
Qed.

End SourceEdges.

Section SourceSuccess.
Context `{PyBuiltins}.
Import Pandas PandasFacts.

(** The four columns every fetched row starts with. *)
Definition key_columns : list string := ["account_id"; "date"; "domain"; "country"].

(** The names of the metric headers: those behind the three dimensions. *)
Definition metric_names (headers : list api_header) : list string :=
  map (fun h => default "" (header_name h)) (drop 3 headers).

Definition cell_text (c : api_cell) : string := default "" (cell_value c).

Definition cell_number (c : api_cell) : spec_float :=
  default S754_nan (py_float (cell_text c)).

(** The row of the frame for the cells of one row of the answer. *)
Definition fetched_row (account_id : string) (cells : list api_cell) : list cell :=
  CStr account_id ::
  map (fun c => CStr (cell_text c)) (take 3 cells) ++
  map (fun c => CFloat (cell_number c)) (drop 3 cells).

(** A row with [n] cells, each with a value, the metric values numbers. *)
Definition good_row (n : nat) (row : api_row) : Prop :=
  exists cells,
    row_cells row = Some cells /\
    length cells = n /\
    Forall (fun c => is_Some (cell_value c)) cells /\
    Forall (fun c => is_Some (py_float (cell_text c))) (drop 3 cells).

Lemma dict_set_fresh {V} k (v : V) d :
  k ∉ dict_keys d -> dict_set k v d = d ++ [(k, v)].
Proof.
  induction d as [|[k' v'] d IH]; simpl; intros Hn; [done|].
  apply not_elem_of_cons in Hn as [Hne Hn].
  destruct (String.eqb_spec k k'); [done|]. by rewrite IH.
Qed.

Lemma dict_update_fresh {V} (a b : pydict V) :
  NoDup (dict_keys b) ->
  (forall k, k ∈ dict_keys b -> k ∉ dict_keys a) ->
  dict_update a b = a ++ b.
Proof.
  unfold dict_update. revert a.
  induction b as [|[k v] b IH]; intros a Hnd Hdis; simpl.
  - by rewrite app_nil_r.
  - simpl in Hnd. apply NoDup_cons in Hnd as [Hk Hnd].
    rewrite dict_set_fresh by (apply Hdis; left).
    rewrite IH; [by rewrite <- app_assoc | done |].
    intros k' Hk'. unfold dict_keys. rewrite map_app, not_elem_of_app. split.
    + apply Hdis. by right.
    + simpl. rewrite not_elem_of_cons. split; [|apply not_elem_of_nil].
      intros ->. done.
Qed.

Lemma metrics_of_good (hs : list api_header) (cs : list api_cell) (acc : pydict cell) :
  length hs = length cs ->
  Forall (fun h => is_Some (header_name h)) hs ->
  Forall (fun c => is_Some (cell_value c)) cs ->
  Forall (fun c => is_Some (py_float (cell_text c))) cs ->
  NoDup (map (fun h => default "" (header_name h)) hs) ->
  (forall k, k ∈ map (fun h => default "" (header_name h)) hs -> k ∉ dict_keys acc) ->
  metrics_of (zip hs cs) acc =
  Ok (acc ++ zip (map (fun h => default "" (header_name h)) hs)
               (map (fun c => CFloat (cell_number c)) cs)).
Proof.
  revert cs acc. induction hs as [|h hs IH]; intros [|c cs] acc Hlen Hh Hc Hf Hnd Hdis;
    simpl in *; try done.
  - by rewrite app_nil_r.
  - inversion Hh as [|? ? [n Hn] Hh']; subst.
    inversion Hc as [|? ? [v Hv] Hc']; subst.
    inversion Hf as [|? ? [f Hfl] Hf']; subst.
    apply NoDup_cons in Hnd as [Hfresh Hnd].
    rewrite Hn, Hv; simpl. unfold float_of_str.
    unfold cell_text in Hfl. rewrite Hv in Hfl. simpl in Hfl. rewrite Hfl; simpl.
    rewrite Hn in Hdis, Hfresh. simpl in Hdis, Hfresh.
    rewrite dict_set_fresh by (apply Hdis; left).
    rewrite IH; try done; try lia.
    + rewrite <- app_assoc. simpl. unfold cell_number, cell_text.
      rewrite Hv; simpl. by rewrite Hfl.
    + intros k Hk. unfold dict_keys. rewrite map_app, not_elem_of_app. split.
      * apply Hdis. by right.
      * simpl. rewrite not_elem_of_cons. split; [|apply not_elem_of_nil].
        intros ->. done.
Qed.

Lemma new_labels_nil (ks : list string) : new_labels [] ks = ks.
Proof.
  unfold new_labels. induction ks as [|k ks IH]; [done|].
  rewrite filter_cons_True by done. by rewrite IH.
Qed.

Lemma new_labels_self (ks : list string) : new_labels ks ks = [].
Proof.
  unfold new_labels.
  assert (forall l, Forall (fun k => k ∈ ks) l ->
                    filter (fun c => label_pos c ks = None) l = []) as Hall.
  { induction 1 as [|k l Hk _ IH]; [done|].
    rewrite filter_cons. destruct (decide _) as [E|_]; [|done].
    apply label_pos_None in E. done. }
  apply Hall, Forall_forall. auto.
Qed.

Lemma record_labels_uniform (ks : list string) (vs : list (list cell)) acc :
  Forall (fun v => length v = length ks) vs ->
  acc = [] /\ vs <> [] \/ acc = ks ->
  fold_left (fun acc r => union_labels acc (dict_keys r)) (map (zip ks) vs) acc = ks.
Proof.
  intros Hv. revert acc. induction Hv as [|v vs Hlen _ IH]; intros acc Hacc; simpl.
  - destruct Hacc as [[_ Hne]|Hacc]; done.
  - apply IH. right. unfold dict_keys. rewrite fst_zip by lia.
    unfold union_labels.
    destruct Hacc as [[-> _]| ->].
    + by rewrite new_labels_nil.
    + by rewrite new_labels_self, app_nil_r.
Qed.

Lemma record_row_zip (ks : list string) (v : list cell) :
  NoDup ks -> length v = length ks -> record_row ks (zip ks v) = v.
Proof.
  intros Hnd Hlen. unfold record_row. apply list_eq. intros i.
  rewrite list_lookup_fmap.
  destruct (ks !! i) as [k|] eqn:Hk; simpl.
  - rewrite dict_get_zip by done. rewrite (label_pos_NoDup _ _ _ Hnd Hk).
    destruct (lookup_lt_is_Some_2 v i) as [x Hx].
    { rewrite Hlen. eapply lookup_lt_Some; eauto. }
    by rewrite Hx.
  - symmetry. apply lookup_ge_None. rewrite Hlen. by apply lookup_ge_None.
Qed.

(** Records that all carry the same keys make the frame of those keys
    with the records' values as rows. *)
Lemma of_records_uniform (ks : list string) (vs : list (list cell)) :
  NoDup ks -> vs <> [] -> Forall (fun v => length v = length ks) vs ->
  of_records (map (zip ks) vs) = mkDataFrame ks vs.
Proof.
  intros Hnd Hne Hv. unfold of_records, record_labels.
  rewrite (record_labels_uniform ks vs [] Hv) by (left; done).
  f_equal. rewrite map_map. rewrite <- (map_id vs) at 2.
  apply Forall_fmap_ext_1. eapply Forall_impl; [exact Hv|].
  intros v Hlen; simpl. by apply record_row_zip.
Qed.

Lemma row_data_good account_id report headers row cells :
  report_headers report = Some headers ->
  (3 <= length headers)%nat ->
  Forall (fun h => is_Some (header_name h)) (drop 3 headers) ->
  NoDup (metric_names headers) ->
  (forall k, k ∈ key_columns -> k ∉ metric_names headers) ->
  row_cells row = Some cells ->
  length cells = length headers ->
  Forall (fun c => is_Some (cell_value c)) cells ->
  Forall (fun c => is_Some (py_float (cell_text c))) (drop 3 cells) ->
  row_data_of account_id report row =
  Ok (zip (key_columns ++ metric_names headers) (fetched_row account_id cells)).
Proof.
  intros Hh H3 Hnames Hnd Hdis Hc Hlen Hvals Hnums.
  destruct cells as [|c0 [|c1 [|c2 rest]]]; simpl in Hlen; try lia.
  inversion Hvals as [|? ? [v0 Hv0] Hvals1]; subst.
  inversion Hvals1 as [|? ? [v1 Hv1] Hvals2]; subst.
  inversion Hvals2 as [|? ? [v2 Hv2] Hvals3]; subst.
  unfold row_data_of, cell_value_at, index. rewrite Hc, Hh; simpl.
  rewrite Hv0, Hv1, Hv2; simpl. simpl in Hnums. rewrite drop_0 in *.
  rewrite (metrics_of_good (drop 3 headers) rest []); try done.
  - simpl. rewrite dict_update_fresh.
    + unfold fetched_row, cell_text; simpl. rewrite Hv0, Hv1, Hv2. done.
    + unfold dict_keys. rewrite fst_zip by (rewrite !length_map, length_drop; lia).
      exact Hnd.
    + intros k Hk. unfold dict_keys in Hk.
      rewrite fst_zip in Hk by (rewrite !length_map, length_drop; lia).
      intros Hk'. by apply (Hdis k).
  - rewrite length_drop. lia.
  - intros k _. apply not_elem_of_nil.
Qed.

(** X7. The frame of a well-formed answer: when the answer has its
    headers, metric names that are distinct and are none of
    [account_id], [date], [domain], [country], and rows that all have one
    cell per header, each with a value, the metric values numbers, the
    frame [fetch_report] returns has the four key columns followed by the
    metric names, and one row per row of the answer, in order: the
    account id, the three dimension values, the metric values as floats. *)
Theorem fetch_report_frame_of_good_report self account_id w s report headers rows :
  api_service self = Some s ->
  reports_generate s (request_at account_id (w_env w) (w_ticks w)) = Ok report ->
  report_headers report = Some headers ->
  report_rows report = Some rows ->
  rows <> [] ->
  (3 <= length headers)%nat ->
  Forall (fun h => is_Some (header_name h)) (drop 3 headers) ->
  NoDup (metric_names headers) ->
  (forall k, k ∈ key_columns -> k ∉ metric_names headers) ->
  Forall (good_row (length headers)) rows ->
  exists w',
    fetch_report self account_id w = (Ok (length (w_heap w)), w') /\
    w_heap w' =
      w_heap w ++
      [mkDataFrame (key_columns ++ metric_names headers)
         (map (fun row => fetched_row account_id (default [] (row_cells row))) rows)].
Proof.
  intros Hs Hgen Hh Hrows Hne H3 Hnames Hnd Hdis Hgood.
  destruct (fetch_report_run self account_id w) as (w' & Hrun & Hstep).
  exists w'. split; [done|].
  rewrite (fs_heap _ _ _ _ _ Hstep). do 2 f_equal.
  unfold fetched_frame, response_of, report_frame. rewrite Hs, Hgen, Hrows.
  rewrite (rmap_Ok_Forall _
             (fun row => zip (key_columns ++ metric_names headers)
                           (fetched_row account_id (default [] (row_cells row))))).
  - rewrite <- (map_map (fun row => fetched_row account_id (default [] (row_cells row)))
                        (zip (key_columns ++ metric_names headers))).
    apply of_records_uniform.
    + apply NoDup_app. split; [|split; [|done]].
      * apply (bool_decide_unpack _). by vm_compute.
      * intros k Hk. by apply Hdis.
    + destruct rows; [done|]. done.
    + apply Forall_fmap. eapply Forall_impl; [exact Hgood|].
      intros row (cells & Hc & Hlen & _ & _); simpl. rewrite Hc; simpl.
      unfold fetched_row, metric_names. cbn [length].
      rewrite !length_app, !length_map, length_take, !length_drop.
      change (length key_columns) with 4%nat. lia.
  - eapply Forall_impl; [exact Hgood|].
    intros row (cells & Hc & Hlen & Hvals & Hnums); simpl. rewrite Hc; simpl.
    by apply row_data_good.
Qed.

End SourceSuccess.

Section ListEdges.

(** X8. When the request succeeds and every account of the answer has a
    name and a display name, [list_accounts] returns the names in the
    order of the answer (none when the answer has no [accounts] key),
    having sent one request. *)
Theorem list_accounts_lists_names self w s accounts :
  api_service self = Some s ->
  accounts_list s = Ok accounts ->
  Forall (fun a => is_Some (account_name a) /\ is_Some (account_displayName a))
    (default [] (accounts_accounts accounts)) ->
  exists w',
    list_accounts self w =
      (Ok (map (fun a => default "" (account_name a))
             (default [] (accounts_accounts accounts))), w') /\
    w_api_log w' = w_api_log w ++ [EvAccountsList] /\
    w_heap w' = w_heap w /\
    w_table w' = w_table w.
Proof.
  intros Hs Ha Hall.
  destruct (list_accounts_run self w) as (w' & Hrun & Hstep).
  exists w'. split; [|split; [|split]].
  - rewrite Hrun. do 2 f_equal. unfold listed_accounts. rewrite Hs, Ha.
    rewrite (PandasFacts.rmap_Ok_map account_entry
               (fun a => (default "" (account_name a),
                          default "" (account_displayName a)))).
    + by rewrite map_map.
    + eapply Forall_impl; [exact Hall|].
      intros a [[n Hn] [d Hd]]; simpl. unfold account_entry. by rewrite Hn, Hd.
  - rewrite (fs_api_log _ _ _ _ _ Hstep). unfold list_events. by rewrite Hs.
  - rewrite (fs_heap _ _ _ _ _ Hstep). by rewrite app_nil_r.
  - apply (fs_table _ _ _ _ _ Hstep).
Qed.

(** X9. One account without a name or without a display name costs the
    whole listing: [list_accounts] then returns no account at all, even
    for the accounts of the answer that are complete. *)
Theorem one_bad_account_drops_listing self w s accounts a :
  api_service self = Some s ->
  accounts_list s = Ok accounts ->
  a ∈ default [] (accounts_accounts accounts) ->
  account_name a = None \/ account_displayName a = None ->
  exists w', list_accounts self w = (Ok [], w').
Proof.
  intros Hs Ha Hin Hbad.
  destruct (list_accounts_run self w) as (w' & Hrun & _).
  exists w'. rewrite Hrun. do 2 f_equal.
  unfold listed_accounts. rewrite Hs, Ha.
  assert (exists e, account_entry a = Raise e) as [e He].
  { unfold account_entry. destruct Hbad as [Hn|Hd].
    - rewrite Hn. simpl. eauto.
    - rewrite Hd. destruct (account_name a); simpl; eauto. }
  destruct (rmap_raises _ _ a e Hin He) as [e' ->]. done.
Qed.

End ListEdges.

(** * Further properties of the authentication *)

Section AuthEdges.

(** The world with another environment. *)
Definition with_env (e : env) (w : world) : world :=
  mkWorld e (w_ticks w) (w_heap w) (w_files w) (w_table w) (w_bq_calls w)
    (w_api_log w) (w_bq_log w) (w_stdout w).

Lemma valid_not_expired c : valid c = true -> expired c = false.
Proof. unfold valid. destruct (token c), (expired c); done. Qed.

(** X10. With a stored credential that is valid, [authenticate] takes it
    and builds the service from it; it asks for no refresh and no
    consent, whatever the OAuth endpoints would answer, and writes no
    file. *)
Theorem authenticate_uses_stored_credential self w c s :
  w_files w !! credentials_file self = Some (FileCredentials c) ->
  valid c = true ->
  discovery_build (w_env w) c = Ok s ->
  exists w',
    authenticate self w =
      (Ok (mkAdSenseAPI (Some s) (Some c) (client_secrets_file self)
             (credentials_file self)), w') /\
    w_files w' = w_files w /\
    forall e,
      discovery_build e = discovery_build (w_env w) ->
      fst (authenticate self (with_env e w)) =
      Ok (mkAdSenseAPI (Some s) (Some c) (client_secrets_file self)
            (credentials_file self)).
Proof.
  intros Hfile Hvalid Hbuild.
  pose proof (valid_not_expired c Hvalid) as Hexp.
  assert (forall w0,
            w_files w0 !! credentials_file self = Some (FileCredentials c) ->
            discovery_build (w_env w0) c = Ok s ->
            exists w',
              authenticate self w0 =
                (Ok (mkAdSenseAPI (Some s) (Some c) (client_secrets_file self)
                       (credentials_file self)), w') /\
              w_files w' = w_files w0) as Hrun.
  { intros w0 Hf Hb.
    unfold authenticate, path_exists, from_authorized_user_file.
    run_step. rewrite Hf; simpl. rewrite Hf; simpl.
    rewrite Hexp; simpl. rewrite Hvalid; simpl. rewrite Hb; simpl.
    eexists. split; [reflexivity|done]. }
  destruct (Hrun w Hfile Hbuild) as (w' & Hauth & Hfiles).
  exists w'. split; [done|]. split; [done|].
  intros e He.
  destruct (Hrun (with_env e w)) as (w'' & Hauth' & _); simpl.
  - done.
  - by rewrite He.
  - by rewrite Hauth'.
Qed.

(** No credential that can be used without consent: no file, or a stored
    credential that is not valid and that [authenticate] does not
    refresh. *)
Definition needs_consent (stored : option file) : Prop :=
  match stored with
  | None => True
  | Some (FileCredentials c) =>
      valid c = false /\ (expired c && truthy (refresh_token c)) = false
  | Some FileOther => False
  end.


(** X12. A stored credential that has expired and has a refresh token is
    refreshed and the refreshed credential, if valid, is the one the
    service is built from; the credentials file keeps the expired
    credential. *)
Theorem authenticate_refresh_not_saved self w c c' s :
  w_files w !! credentials_file self = Some (FileCredentials c) ->
  expired c = true ->
  truthy (refresh_token c) = true ->
  oauth_refresh (w_env w) c = Ok c' ->
  valid c' = true ->
  discovery_build (w_env w) c' = Ok s ->
  exists w',
    authenticate self w =
      (Ok (mkAdSenseAPI (Some s) (Some c') (client_secrets_file self)
             (credentials_file self)), w') /\
    w_files w' = w_files w /\
    w_files w' !! credentials_file self = Some (FileCredentials c).
Proof.
  intros Hf Hexp Href Hrefresh Hvalid Hbuild.
  unfold authenticate, path_exists, from_authorized_user_file.
  run_step. rewrite Hf; simpl. rewrite Hf; simpl.
  rewrite Hexp, Href; simpl. rewrite Hrefresh; simpl.
  rewrite Hvalid; simpl. rewrite Hbuild; simpl.
  eexists. split; [reflexivity|]. done.
Qed.

(** X13. When the refresh of an expired credential fails,
    [authenticate] raises that failure: it does not go on to the consent
    flow, whatever that flow would answer, and writes no file. *)
Theorem authenticate_refresh_failure_raises self w c e :
  w_files w !! credentials_file self = Some (FileCredentials c) ->
  expired c = true ->
  truthy (refresh_token c) = true ->
  oauth_refresh (w_env w) c = Raise e ->
  exists w',
    authenticate self w = (Raise e, w') /\
    w_files w' = w_files w.
Proof.
  intros Hf Hexp Href Hrefresh.
  unfold authenticate, path_exists, from_authorized_user_file.
  run_step. rewrite Hf; simpl. rewrite Hf; simpl.
  rewrite Hexp, Href; simpl. rewrite Hrefresh; simpl.
  eexists. split; [reflexivity|]. done.
Qed.


End AuthEdges.

(** * Further properties of the run *)

Lemma run_bind_inv {A B} (m : M A) (k : A -> M B) (w w' : world) (b : B) :
  (m ≫= k) w = (Ok b, w') ->
  exists a w1, m w = (Ok a, w1) /\ k a w1 = (Ok b, w').
Proof.
  rewrite run_bind. destruct (m w) as [[a|e] w1]; [eauto|done].
Qed.

(** Same file paths. *)
Definition same_paths (a b : AdSenseAPI) : Prop :=
  client_secrets_file a = client_secrets_file b /\
  credentials_file a = credentials_file b.

Lemma authenticate_returns self w a w' :
  authenticate self w = (Ok a, w') ->
  is_Some (api_service a) /\ is_Some (api_credentials a) /\ same_paths a self.
Proof.
  unfold authenticate. intros Hrun.
  apply run_bind_inv in Hrun as ([] & w1 & _ & Hrun).
  apply run_bind_inv in Hrun as (found & w2 & _ & Hrun).
  apply run_bind_inv in Hrun as (self1 & w3 & H1 & Hrun).
  apply run_bind_inv in Hrun as (self2 & w4 & H2 & Hrun).
  apply run_bind_inv in Hrun as (self3 & w5 & H3 & Hrun).
  apply run_bind_inv in Hrun as (built & w6 & Hask & Hrun).
  apply run_bind_inv in Hrun as (s & w7 & Hlift & Hrun).
  apply run_bind_inv in Hrun as ([] & w8 & _ & Hrun).
  unfold mret, M_ret in Hrun. simplify_eq.
  assert (same_paths self1 self) as P1.
  { destruct found.
    - apply run_bind_inv in H1 as (c & ? & _ & H1).
      apply run_bind_inv in H1 as ([] & ? & _ & H1).
      unfold mret, M_ret in H1. by simplify_eq.
    - unfold mret, M_ret in H1. by simplify_eq. }
  assert (same_paths self2 self1) as P2.
  { destruct (api_credentials self1) as [c|].
    - destruct (expired c && truthy (refresh_token c)).
      + apply run_bind_inv in H2 as ([] & ? & _ & H2).
        apply run_bind_inv in H2 as (? & ? & _ & H2).
        apply run_bind_inv in H2 as (? & ? & _ & H2).
        unfold mret, M_ret in H2. by simplify_eq.
      + unfold mret, M_ret in H2. by simplify_eq.
    - unfold mret, M_ret in H2. by simplify_eq. }
  assert (same_paths self3 self2) as P3.
  { destruct (match api_credentials self2 with
              | Some c => negb (valid c)
              | None => true
              end).
    - apply run_bind_inv in H3 as ([] & ? & _ & H3).
      apply run_bind_inv in H3 as (? & ? & _ & H3).
      apply run_bind_inv in H3 as (? & ? & _ & H3).
      apply run_bind_inv in H3 as ([] & ? & _ & H3).
      apply run_bind_inv in H3 as ([] & ? & _ & H3).
      unfold mret, M_ret in H3. by simplify_eq.
    - unfold mret, M_ret in H3. by simplify_eq. }
  split; [by eexists|]. split.
  - unfold ask in Hask. simplify_eq. unfold lift in Hlift. simpl.
    destruct (api_credentials self3); [by eexists|]. simplify_eq.
  - destruct P1, P2, P3. split; simpl; congruence.
Qed.

Section RunEdges.
Context `{PyBuiltins}.

(** X15. A processor that has been constructed holds four API objects
    that each have their credential and their service, for the four
    credentials files in order, and the constructor has made no request
    to the AdSense API or to the warehouse. *)
Theorem constructor_builds_four_services w p w' :
  AdSenseReportProcessor_init w = (Ok p, w') ->
  Forall (fun a => is_Some (api_service a) /\ is_Some (api_credentials a))
    (apis_of p) /\
  map credentials_file (apis_of p) =
    [CREDENTIALS_FILE; CREDENTIALS_FILE_2; CREDENTIALS_FILE_3; CREDENTIALS_FILE_4] /\
  map client_secrets_file (apis_of p) =
    [CLIENT_SECRETS_FILE; CLIENT_SECRETS_FILE; CLIENT_SECRETS_FILE;
     CLIENT_SECRETS_FILE] /\
  w_api_log w' = w_api_log w /\
  w_bq_log w' = w_bq_log w /\
  w_table w' = w_table w.
Proof.
  intros Hrun.
  pose proof (AdSenseReportProcessor_init_keeps w) as Hkeep.
  rewrite Hrun in Hkeep. destruct Hkeep; simpl in *.
  unfold AdSenseReportProcessor_init in Hrun.
  apply run_bind_inv in Hrun as (a1 & w1 & H1 & Hrun).
  apply run_bind_inv in Hrun as (a2 & w2 & H2 & Hrun).
  apply run_bind_inv in Hrun as (a3 & w3 & H3 & Hrun).
  apply run_bind_inv in Hrun as (a4 & w4 & H4 & Hrun).
  apply run_bind_inv in Hrun as (bq & w5 & _ & Hrun).
  unfold mret, M_ret in Hrun. simplify_eq.
  apply authenticate_returns in H1 as (S1 & C1 & P1 & Q1).
  apply authenticate_returns in H2 as (S2 & C2 & P2 & Q2).
  apply authenticate_returns in H3 as (S3 & C3 & P3 & Q3).
  apply authenticate_returns in H4 as (S4 & C4 & P4 & Q4).
  unfold apis_of; simpl in *.
  split; [repeat constructor; done|].
  split; [congruence|]. split; [congruence|]. done.
Qed.

(** A computation that sends nothing to the AdSense API. *)
Definition silent {A} (m : M A) : Prop :=
  forall w, w_api_log (snd (m w)) = w_api_log w.

Lemma silent_bind {A B} (m : M A) (k : A -> M B) :
  silent m -> (forall a, silent (k a)) -> silent (m ≫= k).
Proof.
  intros Hm Hk w. rewrite run_bind. specialize (Hm w).
  destruct (m w) as [[a|e] w']; simpl in *; [|done].
  by rewrite Hk.
Qed.

Lemma silent_ret {A} (a : A) : silent (mret a).
Proof. by intros w. Qed.

Lemma silent_lift {A} (r : result A) : silent (lift r).
Proof. by intros w. Qed.

Lemma silent_print m : silent (print m).
Proof. by intros w. Qed.

Lemma silent_now : silent now.
Proof. by intros w. Qed.

Lemma silent_read_frame r : silent (read_frame r).
Proof. intros w. unfold read_frame. by destruct (w_heap w !! r). Qed.

Lemma silent_write_frame r df : silent (write_frame r df).
Proof. by intros w. Qed.

Lemma silent_new_frame df : silent (new_frame df).
Proof. by intros w. Qed.

Lemma silent_log_bq e : silent (log_bq e).
Proof. by intros w. Qed.

Lemma silent_bq_request : silent bq_request.
Proof. intros w. unfold bq_request. by destruct (bq_fault _ _). Qed.

Lemma silent_modify_table f : silent (modify_table f).
Proof. by intros w. Qed.

Create HintDb silent.
#[local] Hint Resolve silent_ret silent_lift silent_print silent_now silent_read_frame
  silent_write_frame silent_new_frame silent_log_bq silent_bq_request
  silent_modify_table : silent.

Ltac silent_tac :=
  repeat first
    [ apply silent_bind; [|intros]
    | solve [auto with silent]
    | match goal with
      | |- silent (if ?b then _ else _) => destruct b
      | |- silent (match ?x with _ => _ end) => destruct x
      end ].

(** The sink sends nothing to the AdSense API, whatever table it is
    given and whatever the warehouse answers. *)
Lemma silent_push_to_bigquery self r : silent (push_to_bigquery self r).
Proof.
  unfold push_to_bigquery, df_empty, df_getitem, df_setitem, df_rename,
    delete_yesterday_data, client_query, query_job_result, df_len, to_gbq.
  silent_tac.
Qed.

(** The report requests for the accounts of one API object, the first
    fetch starting when the clock has been read [t] times. *)
Definition source_requests (accounts : list string) (e : env) (t : nat)
  : list api_event :=
  imap (fun i a => EvReportsGenerate (request_at a e (t + 2 * i))) accounts.

Lemma source_events_requests self accounts e t :
  is_Some (api_service self) ->
  source_events self accounts e t = source_requests accounts e t.
Proof.
  intros [s Hs]. unfold source_requests. revert t.
  induction accounts as [|a accounts IH]; intros t; simpl; [done|].
  unfold fetch_events at 1. rewrite Hs. simpl. f_equal.
  - by rewrite Nat.add_0_r.
  - rewrite IH. apply imap_ext. intros i x _. simpl. do 2 f_equal. lia.
Qed.


End RunEdges.

(** * What the consolidated table is made of *)

Section Consolidation.
Context `{PyBuiltins}.
Import Pandas PandasFacts.

Lemma dict_get_set {V} k k' (v : V) d :
  dict_get k (dict_set k' v d) = if String.eqb k k' then Some v else dict_get k d.
Proof.
  induction d as [|[k0 v0] d IH]; simpl.
  - done.
  - destruct (String.eqb_spec k' k0) as [->|Hne]; simpl.
    + by destruct (String.eqb k k0).
    + rewrite IH. destruct (String.eqb_spec k k0) as [->|Hne'].
      * destruct (String.eqb_spec k0 k'); [by subst|done].
      * done.
Qed.

Lemma dict_update_inv {V} (Q : string -> V -> Prop) (a b : pydict V) :
  (forall k v, dict_get k a = Some v -> Q k v) ->
  Forall (fun kv => Q (fst kv) (snd kv)) b ->
  forall k v, dict_get k (dict_update a b) = Some v -> Q k v.
Proof.
  unfold dict_update. intros Ha Hb. revert a Ha.
  induction Hb as [|[k' v'] b Hkv _ IH]; intros a Ha; simpl; [done|].
  apply IH. intros k v. rewrite dict_get_set.
  destruct (String.eqb_spec k k') as [->|_]; [|by apply Ha].
  by intros [= <-].
Qed.

Lemma Forall_dict_set {V} (Q : string -> V -> Prop) k v (d : pydict V) :
  Q k v -> Forall (fun kv => Q (fst kv) (snd kv)) d ->
  Forall (fun kv => Q (fst kv) (snd kv)) (dict_set k v d).
Proof.
  intros Hv Hd. induction Hd as [|[k0 v0] d Hkv Hd IH]; simpl.
  - by repeat constructor.
  - destruct (String.eqb_spec k k0) as [->|_]; constructor; simpl; auto.
Qed.

(** Every value of the comprehension is a [float] that [float()] returned. *)
Lemma metrics_of_parsed (Q : string -> cell -> Prop) pairs metrics metrics' :
  (forall k s f, py_float s = Some f -> Q k (CFloat f)) ->
  metrics_of pairs metrics = Ok metrics' ->
  Forall (fun kv => Q (fst kv) (snd kv)) metrics ->
  Forall (fun kv => Q (fst kv) (snd kv)) metrics'.
Proof.
  intros HQ. revert metrics.
  induction pairs as [|[h c] pairs IH]; intros metrics Hm Hall; simpl in Hm.
  - by simplify_eq.
  - destruct (header_name h) as [name|]; simpl in Hm; [|done].
    destruct (cell_value c) as [value|]; simpl in Hm; [|done].
    unfold float_of_str in Hm.
    destruct (py_float value) as [f|] eqn:Hf; simpl in Hm; [|done].
    apply (IH _ Hm). apply Forall_dict_set; [|done]. by eapply HQ.
Qed.

(** A count label of a fetched record holds a parsed [float]: the four
    keys the code sets itself are no count labels. *)
Lemma row_data_counts account_id report row record l v :
  (forall s f, py_float s = Some f -> is_count (CFloat f)) ->
  row_data_of account_id report row = Ok record ->
  l ∈ int_cols ->
  dict_get l record = Some v -> is_count v.
Proof.
  intros Hfin Hrow Hl. unfold row_data_of in Hrow.
  repeat match type of Hrow with
         | (?m ≫= _) = Ok _ => destruct m eqn:?; simpl in Hrow; [|done]
         end.
  simplify_eq. intros Hg.
  refine (dict_update_inv (fun k v => k = l -> is_count v) _ _ _ _ l v Hg eq_refl).
  - intros k v0 Hk ->. exfalso. revert Hk Hl. clear.
    unfold int_cols. rewrite !elem_of_cons, elem_of_nil. simpl.
    intros Hk Hl.
    repeat match goal with
           | H : _ \/ _ |- _ => destruct H as [->|H]
           end; try done; simpl in Hk; done.
  - match goal with
    | E : metrics_of _ [] = Ok _ |- _ =>
        apply (metrics_of_parsed (fun k v => k = l -> is_count v) _ _ _) in E
    end; [done| |constructor].
    intros k s f Hf _. by eapply Hfin.
Qed.

Lemma NaN_is_count : is_count NaN.
Proof. by left. Qed.

Lemma of_records_counts records :
  Forall (fun r => forall l v, l ∈ int_cols -> dict_get l r = Some v -> is_count v)
    records ->
  Forall (fun row => Forall (fun l => is_count (cell_at (columns (of_records records)) row l))
                       int_cols)
    (data (of_records records)).
Proof.
  intros Hr. unfold of_records; simpl.
  apply Forall_fmap. eapply Forall_impl; [exact Hr|].
  intros r Hv; simpl. apply Forall_forall. intros l Hl.
  destruct (decide (l ∈ record_labels records)) as [Hin|Hn].
  - unfold record_row. rewrite (cell_at_map (fun c => default NaN (dict_get c r))) by done.
    destruct (dict_get l r) as [v|] eqn:Hg; simpl; [by eapply Hv | apply NaN_is_count].
  - rewrite cell_at_not_in by done. apply NaN_is_count.
Qed.

(** When [float()] returns no infinity, the count columns of every frame
    [fetch_report] returns hold counts. *)
Lemma fetched_frame_counts self account_id e t :
  (forall s f, py_float s = Some f -> is_count (CFloat f)) ->
  let f := fetched_frame self account_id e t in
  Forall (fun row => Forall (fun l => is_count (cell_at (columns f) row l)) int_cols)
    (data f).
Proof.
  intros Hfin. cbv zeta. unfold fetched_frame, report_frame.
  destruct (response_of _ _) as [report|]; [|constructor].
  destruct (report_rows report) as [rows|]; [|constructor].
  destruct (rmap _ rows) as [records|] eqn:E; [|constructor].
  apply of_records_counts. eapply rmap_Forall; [|exact E].
  intros row record Hrow l v Hl Hg. by eapply row_data_counts.
Qed.

Lemma sources_frames_Forall (P : DataFrame -> Prop) apis e t :
  (forall api a t0, P (fetched_frame api a e t0)) ->
  Forall P (sources_frames apis e t).
Proof.
  intros HP. revert t. induction apis as [|api apis IH]; intros t; simpl; [constructor|].
  apply Forall_app. split; [|apply IH].
  generalize (listed_accounts api). intros accounts. revert t.
  induction accounts as [|a accounts IHa]; intros t; simpl; constructor; auto.
Qed.

(** A row of a concatenation is a row of one of the two frames. *)
Lemma concat_row_inv a b row :
  row ∈ data (concat a b) ->
  (exists row0, row0 ∈ data a /\
     forall c, cell_at (columns (concat a b)) row c = cell_at (columns a) row0 c) \/
  (exists row0, row0 ∈ data b /\
     forall c, cell_at (columns (concat a b)) row c = cell_at (columns b) row0 c).
Proof.
  unfold concat; simpl. rewrite elem_of_app, !list_elem_of_fmap.
  intros [(row0 & -> & Hin)|(row0 & -> & Hin)]; [left|right]; exists row0;
    (split; [done|]); intros c.
  - apply cell_at_reindex_union_l.
  - apply cell_at_reindex_union_r.
Qed.

Lemma fold_concat_row_inv frames acc row :
  row ∈ data (fold_left concat frames acc) ->
  exists f row0,
    (f = acc \/ f ∈ frames) /\ row0 ∈ data f /\
    forall c,
      cell_at (columns (fold_left concat frames acc)) row c = cell_at (columns f) row0 c.
Proof.
  revert acc. induction frames as [|f' frames IH]; intros acc Hin; simpl in *.
  - exists acc, row. split; [by left|]. done.
  - destruct (IH _ Hin) as (f & row0 & [->|Hf] & Hrow0 & Hc).
    + destruct (concat_row_inv _ _ _ Hrow0) as [(row1 & H1 & Hc1)|(row1 & H1 & Hc1)].
      * exists acc, row1. split; [by left|]. split; [done|].
        intros c. by rewrite Hc, Hc1.
      * exists f', row1. split; [right; left|]. split; [done|].
        intros c. by rewrite Hc, Hc1.
    + exists f, row0. split; [right; by right|]. done.
Qed.

Lemma columns_fold_concat frames acc c :
  c ∈ columns (fold_left concat frames acc) <->
  c ∈ columns acc \/ exists f, f ∈ frames /\ c ∈ columns f.
Proof.
  revert acc. induction frames as [|f' frames IH]; intros acc; simpl.
  - split; [by left|]. intros [?|(f & Hf & _)]; [done|]. by apply elem_of_nil in Hf.
  - rewrite IH. simpl. rewrite elem_of_union_labels. split.
    + intros [[?|?]|(f & Hf & Hc)]; [by left| |].
      * right. exists f'. split; [left|done].
      * right. exists f. split; [by right|done].
    + intros [?|(f & Hf & Hc)]; [left; by left|].
      apply elem_of_cons in Hf as [->|Hf]; [left; by right|].
      right. by exists f.
Qed.

(** X17. The consolidated table holds nothing no report held: its labels
    are those of the frames fetched, and each of its rows is a row of one
    of them, reading under every label of the table what that row read
    (NaN where its frame had no such label). *)
Theorem consolidated_table_from_reports self e t :
  let frames := consolidated_frames self e t in
  let table := consolidated_table self e t in
  (forall c, c ∈ columns table <-> exists f, f ∈ frames /\ c ∈ columns f) /\
  (forall row,
     row ∈ data table ->
     exists f row0,
       f ∈ frames /\ row0 ∈ data f /\
       forall c, cell_at (columns table) row c = cell_at (columns f) row0 c) /\
  (forall row c,
     row ∈ data table -> (forall f, f ∈ frames -> c ∉ columns f) ->
     cell_at (columns table) row c = NaN).
Proof.
  cbv zeta. unfold consolidated_table.
  assert (forall row,
     row ∈ data (fold_left concat (consolidated_frames self e t) empty_frame) ->
     exists f row0,
       f ∈ consolidated_frames self e t /\ row0 ∈ data f /\
       forall c,
         cell_at (columns (fold_left concat (consolidated_frames self e t) empty_frame))
           row c = cell_at (columns f) row0 c) as Hrows.
  { intros row Hin.
    destruct (fold_concat_row_inv _ _ _ Hin) as (f & row0 & [->|Hf] & Hrow0 & Hc).
    - by apply elem_of_nil in Hrow0.
    - by exists f, row0. }
  split; [|split].
  - intros c. rewrite columns_fold_concat. simpl. split.
    + intros [Hn|?]; [by apply elem_of_nil in Hn|done].
    + by right.
  - exact Hrows.
  - intros row c Hin Hno.
    destruct (Hrows row Hin) as (f & row0 & Hf & _ & Hc).
    rewrite Hc. apply cell_at_not_in. by apply Hno.
Qed.

(** A frame [fetch_report] returns has a row as soon as it has a label. *)
Lemma fetched_frame_rows self account_id e t c :
  c ∈ columns (fetched_frame self account_id e t) ->
  data (fetched_frame self account_id e t) <> [].
Proof.
  unfold fetched_frame, report_frame.
  destruct (response_of _ _) as [report|]; [|by intros ?%elem_of_nil].
  destruct (report_rows report) as [rows|]; [|by intros ?%elem_of_nil].
  destruct (rmap _ rows) as [[|r records]|]; simpl;
    [by intros ?%elem_of_nil|done|by intros ?%elem_of_nil].
Qed.

Lemma list_sum_elem (l : list nat) n : n ∈ l -> (n <= list_sum l)%nat.
Proof.
  induction l as [|m l IH]; simpl; [by intros ?%elem_of_nil|].
  intros [->|Hin]%elem_of_cons; [lia|]. apply IH in Hin. lia.
Qed.


End Consolidation.

(** * The further properties on concrete runs *)

Module Edges.
Import Pandas PandasFacts Scenario.
#[local] Existing Instance builtins.

Definition world_of (e : env) (heap : list DataFrame) (files : gmap string file) : world :=
  mkWorld e 0 heap files old_rows 0 [] [] [].

(** A table without the [CLICKS] column. *)
Definition df_no_clicks : DataFrame :=
  mkDataFrame ["account_id"; "date"; "PAGE_VIEWS"]
    [[CStr "accounts/pub-1"; CStr "2024-10-03"; CFloat three]].

Definition w_no_clicks : world :=
  world_of (env0 service_one) [df_no_clicks] (all_files fresh).

Lemma clicks_is_count_column : "CLICKS" ∈ int_cols.
Proof. apply (bool_decide_unpack _). by vm_compute. Qed.

Lemma df_no_clicks_lacks_clicks : "CLICKS" ∉ columns df_no_clicks.
Proof. apply (bool_decide_unpack _). by vm_compute. Qed.

Lemma push_missing_count_column_witness :
  exists c',
    c' ∈ int_cols /\ (c' ∉ columns df_no_clicks) /\
    push_to_bigquery bq 0%nat w_no_clicks = (Raise (KeyError c'), w_no_clicks).
Proof.
  exact (push_missing_count_column bq 0%nat df_no_clicks w_no_clicks "CLICKS"
           eq_refl eq_refl clicks_is_count_column df_no_clicks_lacks_clicks).
Defined.

(** A report whose row has an infinite number of clicks. *)
Definition row_inf : api_row :=
  {| row_cells := Some (map value
       ["2024-10-03"; "example.com"; "US";
        "0.5"; "3.0"; "0.5"; "inf"; "0.12"; "0.5"; "3.0"; "3.0"; "3.0"; "3.0"; "3.0"]) |}.

Definition service_inf : service :=
  {| accounts_list := Ok one_account;
     reports_generate := fun _ =>
       Ok {| report_headers := Some headers; report_rows := Some [row_inf] |} |}.

Definition df_inf : DataFrame :=
  fetched_frame (api service_inf CREDENTIALS_FILE) "accounts/pub-1" (env0 service_inf) 0.

Definition w_inf : world := world_of (env0 service_inf) [df_inf] (all_files fresh).

Lemma df_inf_labels : Forall (fun l => l ∈ columns df_inf) int_cols.
Proof. apply (bool_decide_unpack _). by vm_compute. Qed.

Lemma df_inf_row : default [] (head (data df_inf)) ∈ data df_inf.
Proof. vm_compute. left. Qed.

Lemma push_uncoercible_count_witness :
  exists e, push_to_bigquery bq 0%nat w_inf = (Raise e, w_inf).
Proof.
  exact (push_uncoercible_count bq 0%nat df_inf w_inf (default [] (head (data df_inf)))
           "CLICKS" false eq_refl eq_refl df_inf_labels df_inf_row
           clicks_is_count_column eq_refl).
Defined.

(** The warehouse fails at its [n]-th request. *)
Definition env_bq_fault (n : nat) : env :=
  {| clock := fun _ => 20000%N;
     oauth_refresh := fun _ => Raise RefreshError;
     oauth_flow := fun _ => Raise OSError;
     discovery_build := fun _ => Ok service_one;
     write_fault := fun _ => None;
     bq_connect := None;
     bq_fault := fun k => if Nat.eqb k n then Some GoogleAPIError else None |}.

Definition w_delete_fails : world := world_of (env_bq_fault 1) [df0] (all_files fresh).
Definition w_append_fails : world := world_of (env_bq_fault 2) [df0] (all_files fresh).

Lemma delete_failure_keeps_table_witness :
  exists w',
    push_to_bigquery bq 0%nat w_delete_fails = (Raise GoogleAPIError, w') /\
    w_table w' = w_table w_delete_fails /\
    w_bq_log w' =
      w_bq_log w_delete_fails ++
      [EvQuery (strftime_Ymd
                  (Z.of_N (clock (w_env w_delete_fails) (w_ticks w_delete_fails)) - 1))] /\
    w_heap w' !! 0%nat = Some (coerce_frame int_cols df0).
Proof.
  exact (delete_failure_keeps_table bq 0%nat df0 w_delete_fails GoogleAPIError
           eq_refl eq_refl df0_consolidated (or_intror (conj eq_refl eq_refl))).
Defined.

Lemma append_failure_leaves_window_deleted_witness :
  exists w',
    push_to_bigquery bq 0%nat w_append_fails = (Raise GoogleAPIError, w') /\
    w_table w' = keep_before (cutoff_at w_append_fails) (w_table w_append_fails) /\
    List.filter (date_ge (cutoff_at w_append_fails)) (w_table w') = [] /\
    w_bq_log w' =
      w_bq_log w_append_fails ++
      [EvQuery (cutoff_at w_append_fails); EvQueryDone; EvAppend (loaded_rows df0)].
Proof.
  exact (append_failure_leaves_window_deleted bq 0%nat df0 w_append_fails GoogleAPIError
           eq_refl eq_refl df0_consolidated eq_refl eq_refl eq_refl).
Defined.

(** After the failed append the row of yesterday is gone and nothing has
    replaced it. *)
Example append_failure_table :
  map (dict_get "date") (w_table (snd (push_to_bigquery bq 0%nat w_append_fails))) =
  [Some (CStr "2024-10-02")].
Proof. vm_compute. reflexivity. Qed.

(** The clock stands at 2024-10-06: the fetched row, dated 2024-10-03, is
    older than the cutoff. *)
Definition env_later : env :=
  {| clock := fun _ => 20002%N;
     oauth_refresh := fun _ => Raise RefreshError;
     oauth_flow := fun _ => Raise OSError;
     discovery_build := fun _ => Ok service_one;
     write_fault := fun _ => None;
     bq_connect := None;
     bq_fault := fun _ => None |}.

Definition w_later : world := world_of env_later [df0] (all_files fresh).

Lemma rerun_duplicates_rows_below_cutoff_witness :
  exists w1 w2,
    push_to_bigquery bq 0%nat w_later = (Ok tt, w1) /\
    push_to_bigquery bq 0%nat w1 = (Ok tt, w2) /\
    w_table w2 =
      keep_before (cutoff_at w1) (keep_before (cutoff_at w_later) (w_table w_later)) ++
      keep_before (cutoff_at w1) (loaded_rows df0) ++
      loaded_rows df0 /\
    keep_before (cutoff_at w1) (w_table w2) =
      keep_before (cutoff_at w1) (keep_before (cutoff_at w_later) (w_table w_later)) ++
      keep_before (cutoff_at w1) (loaded_rows df0) ++
      keep_before (cutoff_at w1) (loaded_rows df0).
Proof.
  exact (rerun_duplicates_rows_below_cutoff bq 0%nat df0 w_later eq_refl eq_refl
           df0_consolidated (fun n => eq_refl)).
Defined.

(** Two loads of the same table two days late: its row is there twice. *)
Example late_rerun_dates :
  map (dict_get "date")
    (w_table (snd (push_to_bigquery bq 0%nat (snd (push_to_bigquery bq 0%nat w_later))))) =
  [Some (CStr "2024-10-02"); Some (CStr "2024-10-03");
   Some (CStr "2024-10-03"); Some (CStr "2024-10-03")].
Proof. vm_compute. reflexivity. Qed.

(** A report with a complete row and a row of two cells. *)
Definition row_short : api_row :=
  {| row_cells := Some (map value ["2024-10-03"; "example.com"]) |}.

Definition report_short : api_report :=
  {| report_headers := Some headers; report_rows := Some [row_yesterday; row_short] |}.

Definition service_short : service :=
  {| accounts_list := Ok one_account; reports_generate := fun _ => Ok report_short |}.

Definition w_short : world := world_of (env0 service_short) [] (all_files fresh).

Lemma row_short_in : row_short ∈ [row_yesterday; row_short].
Proof. right. left. Qed.

Lemma row_short_length : (length (map value ["2024-10-03"; "example.com"]) < 3)%nat.
Proof. simpl. lia. Qed.

Lemma one_bad_row_drops_report_witness :
  exists w',
    fetch_report (api service_short CREDENTIALS_FILE) "accounts/pub-1" w_short =
      (Ok (length (w_heap w_short)), w') /\
    w_heap w' = w_heap w_short ++ [empty_frame].
Proof.
  exact (one_bad_row_drops_report (api service_short CREDENTIALS_FILE) "accounts/pub-1"
           w_short service_short report_short [row_yesterday; row_short] row_short
           (map value ["2024-10-03"; "example.com"])
           eq_refl eq_refl eq_refl row_short_in eq_refl (or_introl row_short_length)).
Defined.

Definition w_fetch : world := world_of (env0 service_one) [] (all_files fresh).

Lemma report_rows_nonempty : [row_yesterday] <> [].
Proof. done. Qed.

Lemma headers_length : (3 <= length headers)%nat.
Proof. vm_compute. lia. Qed.

Lemma headers_named : Forall (fun h => is_Some (header_name h)) (drop 3 headers).
Proof. vm_compute. repeat constructor; by eexists. Qed.

Lemma headers_distinct : NoDup (metric_names headers).
Proof. apply (bool_decide_unpack _). by vm_compute. Qed.

Lemma headers_no_key k : k ∈ key_columns -> k ∉ metric_names headers.
Proof.
  unfold key_columns. rewrite !elem_of_cons, elem_of_nil.
  intros [->|[->|[->|[->|[]]]]]; apply (bool_decide_unpack _); by vm_compute.
Qed.

Lemma report_rows_good : Forall (good_row (length headers)) [row_yesterday].
Proof.
  constructor; [|constructor].
  eexists. split; [reflexivity|]. split; [reflexivity|]. split.
  - vm_compute. repeat constructor; by eexists.
  - vm_compute. repeat constructor; by eexists.
Qed.

Lemma fetch_report_frame_of_good_report_witness :
  exists w',
    fetch_report (api service_one CREDENTIALS_FILE) "accounts/pub-1" w_fetch =
      (Ok (length (w_heap w_fetch)), w') /\
    w_heap w' =
      w_heap w_fetch ++
      [mkDataFrame (key_columns ++ metric_names headers)
         (map (fun row => fetched_row "accounts/pub-1" (default [] (row_cells row)))
            [row_yesterday])].
Proof.
  exact (fetch_report_frame_of_good_report (api service_one CREDENTIALS_FILE)
           "accounts/pub-1" w_fetch service_one report headers [row_yesterday]
           eq_refl eq_refl eq_refl eq_refl report_rows_nonempty headers_length
           headers_named headers_distinct headers_no_key report_rows_good).
Defined.

Lemma one_account_complete :
  Forall (fun a => is_Some (account_name a) /\ is_Some (account_displayName a))
    (default [] (accounts_accounts one_account)).
Proof. repeat constructor; by eexists. Qed.

Lemma list_accounts_lists_names_witness :
  exists w',
    list_accounts (api service_one CREDENTIALS_FILE) w_fetch =
      (Ok (map (fun a => default "" (account_name a))
             (default [] (accounts_accounts one_account))), w') /\
    w_api_log w' = w_api_log w_fetch ++ [EvAccountsList] /\
    w_heap w' = w_heap w_fetch /\
    w_table w' = w_table w_fetch.
Proof.
  exact (list_accounts_lists_names (api service_one CREDENTIALS_FILE) w_fetch
           service_one one_account eq_refl eq_refl one_account_complete).
Defined.

(** Two accounts, the second without a display name. *)
Definition unnamed : api_account :=
  {| account_name := Some "accounts/pub-2"; account_displayName := None |}.

Definition accounts_unnamed : api_accounts :=
  {| accounts_accounts :=
       Some [{| account_name := Some "accounts/pub-1";
                account_displayName := Some "Publisher" |}; unnamed] |}.

Definition service_unnamed : service :=
  {| accounts_list := Ok accounts_unnamed; reports_generate := fun _ => Ok report |}.

Lemma unnamed_in : unnamed ∈ default [] (accounts_accounts accounts_unnamed).
Proof. right. left. Qed.

Lemma one_bad_account_drops_listing_witness :
  exists w', list_accounts (api service_unnamed CREDENTIALS_FILE) w_fetch = (Ok [], w').
Proof.
  exact (one_bad_account_drops_listing (api service_unnamed CREDENTIALS_FILE) w_fetch
           service_unnamed accounts_unnamed unnamed eq_refl eq_refl unnamed_in
           (or_intror eq_refl)).
Defined.

(** An API object before [authenticate]. *)
Definition unauthenticated (path : string) : AdSenseAPI :=
  mkAdSenseAPI None None CLIENT_SECRETS_FILE path.

Lemma stored_fresh :
  w_files w_sink !! credentials_file (unauthenticated CREDENTIALS_FILE) =
  Some (FileCredentials fresh).
Proof. vm_compute. reflexivity. Qed.

Lemma authenticate_uses_stored_credential_witness :
  exists w',
    authenticate (unauthenticated CREDENTIALS_FILE) w_sink =
      (Ok (mkAdSenseAPI (Some service_one) (Some fresh) CLIENT_SECRETS_FILE
             CREDENTIALS_FILE), w') /\
    w_files w' = w_files w_sink /\
    forall e,
      discovery_build e = discovery_build (w_env w_sink) ->
      fst (authenticate (unauthenticated CREDENTIALS_FILE) (with_env e w_sink)) =
      Ok (mkAdSenseAPI (Some service_one) (Some fresh) CLIENT_SECRETS_FILE
            CREDENTIALS_FILE).
Proof.
  exact (authenticate_uses_stored_credential (unauthenticated CREDENTIALS_FILE) w_sink
           fresh service_one stored_fresh eq_refl eq_refl).
Defined.

(** The consent flow answers with a credential; the refresh too. *)
Definition env_consent : env :=
  {| clock := fun _ => 20000%N;
     oauth_refresh := fun _ => Ok fresh;
     oauth_flow := fun _ => Ok fresh;
     discovery_build := fun _ => Ok service_one;
     write_fault := fun _ => None;
     bq_connect := None;
     bq_fault := fun _ => None |}.

Definition w_no_file : world := world_of env_consent [] ∅.

Lemma no_file_needs_consent : needs_consent (w_files w_no_file !! CREDENTIALS_FILE).
Proof. by vm_compute. Qed.


(** The stored credential of the second source has expired. *)
Definition w_refresh : world := world_of env_consent [] (all_files stale).

Lemma stored_stale (e : env) :
  w_files (world_of e [] (all_files stale)) !!
    credentials_file (unauthenticated CREDENTIALS_FILE_2) =
  Some (FileCredentials stale).
Proof. vm_compute. reflexivity. Qed.

Lemma authenticate_refresh_not_saved_witness :
  exists w',
    authenticate (unauthenticated CREDENTIALS_FILE_2) w_refresh =
      (Ok (mkAdSenseAPI (Some service_one) (Some fresh) CLIENT_SECRETS_FILE
             CREDENTIALS_FILE_2), w') /\
    w_files w' = w_files w_refresh /\
    w_files w' !! CREDENTIALS_FILE_2 = Some (FileCredentials stale).
Proof.
  exact (authenticate_refresh_not_saved (unauthenticated CREDENTIALS_FILE_2) w_refresh
           stale fresh service_one (stored_stale env_consent) eq_refl eq_refl eq_refl
           eq_refl eq_refl).
Defined.

(** The refresh fails and the consent flow would answer. *)
Definition env_no_refresh : env :=
  {| clock := fun _ => 20000%N;
     oauth_refresh := fun _ => Raise RefreshError;
     oauth_flow := fun _ => Ok fresh;
     discovery_build := fun _ => Ok service_one;
     write_fault := fun _ => None;
     bq_connect := None;
     bq_fault := fun _ => None |}.

Definition w_no_refresh : world := world_of env_no_refresh [] (all_files stale).

Lemma authenticate_refresh_failure_raises_witness :
  exists w',
    authenticate (unauthenticated CREDENTIALS_FILE_2) w_no_refresh =
      (Raise RefreshError, w') /\
    w_files w' = w_files w_no_refresh.
Proof.
  exact (authenticate_refresh_failure_raises (unauthenticated CREDENTIALS_FILE_2)
           w_no_refresh stale RefreshError (stored_stale env_no_refresh)
           eq_refl eq_refl eq_refl).
Defined.

(** The credentials file holds something else than a credential. *)
Definition w_other : world :=
  world_of env_consent [] (<[CREDENTIALS_FILE := FileOther]> ∅).

Lemma stored_other :
  w_files w_other !! credentials_file (unauthenticated CREDENTIALS_FILE) = Some FileOther.
Proof. vm_compute. reflexivity. Qed.


Lemma constructed :
  AdSenseReportProcessor_init w_sink =
  (Ok (processor service_one), snd (AdSenseReportProcessor_init w_sink)).
Proof. vm_compute. reflexivity. Qed.

Lemma constructor_builds_four_services_witness :
  Forall (fun a => is_Some (api_service a) /\ is_Some (api_credentials a))
    (apis_of (processor service_one)) /\
  map credentials_file (apis_of (processor service_one)) =
    [CREDENTIALS_FILE; CREDENTIALS_FILE_2; CREDENTIALS_FILE_3; CREDENTIALS_FILE_4] /\
  map client_secrets_file (apis_of (processor service_one)) =
    [CLIENT_SECRETS_FILE; CLIENT_SECRETS_FILE; CLIENT_SECRETS_FILE;
     CLIENT_SECRETS_FILE] /\
  w_api_log (snd (AdSenseReportProcessor_init w_sink)) = w_api_log w_sink /\
  w_bq_log (snd (AdSenseReportProcessor_init w_sink)) = w_bq_log w_sink /\
  w_table (snd (AdSenseReportProcessor_init w_sink)) = w_table w_sink.
Proof.
  exact (constructor_builds_four_services w_sink (processor service_one)
           (snd (AdSenseReportProcessor_init w_sink)) constructed).
Defined.

Lemma processor_has_services :
  Forall (fun a => is_Some (api_service a)) (apis_of (processor service_one)).
Proof. repeat constructor; by eexists. Qed.


(** Four sources with one account each: eight requests, each report
    asked for the account just listed, from 2024-10-03 to 2024-10-04. *)
Example requests_of_a_run :
  map (fun ev => match ev with
                 | EvAccountsList => ("list", (0, 0, 0), (0, 0, 0))
                 | EvReportsGenerate req =>
                     (req_account req, req_startDate req, req_endDate req)
                 end)
    (w_api_log (snd (process_reports (processor service_one) w_fetch))) =
  [("list", (0, 0, 0), (0, 0, 0));
   ("accounts/pub-1", (2024, 10, 3), (2024, 10, 4));
   ("list", (0, 0, 0), (0, 0, 0));
   ("accounts/pub-1", (2024, 10, 3), (2024, 10, 4));
   ("list", (0, 0, 0), (0, 0, 0));
   ("accounts/pub-1", (2024, 10, 3), (2024, 10, 4));
   ("list", (0, 0, 0), (0, 0, 0));
   ("accounts/pub-1", (2024, 10, 3), (2024, 10, 4))].
Proof. vm_compute. reflexivity. Qed.

End Edges.

Module Loaded.
Import Pandas PandasFacts Scenario.

(** A [float()] that returns no infinity on the strings of the scenario. *)
#[local] Instance finite_builtins : PyBuiltins := {|
  py_float s := dict_get s [("3.0", three); ("0.12", rate_012); ("0.5", half);
                            ("nan", S754_nan)];
  py_int s := dict_get s [("0", 0); ("3", 3)]
|}.

Definition w_run : world :=
  mkWorld (env0 service_one) 0 [] (all_files fresh) old_rows 0 [] [] [].

Lemma finite_builtins_finite s f :
  py_float s = Some f -> f = S754_nan \/ is_Some (float_trunc f).
Proof.
  unfold py_float, finite_builtins, dict_get.
  repeat (destruct (String.eqb s _);
          [intros [= <-]; first [by left | right; eexists; reflexivity]|]).
  done.
Qed.

Lemma some_frame_has_counts :
  Exists (fun f => Forall (fun l => l ∈ columns f) int_cols)
    (consolidated_frames (processor service_one) (w_env w_run) (w_ticks w_run)).
Proof. apply (bool_decide_unpack _). by vm_compute. Qed.


(** The four rows fetched are loaded behind the row the delete kept. *)
Example loaded_run :
  map (dict_get "date") (w_table (snd (process_reports (processor service_one) w_run))) =
  [Some (CStr "2024-10-02"); Some (CStr "2024-10-03"); Some (CStr "2024-10-03");
   Some (CStr "2024-10-03"); Some (CStr "2024-10-03")] /\
  map (dict_get "CLICKS") (w_table (snd (process_reports (processor service_one) w_run))) =
  [None; Some (CInt 0); Some (CInt 0); Some (CInt 0); Some (CInt 0)].
Proof. vm_compute. split; reflexivity. Qed.

End Loaded.
